(** * Subnet-88 allocation engine: metrics, ranking, allocation, rebalancing

    A shallow embedding of [dynamic_strategy_optimizer.py] (class
    [DynamicStrategyOptimizer] and [main]) and of [enhanced_miner.py]
    (class [EnhancedMiner] and the loop of [run_enhanced_miner]).

    Numbers.  Python and numpy floats are modelled by exact rationals
    ([Q]); rounding and overflow are not modelled.  The special values
    that the code itself produces and tests for ([float('inf')],
    [np.isfinite], numpy division by zero) are modelled by the type [fl]
    below.  Equalities between computed numbers are stated up to [==]. *)

From Stdlib Require Import String.
From Stdlib Require Import QArith Qabs Lqa ZArith List Bool Lia.
From Stdlib Require Import Permutation Sorting.Sorted.
Import ListNotations.
Local Open Scope Q_scope.

(* ================================================================== *)
(** * Comparisons and Python's [max] on rationals *)

Definition Q_ltb (x y : Q) : bool := negb (Qle_bool y x).
Definition Q_gtb (x y : Q) : bool := Q_ltb y x.
Definition Q_geb (x y : Q) : bool := Qle_bool y x.

(** Python's builtin [max(a, b)]: keeps [a] unless [b > a]. *)
Definition py_max (a b : Q) : Q := if Q_gtb b a then b else a.

(** Python's builtin [min(a, b)]: keeps [a] unless [b < a]. *)
Definition py_min (a b : Q) : Q := if Q_ltb b a then b else a.

(** Python's builtin [sum]: starts from 0 and adds from the left. *)
Definition py_sum (l : list Q) : Q := fold_left Qplus l 0.

(* ================================================================== *)
(** * Floats with the special values

    [Fin q] is an ordinary number; [PInf], [NInf] and [NaN] are
    [+inf], [-inf] and [nan].  Arithmetic on [Fin] is exact; the special
    values follow IEEE 754 as numpy applies it (division by zero gives an
    infinity or [nan], never an exception).  Signed zeros are not
    distinguished. *)

Inductive fl : Type :=
| Fin (q : Q)
| PInf
| NInf
| NaN.

Definition Q_is_zero (q : Q) : bool := Qeq_bool q 0.
Definition Q_is_pos (q : Q) : bool := Q_ltb 0 q.

(** [np.isfinite] *)
Definition isfinite (x : fl) : bool :=
  match x with Fin _ => true | _ => false end.

Definition fopp (x : fl) : fl :=
  match x with
  | Fin q => Fin (- q)
  | PInf => NInf
  | NInf => PInf
  | NaN => NaN
  end.

Definition fabs (x : fl) : fl :=
  match x with
  | Fin q => Fin (Qabs q)
  | PInf | NInf => PInf
  | NaN => NaN
  end.

Definition fadd (x y : fl) : fl :=
  match x, y with
  | NaN, _ | _, NaN => NaN
  | Fin a, Fin b => Fin (a + b)
  | PInf, NInf | NInf, PInf => NaN
  | PInf, _ | _, PInf => PInf
  | NInf, _ | _, NInf => NInf
  end.

Definition fsub (x y : fl) : fl := fadd x (fopp y).

(** An infinity times a finite number: the sign follows the number, and
    infinity times zero is [nan]. *)
Definition inf_times (pos : bool) (q : Q) : fl :=
  if Q_is_zero q then NaN
  else if Bool.eqb pos (Q_is_pos q) then PInf else NInf.

Definition fmul (x y : fl) : fl :=
  match x, y with
  | NaN, _ | _, NaN => NaN
  | Fin a, Fin b => Fin (a * b)
  | PInf, Fin b => inf_times true b
  | NInf, Fin b => inf_times false b
  | Fin a, PInf => inf_times true a
  | Fin a, NInf => inf_times false a
  | PInf, PInf | NInf, NInf => PInf
  | PInf, NInf | NInf, PInf => NInf
  end.

Definition fdiv (x y : fl) : fl :=
  match x, y with
  | NaN, _ | _, NaN => NaN
  | Fin a, Fin b =>
      if Q_is_zero b then
        (if Q_is_zero a then NaN else if Q_is_pos a then PInf else NInf)
      else Fin (a / b)
  | Fin _, (PInf | NInf) => Fin 0
  | PInf, Fin b => if Q_ltb b 0 then NInf else PInf
  | NInf, Fin b => if Q_ltb b 0 then PInf else NInf
  | (PInf | NInf), (PInf | NInf) => NaN
  end.

(** Comparisons: every comparison with [nan] is false, except [!=]. *)
Definition flt (x y : fl) : bool :=
  match x, y with
  | NaN, _ | _, NaN => false
  | Fin a, Fin b => Q_ltb a b
  | NInf, NInf => false
  | NInf, _ => true
  | _, NInf => false
  | PInf, _ => false
  | Fin _, PInf => true
  end.

Definition fgt (x y : fl) : bool := flt y x.

Definition feqb (x y : fl) : bool :=
  match x, y with
  | Fin a, Fin b => Qeq_bool a b
  | PInf, PInf | NInf, NInf => true
  | _, _ => false
  end.

Definition fle (x y : fl) : bool := flt x y || feqb x y.
Definition fne (x y : fl) : bool := negb (feqb x y).

(** Python's builtin [max(a, b)] on floats: keeps [a] unless [b > a], so a
    [nan] in first position is returned. *)
Definition fl_py_max (a b : fl) : fl := if fgt b a then b else a.

(** Equality of floats as values: the same special value, or equal
    numbers. *)
Definition fl_eq (x y : fl) : Prop :=
  match x, y with
  | Fin a, Fin b => a == b
  | PInf, PInf | NInf, NInf | NaN, NaN => True
  | _, _ => False
  end.

(* ================================================================== *)
(** * Python dictionaries with integer keys

    A [dict] keeps its keys in insertion order; assigning to an existing
    key replaces the value in place. *)

Module Dict.
Section Defs.
Context {V : Type}.

Definition t := list (Z * V).

Definition empty : t := [].

Fixpoint get (d : t) (k : Z) : option V :=
  match d with
  | [] => None
  | (k', v) :: d' => if Z.eqb k' k then Some v else get d' k
  end.

(** [d.get(k, default)] *)
Definition get_default (d : t) (k : Z) (default : V) : V :=
  match get d k with Some v => v | None => default end.

(** [d[k] = v] *)
Fixpoint set (d : t) (k : Z) (v : V) : t :=
  match d with
  | [] => [(k, v)]
  | (k', v') :: d' =>
      if Z.eqb k' k then (k, v) :: d' else (k', v') :: set d' k v
  end.

Definition keys (d : t) : list Z := map fst d.
Definition values (d : t) : list V := map snd d.

(** [not d] *)
Definition is_empty (d : t) : bool :=
  match d with [] => true | _ :: _ => false end.
End Defs.
Arguments t : clear implicits.
End Dict.

(** [not l] for a Python list. *)
Definition list_is_empty {A} (l : list A) : bool :=
  match l with [] => true | _ :: _ => false end.

(* ================================================================== *)
(** * The optimizer object

    The attributes of [DynamicStrategyOptimizer]; the two dictionaries
    [performance_history] and [risk_metrics], which no method reads, are
    left out. *)

(** [datetime] values, in microseconds since a fixed origin. *)
Definition datetime := Z.

(** [timedelta.total_seconds()] of a difference in microseconds. *)
Definition total_seconds (delta : Z) : Q := inject_Z delta / 1000000.

Record Optimizer := mkOptimizer {
  lookback_days : Z;
  rebalance_threshold : Q;
  max_allocation : Q;
  min_allocation : Q;
  cash_allocation : Q;
  last_rebalance : option datetime;
  target_sharpe : Q;
  max_drawdown_limit : Q;
  min_subnets : nat;
  max_subnets : nat
}.

(** [DynamicStrategyOptimizer.__init__] *)
Definition init (lookback_days : Z) (rebalance_threshold max_allocation : Q)
  : Optimizer :=
  {| lookback_days := lookback_days;
     rebalance_threshold := rebalance_threshold;
     max_allocation := max_allocation;
     min_allocation := 0.02;
     cash_allocation := 0.05;
     last_rebalance := None;
     target_sharpe := 0.1;
     max_drawdown_limit := 0.8;
     min_subnets := 5;
     max_subnets := 10 |}.

(** [self.last_rebalance = datetime.now()], the only attribute the code
    ever reassigns (in [save_strategy_to_file]). *)
Definition set_last_rebalance (self : Optimizer) (now : datetime) : Optimizer :=
  {| lookback_days := lookback_days self;
     rebalance_threshold := rebalance_threshold self;
     max_allocation := max_allocation self;
     min_allocation := min_allocation self;
     cash_allocation := cash_allocation self;
     last_rebalance := Some now;
     target_sharpe := target_sharpe self;
     max_drawdown_limit := max_drawdown_limit self;
     min_subnets := min_subnets self;
     max_subnets := max_subnets self |}.

(* ================================================================== *)
(** * Metric records

    The dictionary stored in [metrics[netuid]].  A field is a rational
    where the code can only put a number in it, and an [fl] where a
    special value can reach it. *)

Record MetricRecord := mkMetricRecord {
  total_return : Q;
  volatility : Q;
  sharpe : Q;
  max_drawdown : fl;
  win_rate : Q;
  profit_factor : fl;
  kelly : fl;
  mar : fl;
  lsr : Q;
  odds : fl;
  daily_return : fl;
  composite_score : fl;
  emission : Q;
  weight : Q;
  current_price : Q;
  data_points : nat
}.

(* ================================================================== *)
(** * numpy and pandas helpers on arrays of numbers *)

Definition Q_of_nat (n : nat) : Q := inject_Z (Z.of_nat n).

(** [np.sum] *)
Definition np_sum (a : list Q) : Q := fold_left Qplus a 0.

(** [np.mean] of a non-empty array. *)
Definition mean_of (a : list Q) : Q := np_sum a / Q_of_nat (length a).

(** [np.mean]: the mean of an empty array is [nan] (with a warning). *)
Definition np_mean (a : list Q) : fl :=
  match a with
  | [] => NaN
  | _ :: _ => Fin (mean_of a)
  end.

(** [np.diff] *)
Fixpoint np_diff (a : list Q) : list Q :=
  match a with
  | x :: (y :: _) as t => (y - x) :: np_diff t
  | _ => []
  end.

(** Elementwise [a / b] on arrays, numpy semantics on division by zero. *)
Definition np_divide (a b : list Q) : list fl :=
  map (fun xy => fdiv (Fin (fst xy)) (Fin (snd xy))) (combine a b).

(** [a[np.isfinite(a)]]: the finite entries, in order. *)
Fixpoint finite_values (a : list fl) : list Q :=
  match a with
  | [] => []
  | Fin q :: t => q :: finite_values t
  | _ :: t => finite_values t
  end.

(** Running product and running maximum from a current value. *)
Fixpoint running_prod (acc : Q) (a : list Q) : list Q :=
  match a with
  | [] => []
  | x :: t => (acc * x) :: running_prod (acc * x) t
  end.

(** [np.cumprod] *)
Definition np_cumprod (a : list Q) : list Q :=
  match a with
  | [] => []
  | x :: t => x :: running_prod x t
  end.

Definition np_maximum (x y : Q) : Q := if Q_ltb x y then y else x.

Fixpoint running_max (acc : Q) (a : list Q) : list Q :=
  match a with
  | [] => []
  | x :: t => np_maximum acc x :: running_max (np_maximum acc x) t
  end.

(** [np.maximum.accumulate] *)
Definition np_maximum_accumulate (a : list Q) : list Q :=
  match a with
  | [] => []
  | x :: t => x :: running_max x t
  end.

(** [np.minimum] on floats: a [nan] on either side wins. *)
Definition np_minimum (x y : fl) : fl :=
  match x, y with
  | NaN, _ | _, NaN => NaN
  | _, _ => if flt y x then y else x
  end.

(** [np.min] of a non-empty array ([nan] stands for the empty case, which
    the caller guards). *)
Definition np_min (a : list fl) : fl :=
  match a with
  | [] => NaN
  | x :: t => fold_left np_minimum t x
  end.

(** [a[a > 0]] and [a[a < 0]] *)
Definition positives (a : list Q) : list Q := filter (fun r => Q_gtb r 0) a.
Definition negatives (a : list Q) : list Q := filter (fun r => Q_ltb r 0) a.

(** [a[-1]], with 0 standing for the guarded empty case. *)
Definition last_of (a : list Q) : Q := last a 0.
(** [a[0]] *)
Definition first_of (a : list Q) : Q := hd 0 a.

(* ================================================================== *)
(** * MetricsCalculator: [calculate_performance_metrics] *)

(** One row of the data frame read from [bndaily]; the columns [tao_in]
    and [alpha_in] are never read and are left out. *)
Record Row := mkRow {
  row_netuid : Z;
  row_date : string;
  row_price : Q;
  row_emission : Q;
  row_weight : Q
}.

Module Metrics.

(** [df['netuid'].unique()]: the values in order of first appearance. *)
Fixpoint unique (l : list Z) : list Z :=
  match l with
  | [] => []
  | x :: t => x :: filter (fun y => negb (Z.eqb y x)) (unique t)
  end.

(** [subnet_data.sort_values('date')], as an insertion sort that keeps
    rows with the same date in their order; the default sort of pandas may
    put rows of one date in another order. *)
Fixpoint insert_by_date (r : Row) (l : list Row) : list Row :=
  match l with
  | [] => [r]
  | r' :: t =>
      if String.leb (row_date r) (row_date r') then r :: r' :: t
      else r' :: insert_by_date r t
  end.

Definition sort_values_date (l : list Row) : list Row :=
  fold_right insert_by_date [] l.

(** [df[df['netuid'] == netuid]] *)
Definition rows_of (df : list Row) (netuid : Z) : list Row :=
  filter (fun r => Z.eqb (row_netuid r) netuid) df.

(** [returns = np.diff(prices) / prices[:-1]; returns[np.isfinite(returns)]] *)
Definition returns_of (prices : list Q) : list Q :=
  finite_values (np_divide (np_diff prices) (removelast prices)).

Definition total_return_of (prices : list Q) : Q :=
  if Q_gtb (first_of prices) 0
  then (last_of prices - first_of prices) / first_of prices
  else 0.

Definition positive_days_of (returns : list Q) : nat := length (positives returns).

Definition win_rate_of (returns : list Q) : Q :=
  if (0 <? length returns)%nat
  then Q_of_nat (positive_days_of returns) / Q_of_nat (length returns)
  else 0.

Definition avg_win_of (returns : list Q) : Q :=
  if (0 <? positive_days_of returns)%nat then mean_of (positives returns) else 0.

(** The guard counts the days that are not positive, the mean is taken
    over the negative ones. *)
Definition avg_loss_of (returns : list Q) : fl :=
  if (0 <? length returns - positive_days_of returns)%nat
  then np_mean (negatives returns)
  else Fin 0.

Definition profit_factor_of (returns : list Q) : fl :=
  if fne (avg_loss_of returns) (Fin 0)
  then fabs (fdiv (Fin (avg_win_of returns)) (avg_loss_of returns))
  else PInf.

Definition kelly_of (returns : list Q) : fl :=
  if fgt (profit_factor_of returns) (Fin 0)
  then fsub (Fin (win_rate_of returns))
            (fdiv (Fin (1 - win_rate_of returns)) (profit_factor_of returns))
  else Fin 0.

Definition cumulative_of (returns : list Q) : list Q :=
  np_cumprod (map (fun r => 1 + r) returns).

Definition peak_of (returns : list Q) : list Q :=
  np_maximum_accumulate (cumulative_of returns).

(** [(cumulative - peak) / peak] *)
Definition drawdown_of (returns : list Q) : list fl :=
  np_divide
    (map (fun cp => fst cp - snd cp) (combine (cumulative_of returns) (peak_of returns)))
    (peak_of returns).

Definition max_drawdown_of (returns : list Q) : fl :=
  if (0 <? length (drawdown_of returns))%nat
  then np_min (drawdown_of returns)
  else Fin 0.

Definition mar_of (prices returns : list Q) : fl :=
  fdiv (Fin (total_return_of prices))
       (fl_py_max (fabs (max_drawdown_of returns)) (Fin 0.01)).

Definition lsr_of (returns : list Q) : Q :=
  if Q_gtb (np_sum (map Qabs returns)) 0
  then np_sum returns / np_sum (map Qabs returns)
  else 0.

Definition odds_of (returns : list Q) : fl :=
  fadd (Fin 50) (fmul (fdiv (kelly_of returns) (Fin 2)) (Fin 100)).

Section FloatOps.

(** The two operations whose results are not rational: the square root
    inside [np.std] and the power [**] with a fractional exponent.  They
    stand for whatever the floating-point library returns. *)
Variable np_sqrt : Q -> Q.
Variable float_pow : Q -> Q -> fl.

(** [np.std]: [sqrt(mean(abs(x - x.mean())**2))] *)
Definition np_std (a : list Q) : Q :=
  np_sqrt (mean_of (map (fun x => Qabs (x - mean_of a) * Qabs (x - mean_of a)) a)).

Definition volatility_of (returns : list Q) : Q :=
  if (1 <? length returns)%nat then np_std returns else 0.

Definition sharpe_of (returns : list Q) : Q :=
  if Q_gtb (volatility_of returns) 0
  then mean_of returns / volatility_of returns
  else 0.

Definition daily_return_of (prices returns : list Q) : fl :=
  if (0 <? length returns)%nat
  then fsub (float_pow (1 + total_return_of prices) (1 / Q_of_nat (length returns)))
            (Fin 1)
  else Fin 0.

Definition composite_score_of (prices returns : list Q) : fl :=
  fmul (fmul (fmul (fmul (mar_of prices returns) (Fin (lsr_of returns)))
                   (odds_of returns))
             (daily_return_of prices returns))
       (Fin 100).

(** The body of the loop for one subnet; [None] is a [continue]. *)
Definition subnet_record (subnet_data : list Row) : option MetricRecord :=
  if (length subnet_data <? 5)%nat then None
  else
    let subnet_data := sort_values_date subnet_data in
    let prices := map row_price subnet_data in
    if (length prices =? 0)%nat || forallb Q_is_zero prices then None
    else
      let returns := returns_of prices in
      if (length returns =? 0)%nat then None
      else
        Some {| total_return := total_return_of prices;
                volatility := volatility_of returns;
                sharpe := sharpe_of returns;
                max_drawdown := fabs (max_drawdown_of returns);
                win_rate := win_rate_of returns;
                profit_factor := profit_factor_of returns;
                kelly := kelly_of returns;
                mar := mar_of prices returns;
                lsr := lsr_of returns;
                odds := odds_of returns;
                daily_return := daily_return_of prices returns;
                composite_score := composite_score_of prices returns;
                emission := mean_of (map row_emission subnet_data);
                weight := mean_of (map row_weight subnet_data);
                current_price := last_of prices;
                data_points := length returns |}.

Definition metrics_step (df : list Row) (metrics : Dict.t MetricRecord)
           (netuid : Z) : Dict.t MetricRecord :=
  match subnet_record (rows_of df netuid) with
  | Some r => Dict.set metrics netuid r
  | None => metrics
  end.

Definition calculate_performance_metrics (df : list Row) : Dict.t MetricRecord :=
  fold_left (metrics_step df) (unique (map row_netuid df)) Dict.empty.

End FloatOps.

(** The prices and the returns the record of a subnet is computed from. *)
Definition prices_of_rows (subnet_data : list Row) : list Q :=
  map row_price (sort_values_date subnet_data).

Definition returns_of_rows (subnet_data : list Row) : list Q :=
  returns_of (prices_of_rows subnet_data).

End Metrics.

(* ================================================================== *)
(** * Ranker: [rank_subnets] *)

Module Ranker.

Definition is_nan (x : fl) : bool :=
  match x with NaN => true | _ => false end.

(** pandas reductions skip [nan]; with nothing left the result is [nan]. *)
Definition skipna (col : list fl) : list fl :=
  filter (fun x => negb (is_nan x)) col.

Definition series_max (col : list fl) : fl :=
  match skipna col with
  | [] => NaN
  | x :: t => fold_left (fun a b => if fgt b a then b else a) t x
  end.

Definition series_min (col : list fl) : fl :=
  match skipna col with
  | [] => NaN
  | x :: t => fold_left (fun a b => if flt b a then b else a) t x
  end.

(** The three filters, applied one after the other. *)
Definition filter_problematic (self : Optimizer) (df : Dict.t MetricRecord)
  : Dict.t MetricRecord :=
  let df := filter (fun kv => (5 <=? data_points (snd kv))%nat) df in
  let df := filter (fun kv => fle (max_drawdown (snd kv))
                                  (Fin (max_drawdown_limit self))) df in
  let df := filter (fun kv => Q_ltb (volatility (snd kv)) 5.0) df in
  df.

(** The scoring weights, in the order the dictionary lists them. *)
Definition weights : list ((MetricRecord -> fl) * Q) :=
  [ (composite_score, 0.30);
    (fun m => Fin (sharpe m), 0.25);
    (mar, 0.20);
    (fun m => Fin (win_rate m), 0.15);
    (fun m => Fin (emission m), 0.10) ].

(** Min-max normalisation of one column, 0.5 everywhere when the range is
    not positive. *)
Definition normalize_column (col : list fl) : list fl :=
  let max_val := series_max col in
  let min_val := series_min col in
  if fgt max_val min_val
  then map (fun x => fdiv (fsub x min_val) (fsub max_val min_val)) col
  else map (fun _ => Fin 0.5) col.

Definition add_weighted (df : Dict.t MetricRecord) (acc : list fl)
           (mw : (MetricRecord -> fl) * Q) : list fl :=
  let norm := normalize_column (map (fun kv => fst mw (snd kv)) df) in
  map (fun an => fadd (fst an) (fmul (snd an) (Fin (snd mw)))) (combine acc norm).

(** The column [weighted_score], row by row. *)
Definition weighted_scores (df : Dict.t MetricRecord) : list fl :=
  fold_left (add_weighted df) weights (map (fun _ => Fin 0) df).

(** The rows of the filtered frame with their score, in frame order. *)
Definition scored_rows (self : Optimizer) (metrics : Dict.t MetricRecord)
  : list (Z * fl) :=
  let df := filter_problematic self metrics in
  combine (Dict.keys df) (weighted_scores df).

Section Sorting.

(** [df.sort_values('weighted_score', ascending=False)] on the pairs of
    index and score.  The call leaves pandas' default sorting algorithm in
    place, so the algorithm is a parameter here. *)
Variable sort_values_desc : list (Z * fl) -> list (Z * fl).

Definition ranked_rows (self : Optimizer) (metrics : Dict.t MetricRecord)
  : list (Z * fl) :=
  if Dict.is_empty metrics then []
  else sort_values_desc (scored_rows self metrics).

Definition rank_subnets (self : Optimizer) (metrics : Dict.t MetricRecord)
  : list Z :=
  map fst (ranked_rows self metrics).

End Sorting.

(** Descending order of scores, [nan] last: [a] may stand before [b]. *)
Definition score_geb (a b : fl) : bool :=
  match a, b with
  | _, NaN => true
  | NaN, _ => false
  | _, _ => fle b a
  end.

Definition score_gtb (a b : fl) : bool := negb (score_geb b a).

Definition desc_sorted (l : list (Z * fl)) : Prop :=
  StronglySorted (fun x y => score_geb (snd x) (snd y) = true) l.

(** What pandas promises of [sort_values] whatever the algorithm: the
    rows are kept and come out in descending order of the score. *)
Definition sorts_descending (sort : list (Z * fl) -> list (Z * fl)) : Prop :=
  forall l, Permutation l (sort l) /\ desc_sorted (sort l).

(** What a stable sort adds: rows with equal scores keep their order. *)
Definition keeps_order_of_ties (sort : list (Z * fl) -> list (Z * fl)) : Prop :=
  forall l s,
    filter (fun x => feqb (snd x) s) (sort l) = filter (fun x => feqb (snd x) s) l.

(** An insertion sort in descending order; [before] tells whether a row
    goes in front of a row already placed.  With [score_geb] a row goes
    before the rows of equal score already placed, which keeps rows of
    equal score in their order. *)
Fixpoint insert_row (before : fl -> fl -> bool) (x : Z * fl) (l : list (Z * fl))
  : list (Z * fl) :=
  match l with
  | [] => [x]
  | y :: t =>
      if before (snd x) (snd y) then x :: y :: t
      else y :: insert_row before x t
  end.

Definition insertion_sort (before : fl -> fl -> bool) (l : list (Z * fl))
  : list (Z * fl) :=
  fold_right (insert_row before) [] l.

Definition stable_sort_desc := insertion_sort score_geb.

(** The claim on ties, for a given sort: for every score, the entities
    with that score come out of [rank_subnets] in the order in which the
    filtered frame lists them. *)
Definition ties_in_input_order (sort : list (Z * fl) -> list (Z * fl))
           (self : Optimizer) (metrics : Dict.t MetricRecord) : Prop :=
  forall s,
    map fst (filter (fun x => feqb (snd x) s) (ranked_rows sort self metrics))
    = map fst (filter (fun x => feqb (snd x) s) (scored_rows self metrics)).

End Ranker.

(* ================================================================== *)
(** * The sort behind [sort_values]

    [DataFrame.sort_values] with its default [kind='quicksort'] sorts one
    column through [nargsort], which calls numpy's [argsort] of the same
    kind: an introsort on an array of positions.  Ranges of more than 16
    positions are partitioned around a median of three, shorter ones are
    sorted by insertion, and a range reached past the depth limit is sorted
    by heapsort.  The kind gives no guarantee on the order of equal values. *)

Module Numpy.

(** numpy's order on doubles, [nan] last: [a < b || (b != b && a == a)]. *)
Definition less (a b : fl) : bool :=
  flt a b || (Ranker.is_nan b && negb (Ranker.is_nan a)).

(** [a[i] = x] on an array. *)
Fixpoint set_nth {A} (a : list A) (i : nat) (x : A) : list A :=
  match a, i with
  | [], _ => []
  | _ :: t, O => x :: t
  | y :: t, S i' => y :: set_nth t i' x
  end.

Definition swap (a : list nat) (i j : nat) : list nat :=
  set_nth (set_nth a i (nth j a O)) j (nth i a O).

(** [npy_get_msb] *)
Definition npy_get_msb (num : nat) : nat := Nat.log2 num.

Definition SMALL_QUICKSORT : nat := 16.

Section Argsort.
(** The array [v] that is sorted by position. *)
Variable v : list fl.

Definition key (i : nat) : fl := nth i v NaN.

(** [do { ++pi; } while (less(v[*pi], vp))], from the position after the
    increment. *)
Fixpoint scan_up (a : list nat) (vp : fl) (fuel pi : nat) : nat :=
  match fuel with
  | O => pi
  | S fuel' =>
      if less (key (nth pi a O)) vp then scan_up a vp fuel' (S pi) else pi
  end.

(** [do { --pj; } while (less(vp, v[*pj]))], from the position after the
    decrement. *)
Fixpoint scan_down (a : list nat) (vp : fl) (fuel pj : nat) : nat :=
  match fuel with
  | O => pj
  | S fuel' =>
      if less vp (key (nth pj a O)) then scan_down a vp fuel' (pred pj) else pj
  end.

(** The loop that exchanges the positions out of place; it ends with
    [pi >= pj] and gives the array and [pi]. *)
Fixpoint exchange_loop (vp : fl) (fuel : nat) (a : list nat) (pi pj : nat)
  : list nat * nat :=
  match fuel with
  | O => (a, pi)
  | S fuel' =>
      let pi := scan_up a vp (length a) (S pi) in
      let pj := scan_down a vp (length a) (pred pj) in
      if (pj <=? pi)%nat then (a, pi)
      else exchange_loop vp fuel' (swap a pi pj) pi pj
  end.

(** One partition of the range from [pl] to [pr]: the median of three
    goes to [pr - 1] as the pivot, and comes back to the position [pi]
    where the two scans meet. *)
Definition partition (a : list nat) (pl pr : nat) : list nat * nat :=
  let pm := (pl + Nat.div2 (pr - pl))%nat in
  let a := if less (key (nth pm a O)) (key (nth pl a O)) then swap a pm pl else a in
  let a := if less (key (nth pr a O)) (key (nth pm a O)) then swap a pr pm else a in
  let a := if less (key (nth pm a O)) (key (nth pl a O)) then swap a pm pl else a in
  let vp := key (nth pm a O) in
  let a := swap a pm (pr - 1) in
  let '(a, pi) := exchange_loop vp (length a) a pl (pr - 1) in
  (swap a pi (pr - 1), pi).

(** The inner loop of the insertion sort: the positions before [pj] whose
    value is above that of [vi] move up by one, and [vi] takes the place
    that is left. *)
Fixpoint shift_up (a : list nat) (vi pl : nat) (fuel pj : nat) : list nat :=
  match fuel with
  | O => set_nth a pj vi
  | S fuel' =>
      if (pl <? pj)%nat && less (key vi) (key (nth (pj - 1) a O))
      then shift_up (set_nth a pj (nth (pj - 1) a O)) vi pl fuel' (pj - 1)
      else set_nth a pj vi
  end.

Definition insertion_sort (a : list nat) (pl pr : nat) : list nat :=
  fold_left (fun a pi => shift_up a (nth pi a O) pl pi pi)
            (seq (S pl) (pr - pl)) a.

(** Heapsort, on an array counted from 1 as the C code does. *)
Definition at1 (a : list nat) (j : nat) : nat := nth (j - 1) a O.
Definition set1 (a : list nat) (i x : nat) : list nat := set_nth a (i - 1) x.

(** Sifting [tmp] down from the place [i] of a heap of [n] entries. *)
Fixpoint sift (fuel : nat) (a : list nat) (tmp i n : nat) : list nat :=
  match fuel with
  | O => set1 a i tmp
  | S fuel' =>
      let j := (2 * i)%nat in
      if (j <=? n)%nat then
        let j := if (j <? n)%nat && less (key (at1 a j)) (key (at1 a (S j)))
                 then S j else j in
        if less (key tmp) (key (at1 a j))
        then sift fuel' (set1 a i (at1 a j)) tmp j n
        else set1 a i tmp
      else set1 a i tmp
  end.

(** The second phase: the largest entry goes to the end of the heap,
    which shrinks by one. *)
Fixpoint sort_down (a : list nat) (n : nat) : list nat :=
  match n with
  | O => a
  | S n' =>
      if (1 <? n)%nat then
        let tmp := at1 a n in
        let a := set1 a n (at1 a 1) in
        sort_down (sift n' a tmp 1 n') n'
      else a
  end.

Definition aheapsort (a : list nat) : list nat :=
  let n := length a in
  let a := fold_left (fun a l => sift n a (at1 a l) l n)
                     (rev (seq 1 (Nat.div2 n))) a in
  sort_down a n.

(** Heapsort on the range from [pl] to [pr] of a larger array. *)
Definition aheapsort_range (a : list nat) (pl pr : nat) : list nat :=
  firstn pl a ++ aheapsort (firstn (S pr - pl) (skipn pl a)) ++ skipn (S pr) a.

(** The sort of one range.  [popped] tells that the range comes from the
    stack (or is the whole array), where the depth left is tested; the
    smaller part of a partition is sorted first and the larger part is
    taken from the stack afterwards, both with the depth lowered by 1. *)
Fixpoint aquicksort_range (fuel : nat) (popped : bool) (a : list nat)
         (pl pr : nat) (cdepth : Z) : list nat :=
  match fuel with
  | O => a
  | S fuel' =>
      if popped && (cdepth <? 0)%Z then aheapsort_range a pl pr
      else if (SMALL_QUICKSORT <? S (pr - pl))%nat then
        let '(a, pi) := partition a pl pr in
        let cdepth := (cdepth - 1)%Z in
        if (pi - pl <? pr - pi)%nat then
          let a := aquicksort_range fuel' false a pl (pi - 1) cdepth in
          aquicksort_range fuel' true a (S pi) pr cdepth
        else
          let a := aquicksort_range fuel' false a (S pi) pr cdepth in
          aquicksort_range fuel' true a pl (pi - 1) cdepth
      else insertion_sort a pl pr
  end.

(** [v.argsort(kind='quicksort')]: the positions of [v] in ascending order
    of the values. *)
Definition argsort : list nat :=
  let num := length v in
  aquicksort_range (S num) true (seq 0 num) 0 (num - 1)
                   (2 * Z.of_nat (npy_get_msb num))%Z.

End Argsort.
End Numpy.

Module Pandas.

(** [nargsort(items, kind='quicksort', ascending=False,
    na_position='last')]: the values that are not [nan] are sorted in
    reverse, ascending, and the result is reversed; the positions of the
    [nan] come last. *)
Definition nargsort_descending (items : list fl) : list nat :=
  let idx := seq 0 (length items) in
  let non_nan_idx := filter (fun i => negb (Ranker.is_nan (nth i items NaN))) idx in
  let nan_idx := filter (fun i => Ranker.is_nan (nth i items NaN)) idx in
  let non_nan_idx := rev non_nan_idx in
  let non_nans := map (fun i => nth i items NaN) non_nan_idx in
  let indexer := map (fun p => nth p non_nan_idx O) (Numpy.argsort non_nans) in
  rev indexer ++ nan_idx.

(** [df.sort_values('weighted_score', ascending=False)] on the pairs of
    index and score. *)
Definition sort_values_desc (rows : list (Z * fl)) : list (Z * fl) :=
  map (fun i => nth i rows (0%Z, NaN)) (nargsort_descending (map snd rows)).

End Pandas.

(* ================================================================== *)
(** * Allocator: [calculate_optimal_allocation] *)

Module Allocator.

(** The key of the cash entry, [allocations[0] = remaining]. *)
Definition cash_key : Z := 0%Z.

Definition total_risk_budget (self : Optimizer) : Q :=
  1.0 - cash_allocation self.

(** [ranked_subnets[:self.max_subnets]] *)
Definition selected_subnets (self : Optimizer) (ranked_subnets : list Z) : list Z :=
  firstn (max_subnets self) ranked_subnets.

(** First loop: the inverse-volatility weights and their running total. *)
Definition inv_vol_step (metrics : Dict.t MetricRecord)
           (st : Dict.t Q * Q) (netuid : Z) : Dict.t Q * Q :=
  let '(inv_vol_weights, total_inv_vol) := st in
  match Dict.get metrics netuid with
  | Some m =>
      let vol := py_max (volatility m) 0.01 in
      let inv_vol := 1.0 / vol in
      (Dict.set inv_vol_weights netuid inv_vol, total_inv_vol + inv_vol)
  | None => st
  end.

Definition inv_vol_loop (metrics : Dict.t MetricRecord) (selected : list Z)
  : Dict.t Q * Q :=
  fold_left (inv_vol_step metrics) selected (Dict.empty, 0).

(** [max(self.min_allocation, min(self.max_allocation, base_allocation))] *)
Definition clamp (self : Optimizer) (base_allocation : Q) : Q :=
  py_max (min_allocation self) (py_min (max_allocation self) base_allocation).

(** Second loop: the clamped allocations. *)
Definition alloc_step (self : Optimizer) (inv_vol_weights : Dict.t Q)
           (total_inv_vol : Q) (allocations : Dict.t Q) (netuid : Z) : Dict.t Q :=
  match Dict.get inv_vol_weights netuid with
  | Some w =>
      if Q_gtb total_inv_vol 0 then
        let base_allocation := (w / total_inv_vol) * total_risk_budget self in
        Dict.set allocations netuid (clamp self base_allocation)
      else allocations
  | None => allocations
  end.

Definition clamped_allocations (self : Optimizer) (ranked_subnets : list Z)
           (metrics : Dict.t MetricRecord) : Dict.t Q :=
  let selected := selected_subnets self ranked_subnets in
  let '(inv_vol_weights, total_inv_vol) := inv_vol_loop metrics selected in
  fold_left (alloc_step self inv_vol_weights total_inv_vol) selected Dict.empty.

(** The test that guards the proportional shrink. *)
Definition shrink_needed (self : Optimizer) (allocations : Dict.t Q) : bool :=
  Q_gtb (py_sum (Dict.values allocations)) (total_risk_budget self).

(** [{k: v * scale_factor for k, v in allocations.items()}] *)
Definition scale_all (scale_factor : Q) (allocations : Dict.t Q) : Dict.t Q :=
  map (fun kv => (fst kv, snd kv * scale_factor)) allocations.

Definition normalize (self : Optimizer) (allocations : Dict.t Q) : Dict.t Q :=
  let total_allocated := py_sum (Dict.values allocations) in
  if shrink_needed self allocations then
    let scale_factor := total_risk_budget self / total_allocated in
    scale_all scale_factor allocations
  else allocations.

(** The last step: the cash entry. *)
Definition add_cash (allocations : Dict.t Q) : Dict.t Q :=
  let remaining := 1.0 - py_sum (Dict.values allocations) in
  if Q_gtb remaining 0.01 then Dict.set allocations cash_key remaining
  else allocations.

Definition calculate_optimal_allocation (self : Optimizer)
           (ranked_subnets : list Z) (metrics : Dict.t MetricRecord) : Dict.t Q :=
  if list_is_empty ranked_subnets || Dict.is_empty metrics then Dict.empty
  else
    add_cash (normalize self (clamped_allocations self ranked_subnets metrics)).

(** The entries of an allocation map other than the cash entry. *)
Definition non_cash (allocations : Dict.t Q) : Dict.t Q :=
  filter (fun kv => negb (Z.eqb (fst kv) cash_key)) allocations.

(** Whether the proportional shrink runs on this call. *)
Definition shrink_executed (self : Optimizer) (ranked_subnets : list Z)
           (metrics : Dict.t MetricRecord) : bool :=
  negb (list_is_empty ranked_subnets || Dict.is_empty metrics)
  && shrink_needed self (clamped_allocations self ranked_subnets metrics).

End Allocator.

(* ================================================================== *)
(** * RebalancePolicy: [should_rebalance] *)

Module Rebalance.

(** [(datetime.now() - self.last_rebalance).total_seconds() / 3600] *)
Definition hours_since_rebalance (now last : datetime) : Q :=
  total_seconds (now - last) / 3600.

(** The cooldown test: a recorded [last_rebalance] less than 6 hours old. *)
Definition cooldown_blocks (self : Optimizer) (now : datetime) : bool :=
  match last_rebalance self with
  | Some last => Q_ltb (hours_since_rebalance now last) 6
  | None => false
  end.

(** [set(current_strategy.keys()) | set(new_strategy.keys())], listed
    without repetition. *)
Definition all_subnets (current_strategy new_strategy : Dict.t Q) : list Z :=
  nodup Z.eq_dec (Dict.keys current_strategy ++ Dict.keys new_strategy).

Definition alloc_diff (current_strategy new_strategy : Dict.t Q) (subnet : Z) : Q :=
  let current_alloc := Dict.get_default current_strategy subnet 0 in
  let new_alloc := Dict.get_default new_strategy subnet 0 in
  Qabs (new_alloc - current_alloc).

(** The loop over [all_subnets], started at [max_diff = 0]. *)
Definition max_diff_over (current_strategy new_strategy : Dict.t Q)
           (subnets : list Z) : Q :=
  fold_left
    (fun max_diff subnet =>
       py_max max_diff (alloc_diff current_strategy new_strategy subnet))
    subnets 0.

Definition max_diff (current_strategy new_strategy : Dict.t Q) : Q :=
  max_diff_over current_strategy new_strategy
                (all_subnets current_strategy new_strategy).

Definition should_rebalance (self : Optimizer) (now : datetime)
           (current_strategy new_strategy : Dict.t Q) : bool :=
  if Dict.is_empty current_strategy || Dict.is_empty new_strategy then true
  else if cooldown_blocks self now then false
  else Q_geb (max_diff current_strategy new_strategy) (rebalance_threshold self).

(** The decision in [EnhancedMiner.optimize_strategy]: an empty proposal is
    dropped first, then [force_rebalance or should_rebalance(...)]. *)
Definition optimize_strategy_decision (force_rebalance : bool) (self : Optimizer)
           (now : datetime) (current_strategy new_strategy : Dict.t Q) : bool :=
  if Dict.is_empty new_strategy then false
  else force_rebalance || should_rebalance self now current_strategy new_strategy.

(** The spec's wording: [m] is the maximum absolute per-entity difference
    over the union of the keys of both maps, missing keys counting as 0. *)
Definition is_max_abs_diff (current new : Dict.t Q) (m : Q) : Prop :=
  (forall k, In k (Dict.keys current) \/ In k (Dict.keys new) ->
             alloc_diff current new k <= m) /\
  (exists k, (In k (Dict.keys current) \/ In k (Dict.keys new)) /\
             alloc_diff current new k == m).

(** The spec's wording: the cooldown has elapsed, or none applies. *)
Definition cooldown_elapsed (self : Optimizer) (now : datetime) : Prop :=
  match last_rebalance self with
  | Some last => 6 <= hours_since_rebalance now last
  | None => True
  end.

End Rebalance.

(** A property of every entry of a dictionary. *)
Definition all_entries {V} (P : Z -> V -> Prop) (d : Dict.t V) : Prop :=
  Forall (fun kv => P (fst kv) (snd kv)) d.

(* ================================================================== *)
(** * Allocator: the values the two loops assign *)

Module AllocatorValues.
Import Allocator.

(** The weight the first loop stores for a subnet that has metrics. *)
Definition inv_vol_weight (metrics : Dict.t MetricRecord) (netuid : Z) : option Q :=
  match Dict.get metrics netuid with
  | Some m => Some (1.0 / py_max (volatility m) 0.01)
  | None => None
  end.

(** The value the second loop stores for a subnet, given the weights and
    their total. *)
Definition clamped_value (self : Optimizer) (inv_vol_weights : Dict.t Q)
           (total_inv_vol : Q) (netuid : Z) : option Q :=
  match Dict.get inv_vol_weights netuid with
  | Some w =>
      if Q_gtb total_inv_vol 0
      then Some (clamp self ((w / total_inv_vol) * total_risk_budget self))
      else None
  | None => None
  end.

(** A loop of assignments [d[k] = v] for the keys on which [f] gives a
    value. *)
Definition assign_loop {V} (f : Z -> option V) (l : list Z) (acc : Dict.t V)
  : Dict.t V :=
  fold_left (fun acc k => match f k with
                          | Some v => Dict.set acc k v
                          | None => acc
                          end) l acc.

End AllocatorValues.

(* ================================================================== *)
(** * [generate_strategy]

    The method, from the data frame that [fetch_market_data] has returned
    (an empty frame when the fetch failed).  The messages it prints are
    left out. *)

Module Strategy.
Section Ops.
Variable np_sqrt : Q -> Q.
Variable float_pow : Q -> Q -> fl.
Variable sort_values_desc : list (Z * fl) -> list (Z * fl).

Definition generate_strategy (self : Optimizer) (df : list Row) : Dict.t Q :=
  if list_is_empty df then Dict.empty
  else
    let metrics := Metrics.calculate_performance_metrics np_sqrt float_pow df in
    if Dict.is_empty metrics then Dict.empty
    else
      let ranked_subnets := Ranker.rank_subnets sort_values_desc self metrics in
      Allocator.calculate_optimal_allocation self ranked_subnets metrics.

End Ops.
End Strategy.

(* ================================================================== *)
(** * [save_strategy_to_file] and the reading back of the file *)

Module Persist.

(** Rounding to the nearest integer, halves to the even one: the rounding
    of [format] on the exact value of a float. *)
Definition round_half_even (q : Q) : Z :=
  let n := Qnum q in
  let d := Z.pos (Qden q) in
  let f := (n / d)%Z in
  let r := (n mod d)%Z in
  match (2 * r ?= d)%Z with
  | Lt => f
  | Gt => (f + 1)%Z
  | Eq => if Z.even f then f else (f + 1)%Z
  end.

(** [f"{allocation:.4f}"]: the number printed, counted in ten-thousandths. *)
Definition format_4f (allocation : Q) : Z := round_half_even (allocation * 10000).

(** The value a printed number stands for, as the exact decimal; the float
    that [eval] makes of it is the nearest one. *)
Definition printed_value (n : Z) : Q := inject_Z n / 10000.

(** [{int(k): float(v) for k, v in strategy.items() if v > 0.001}] *)
Definition strategy_dict (strategy : Dict.t Q) : Dict.t Q :=
  filter (fun kv => Q_gtb (snd kv) 0.001) strategy.

(** [sorted(items, key=lambda x: x[1], reverse=True)]: Python's sort is
    stable, also in reverse. *)
Fixpoint insert_by_value (x : Z * Q) (l : list (Z * Q)) : list (Z * Q) :=
  match l with
  | [] => [x]
  | y :: t =>
      if Q_geb (snd x) (snd y) then x :: y :: t
      else y :: insert_by_value x t
  end.

Definition sorted_by_value_desc (l : list (Z * Q)) : list (Z * Q) :=
  fold_right insert_by_value [] l.

(** The lines written between the braces: netuid and printed allocation. *)
Definition file_lines (strategy : Dict.t Q) : list (Z * Z) :=
  map (fun kv => (fst kv, format_4f (snd kv)))
      (sorted_by_value_desc (strategy_dict strategy)).

(** The method.  [write_ok] tells whether opening and writing the file
    went through; [now] is the [datetime.now()] read after the write.  The
    result is the optimizer, the value returned and, after a write that
    went through, the lines of the file. *)
Definition save_strategy_to_file (self : Optimizer) (strategy : Dict.t Q)
           (write_ok : bool) (now : datetime)
  : Optimizer * bool * option (list (Z * Z)) :=
  if Dict.is_empty strategy then (self, false, None)
  else if write_ok
       then (set_last_rebalance self now, true, Some (file_lines strategy))
       else (self, false, None).

(** [eval(f.read())] on a file written by [save_strategy_to_file]: the
    dictionary display, entry after entry. *)
Definition eval_strategy_file (lines : list (Z * Z)) : Dict.t Q :=
  fold_left (fun d kv => Dict.set d (fst kv) (printed_value (snd kv)))
            lines Dict.empty.

End Persist.

(* ================================================================== *)
(** * The miner: [EnhancedMiner] *)

Module Miner.

Inductive Reason : Type := forced | automatic.

(** An entry of [strategy_history]. *)
Record HistoryEntry := mkHistoryEntry {
  history_timestamp : Q;
  old_strategy : Dict.t Q;
  new_strategy : Dict.t Q;
  reason : Reason
}.

(** An entry of [performance_log]. *)
Record LogEntry := mkLogEntry {
  log_timestamp : Q;
  return_7d : fl;
  current_value : Q
}.

Record EnhancedMiner := mkEnhancedMiner {
  strategy_optimizer : Optimizer;
  last_optimization : option Q;
  optimization_interval : Q;
  emergency_rebalance_threshold : Q;
  performance_log : list LogEntry;
  strategy_history : list HistoryEntry
}.

(** [EnhancedMiner.__init__], the part that concerns the strategy. *)
Definition miner_init : EnhancedMiner :=
  {| strategy_optimizer := init 30 0.05 0.25;
     last_optimization := None;
     optimization_interval := 3600;
     emergency_rebalance_threshold := 0.15;
     performance_log := [];
     strategy_history := [] |}.

(** What one run of [optimize_strategy] reads from outside: the strategy
    file evaluated ([None] when it is missing or unreadable), the result
    of [generate_strategy], the two readings of [datetime.now()] (in
    [should_rebalance] and after the write), whether the write goes
    through, and the two readings of [time.time()] (for the history entry
    and for [last_optimization]).  A run in which reading the wallet or
    generating the strategy raises ends in the handler of the method as a
    run that generates no strategy does: nothing is changed and [False] is
    returned. *)
Record World := mkWorld {
  stored_strategy : option (Dict.t Q);
  generated : Dict.t Q;
  now_check : datetime;
  now_save : datetime;
  write_ok : bool;
  time_history : Q;
  time_done : Q
}.

Definition with_optimizer (miner : EnhancedMiner) (o : Optimizer) : EnhancedMiner :=
  {| strategy_optimizer := o;
     last_optimization := last_optimization miner;
     optimization_interval := optimization_interval miner;
     emergency_rebalance_threshold := emergency_rebalance_threshold miner;
     performance_log := performance_log miner;
     strategy_history := strategy_history miner |}.

Definition with_last_optimization (miner : EnhancedMiner) (t : Q) : EnhancedMiner :=
  {| strategy_optimizer := strategy_optimizer miner;
     last_optimization := Some t;
     optimization_interval := optimization_interval miner;
     emergency_rebalance_threshold := emergency_rebalance_threshold miner;
     performance_log := performance_log miner;
     strategy_history := strategy_history miner |}.

Definition with_history (miner : EnhancedMiner) (h : list HistoryEntry)
  : EnhancedMiner :=
  {| strategy_optimizer := strategy_optimizer miner;
     last_optimization := last_optimization miner;
     optimization_interval := optimization_interval miner;
     emergency_rebalance_threshold := emergency_rebalance_threshold miner;
     performance_log := performance_log miner;
     strategy_history := h |}.

Definition with_performance_log (miner : EnhancedMiner) (l : list LogEntry)
  : EnhancedMiner :=
  {| strategy_optimizer := strategy_optimizer miner;
     last_optimization := last_optimization miner;
     optimization_interval := optimization_interval miner;
     emergency_rebalance_threshold := emergency_rebalance_threshold miner;
     performance_log := l;
     strategy_history := strategy_history miner |}.

(** [optimize_strategy]: the miner afterwards and the value returned. *)
Definition optimize_strategy (miner : EnhancedMiner) (force_rebalance : bool)
           (w : World) : EnhancedMiner * bool :=
  let current_strategy :=
    match stored_strategy w with Some d => d | None => Dict.empty end in
  let new_strategy := generated w in
  if Dict.is_empty new_strategy then (miner, false)
  else
    let should_rebalance :=
      force_rebalance
      || Rebalance.should_rebalance (strategy_optimizer miner) (now_check w)
                                    current_strategy new_strategy in
    if should_rebalance then
      let '(optimizer, success, _) :=
        Persist.save_strategy_to_file (strategy_optimizer miner) new_strategy
                                      (write_ok w) (now_save w) in
      let miner := with_optimizer miner optimizer in
      if success then
        let entry :=
          {| history_timestamp := time_history w;
             old_strategy := current_strategy;
             new_strategy := new_strategy;
             reason := if force_rebalance then forced else automatic |} in
        let miner := with_history miner (strategy_history miner ++ [entry]) in
        (with_last_optimization miner (time_done w), true)
      else (miner, false)
    else (with_last_optimization miner (time_done w), false).

(** [should_optimize], at the reading [t] of [time.time()]. *)
Definition should_optimize (miner : EnhancedMiner) (t : Q) : bool :=
  match last_optimization miner with
  | None => true
  | Some last => Q_geb (t - last) (optimization_interval miner)
  end.

(** The frame that [api.pnl()] returns: whether it has a column
    [hotkey], and its rows as hotkey and [swap_close]. *)
Record PnlFrame := mkPnlFrame {
  has_hotkey_column : bool;
  pnl_rows : list (string * Q)
}.

(** [l[-n:]], also [DataFrame.tail(n)]. *)
Definition last_n {A} (n : nat) (l : list A) : list A :=
  skipn (length l - n) l.

(** [(last - first) / first] on the recent closes, a division of floats
    of a data frame. *)
Definition recent_return_of (recent : list Q) : fl :=
  fdiv (Fin (last_of recent - first_of recent)) (Fin (first_of recent)).

(** [monitor_performance]; [t] is the reading of [time.time()] for the log
    entry and [w] what an emergency run of [optimize_strategy] reads. *)
Definition monitor_performance (miner : EnhancedMiner) (ss58 : string)
           (pl : PnlFrame) (t : Q) (w : World) : EnhancedMiner :=
  if (length (pnl_rows pl) =? 0)%nat then miner
  else
    let our_data :=
      if has_hotkey_column pl
      then filter (fun row => String.eqb (fst row) ss58) (pnl_rows pl)
      else [] in
    if (0 <? length our_data)%nat then
      let recent_data := last_n 7 (map snd our_data) in
      if (1 <? length recent_data)%nat then
        let recent_return := recent_return_of recent_data in
        let log := performance_log miner
                   ++ [ {| log_timestamp := t;
                           return_7d := recent_return;
                           current_value := last_of recent_data |} ] in
        let log := if (30 <? length log)%nat then last_n 30 log else log in
        let miner := with_performance_log miner log in
        if flt recent_return (Fin (- emergency_rebalance_threshold miner))
        then fst (optimize_strategy miner true w)
        else miner
      else miner
    else miner.

(** The history and the two time stamps agree: a change of strategy is
    recorded exactly when the optimizer has a time of last rebalance, every
    recorded change has a proposal that is not empty, and once a change is
    recorded the miner has a time of last optimization. *)
Definition history_consistent (miner : EnhancedMiner) : Prop :=
  (strategy_history miner = [] <->
   last_rebalance (strategy_optimizer miner) = None) /\
  Forall (fun e => new_strategy e <> []) (strategy_history miner) /\
  (strategy_history miner <> [] -> last_optimization miner <> None).

(** What one pass of the loop of [run_enhanced_miner] reads: whether the
    submission of a new strategy file ([etc.isnew], [api.rev]) raises, which
    abandons the pass; the reading of [time.time()] in [should_optimize];
    what the scheduled [optimize_strategy] reads; the frame of [api.pnl()],
    the reading of [time.time()] for the log entry and what an emergency
    [optimize_strategy] reads. *)
Record Pass := mkPass {
  submission_raises : bool;
  time_should_optimize : Q;
  world_scheduled : World;
  pnl : PnlFrame;
  time_log : Q;
  world_emergency : World
}.

(** One pass of the [while True] loop, on the miner and the counter
    [step].  A pass that raises is caught by the loop, which goes on
    without counting the step.  The update check, which changes nothing on
    the miner, is left out. *)
Definition loop_pass (ss58 : string) (st : EnhancedMiner * nat) (p : Pass)
  : EnhancedMiner * nat :=
  let '(miner, step) := st in
  if submission_raises p then (miner, step)
  else
    let miner :=
      if (step mod 3600 =? 0)%nat && should_optimize miner (time_should_optimize p)
      then fst (optimize_strategy miner false (world_scheduled p))
      else miner in
    let miner :=
      if (step mod 600 =? 0)%nat
      then monitor_performance miner ss58 (pnl p) (time_log p) (world_emergency p)
      else miner in
    (miner, S step).

(** [run_enhanced_miner], up to the end of a number of passes of its loop:
    the initial forced optimization, then the passes. *)
Definition run_enhanced_miner (ss58 : string) (w0 : World) (passes : list Pass)
  : EnhancedMiner * nat :=
  fold_left (loop_pass ss58) passes
            (fst (optimize_strategy miner_init true w0), O).

End Miner.

(* ================================================================== *)
(** * The command line: [main] *)

Module Script.
Section Ops.
Variable np_sqrt : Q -> Q.
Variable float_pow : Q -> Q -> fl.
Variable sort_values_desc : list (Z * fl) -> list (Z * fl).

(** [main], from the arguments of the command line, the strategy file
    evaluated ([None] when it is missing or unreadable), the frame that
    [fetch_market_data] returns, the two readings of [datetime.now()] and
    whether the write goes through.  The result is the lines written to the
    strategy file, if it is written. *)
Definition main (argv : list string) (stored : option (Dict.t Q))
           (df : list Row) (now_check now_save : datetime) (write_ok : bool)
  : option (list (Z * Z)) :=
  match argv with
  | _ :: hotkey_ss58 :: _ =>
      let optimizer := init 30 0.05 0.25 in
      let current_strategy :=
        match stored with Some d => d | None => Dict.empty end in
      let new_strategy :=
        Strategy.generate_strategy np_sqrt float_pow sort_values_desc optimizer df in
      if Rebalance.should_rebalance optimizer now_check current_strategy new_strategy
      then snd (Persist.save_strategy_to_file optimizer new_strategy write_ok now_save)
      else None
  | _ => None
  end.

End Ops.
End Script.

(* ================================================================== *)
(** * The miner's request filters: [blacklist] and [priority] *)

Module Axon.

(** [l.index(x)]: the first position of [x]; [None] is the [ValueError]. *)
Fixpoint index (x : string) (l : list string) : option nat :=
  match l with
  | [] => None
  | y :: t =>
      if String.eqb y x then Some O
      else match index x t with Some n => Some (S n) | None => None end
  end.

Record Dendrite := mkDendrite { hotkey : option string }.
Record Synapse := mkSynapse { dendrite : option Dendrite }.

(** The parts of the metagraph the two methods read. *)
Record Metagraph := mkMetagraph {
  hotkeys : list string;
  validator_permit : list bool;
  S : list Q
}.

Record BlacklistConfig := mkBlacklistConfig {
  allow_non_registered : bool;
  force_validator_permit : bool
}.

(** The result of a call: a value, or an exception that the method does
    not catch (an index out of range). *)
Inductive Outcome (A : Type) : Type :=
| Returned (a : A)
| Raised.
Arguments Returned {A} a.
Arguments Raised {A}.

(** [x in l] *)
Definition contains (x : string) (l : list string) : bool :=
  existsb (String.eqb x) l.

(** The hotkey of a request, when it has a dendrite with a hotkey. *)
Definition request_hotkey (synapse : Synapse) : option string :=
  match dendrite synapse with
  | Some d => hotkey d
  | None => None
  end.

Definition blacklist (config : BlacklistConfig) (metagraph : Metagraph)
           (synapse : Synapse) : Outcome (bool * string) :=
  match request_hotkey synapse with
  | None => Returned (true, "Missing dendrite or hotkey"%string)
  | Some h =>
      match index h (hotkeys metagraph) with
      | None => Returned (true, "Unrecognized hotkey"%string)
      | Some uid =>
          if negb (allow_non_registered config)
             && negb (contains h (hotkeys metagraph))
          then Returned (true, "Unrecognized hotkey"%string)
          else if force_validator_permit config then
                 match nth_error (validator_permit metagraph) uid with
                 | None => Raised
                 | Some permit =>
                     if negb permit
                     then Returned (true, "Non-validator hotkey"%string)
                     else Returned (false, "Hotkey recognized!"%string)
                 end
               else Returned (false, "Hotkey recognized!"%string)
      end
  end.

Definition priority (metagraph : Metagraph) (synapse : Synapse) : Outcome Q :=
  match request_hotkey synapse with
  | None => Returned 0
  | Some h =>
      match index h (hotkeys metagraph) with
      | None => Returned 0
      | Some caller_uid =>
          match nth_error (S metagraph) caller_uid with
          | None => Raised
          | Some stake => Returned stake
          end
      end
  end.

End Axon.

(* ================================================================== *)
(** * Positions in a list of hotkeys *)

Module AxonValues.

(** [n] is the first position of [x] in [l]. *)
Definition first_position (x : string) (l : list string) (n : nat) : Prop :=
  nth_error l n = Some x /\ forall m, (m < n)%nat -> nth_error l m <> Some x.

End AxonValues.

(* ================================================================== *)
(** * Ranges of scores *)

Module RankerValues.

(** A float that is a number between two bounds. *)
Definition between (lo hi : Q) (x : fl) : Prop :=
  exists q, x = Fin q /\ lo <= q <= hi.

(** A column whose entries are all numbers. *)
Definition all_finite (col : list fl) : Prop :=
  Forall (fun x => isfinite x = true) col.

End RankerValues.

(* ================================================================== *)
(** * Example data *)

(** An optimizer whose last rebalance was recorded at time 0. *)
Definition rebalanced_at_zero : Optimizer :=
  set_last_rebalance (init 30 0.05 0.25) 0%Z.

(** One hour and seven hours, in microseconds. *)
Definition one_hour : datetime := 3600000000%Z.
Definition seven_hours : datetime := 25200000000%Z.

Definition half_half : Dict.t Q := [(1%Z, 0.5); (2%Z, 0.5)].
Definition tilted : Dict.t Q := [(1%Z, 0.7); (3%Z, 0.3)].

(** A change of 0.9 on one entity, far above the threshold of 0.05. *)
Definition all_in_one : Dict.t Q := [(1%Z, 1.0)].
Definition nearly_all_out : Dict.t Q := [(1%Z, 0.1); (2%Z, 0.9)].

(** A metric record of which only the volatility matters. *)
Definition record_with_volatility (v : Q) : MetricRecord :=
  {| total_return := 0; volatility := v; sharpe := 0; max_drawdown := Fin 0;
     win_rate := 0; profit_factor := Fin 0; kelly := Fin 0; mar := Fin 0;
     lsr := 0; odds := Fin 50; daily_return := Fin 0; composite_score := Fin 0;
     emission := 0; weight := 0; current_price := 0; data_points := 5 |}.

(** Ten subnets, four of them calm and six of them volatile: the calm ones
    take almost the whole budget, the others are lifted to the minimum, and
    the total passes the risk budget. *)
Definition ten_metrics : Dict.t MetricRecord :=
  map (fun i => (Z.of_nat i,
                 record_with_volatility (if (i <=? 4)%nat then 0.01 else 0.7)))
      (seq 1 10).
Definition ten_ranked : list Z := Dict.keys ten_metrics.

(** The same ten subnets numbered from 0, the number of the cash entry. *)
Definition ten_from_zero : Dict.t MetricRecord :=
  map (fun i => (Z.of_nat i,
                 record_with_volatility (if (i <=? 3)%nat then 0.01 else 0.7)))
      (seq 0 10).

Definition two_metrics : Dict.t MetricRecord :=
  [(1%Z, record_with_volatility 1); (2%Z, record_with_volatility 2)].

Definition default_optimizer : Optimizer := init 30 0.05 0.25.

(** An optimizer built with a [max_allocation] of 0.01, under the
    [min_allocation] of 0.02 that the constructor fixes, and the metrics of
    one subnet. *)
Definition low_cap_optimizer : Optimizer := init 30 0.05 0.01.
Definition one_metric : Dict.t MetricRecord := [(1%Z, record_with_volatility 1)].

(** Stand-ins for the two floating-point operations, used to run the
    calculator on examples: a square root rounded down to 30 binary
    digits, and the first-order value of [b ** e] ([nan] on a negative
    base, as numpy gives for a fractional exponent). *)
Definition example_sqrt (q : Q) : Q :=
  Z.sqrt (Qnum q * 4 ^ 30 / Z.pos (Qden q)) # 2 ^ 30.

Definition example_pow (b e : Q) : fl :=
  if Q_ltb b 0 then NaN else Fin (1 + (b - 1) * e).

Definition row_of (netuid : Z) (date : string) (price : Q) : Row :=
  {| row_netuid := netuid; row_date := date; row_price := price;
     row_emission := 1; row_weight := 1 |}.

(** Five samples of a rising price. *)
Definition five_rising : list Row :=
  [ row_of 7 "2024-01-01" 1; row_of 7 "2024-01-02" 2; row_of 7 "2024-01-03" 3;
    row_of 7 "2024-01-04" 4; row_of 7 "2024-01-05" 5 ].

(** A price that falls to zero and stays there. *)
Definition fall_to_zero : list Row :=
  [ row_of 7 "2024-01-01" 1; row_of 7 "2024-01-02" 0; row_of 7 "2024-01-03" 0;
    row_of 7 "2024-01-04" 0; row_of 7 "2024-01-05" 0 ].

(** Six samples with rises and falls. *)
Definition six_mixed : list Row :=
  [ row_of 7 "2024-01-01" 4; row_of 7 "2024-01-02" 5; row_of 7 "2024-01-03" 4;
    row_of 7 "2024-01-04" 6; row_of 7 "2024-01-05" 3; row_of 7 "2024-01-06" 6 ].

(** Two subnets with the same metrics, hence the same score. *)
Definition twin_metrics : Dict.t MetricRecord :=
  [(1%Z, record_with_volatility 1); (2%Z, record_with_volatility 1)].


(** Three subnets, the middle one with the larger mean emission. *)
Definition three_metrics : Dict.t MetricRecord :=
  [ (1%Z, record_with_volatility 1);
    (2%Z, {| total_return := 0; volatility := 1; sharpe := 0;
             max_drawdown := Fin 0; win_rate := 0; profit_factor := Fin 0;
             kelly := Fin 0; mar := Fin 0; lsr := 0; odds := Fin 50;
             daily_return := Fin 0; composite_score := Fin 0;
             emission := 3; weight := 0; current_price := 0;
             data_points := 5 |});
    (3%Z, record_with_volatility 1) ].

(** Five samples of a price that does not move. *)
Definition five_flat : list Row :=
  [ row_of 7 "2024-01-01" 2; row_of 7 "2024-01-02" 2; row_of 7 "2024-01-03" 2;
    row_of 7 "2024-01-04" 2; row_of 7 "2024-01-05" 2 ].

(** A strategy with one entry below the 0.001 that a saved file keeps. *)
Definition with_dust : Dict.t Q := [(3%Z, 0.0005); (1%Z, 0.25); (2%Z, 0.7495)].

(** What a run of [optimize_strategy] reads when the file holds
    [half_half], [tilted] is generated and the write goes through, one hour
    after the origin of time. *)
Definition calm_world : Miner.World :=
  {| Miner.stored_strategy := Some half_half;
     Miner.generated := tilted;
     Miner.now_check := one_hour;
     Miner.now_save := one_hour;
     Miner.write_ok := true;
     Miner.time_history := 3600;
     Miner.time_done := 3600 |}.

(** A frame of [api.pnl()] in which the miner "hk" falls from 100 to 80. *)
Definition falling_pnl : Miner.PnlFrame :=
  {| Miner.has_hotkey_column := true;
     Miner.pnl_rows := [("hk"%string, 100); ("other"%string, 50); ("hk"%string, 80)] |}.

(** A metagraph of three neurons, the second without a validator permit,
    and a request from a given hotkey. *)
Definition small_metagraph : Axon.Metagraph :=
  {| Axon.hotkeys := ["a"%string; "b"%string; "c"%string];
     Axon.validator_permit := [true; false; true];
     Axon.S := [10; 20; 30] |}.

Definition request_from (h : string) : Axon.Synapse :=
  {| Axon.dendrite := Some {| Axon.hotkey := Some h |} |}.

Definition strict_config : Axon.BlacklistConfig :=
  {| Axon.allow_non_registered := false; Axon.force_validator_permit := true |}.

(* END EXAMPLE DATA *)

(* ================================================================== *)
(** * Basic facts *)

Lemma Q_ltb_lt (x y : Q) : Q_ltb x y = true <-> x < y.
Proof.
  unfold Q_ltb. rewrite negb_true_iff.
  split; intros H.
  - apply Qnot_le_lt. intros Hle. apply Qle_bool_iff in Hle. congruence.
  - apply not_true_is_false. intros Hle. apply Qle_bool_iff in Hle. lra.
Qed.

Lemma Q_ltb_ge (x y : Q) : Q_ltb x y = false <-> y <= x.
Proof.
  unfold Q_ltb. rewrite negb_false_iff. apply Qle_bool_iff.
Qed.

Lemma Q_geb_ge (x y : Q) : Q_geb x y = true <-> y <= x.
Proof. apply Qle_bool_iff. Qed.

Lemma py_max_spec (a b : Q) :
  a <= py_max a b /\ b <= py_max a b /\ (py_max a b = a \/ py_max a b = b).
Proof.
  unfold py_max, Q_gtb. destruct (Q_ltb a b) eqn:E.
  - apply Q_ltb_lt in E. repeat split; try lra. now right.
  - apply Q_ltb_ge in E. repeat split; try lra. now left.
Qed.

Module RebalanceFacts.
Import Rebalance.

Lemma alloc_diff_nonneg cur new k : 0 <= alloc_diff cur new k.
Proof. unfold alloc_diff. apply Qabs_nonneg. Qed.

Lemma alloc_diff_same cur k : alloc_diff cur cur k == 0.
Proof.
  unfold alloc_diff. cbv zeta.
  setoid_replace (Dict.get_default cur k 0 - Dict.get_default cur k 0) with 0 by ring.
  reflexivity.
Qed.

(** The loop computes an upper bound of every difference it has seen,
    and its value is the start value or one of those differences. *)
Lemma fold_max_spec cur new subnets : forall start r,
  fold_left
    (fun max_diff subnet => py_max max_diff (alloc_diff cur new subnet))
    subnets start = r ->
  start <= r /\
  (forall k, In k subnets -> alloc_diff cur new k <= r) /\
  (r = start \/ exists k, In k subnets /\ r = alloc_diff cur new k).
Proof.
  induction subnets as [|s subnets IH]; intros start r Hr; simpl in Hr.
  - subst r. repeat split; [lra | intros k [] | now left].
  - destruct (IH _ _ Hr) as (Hge & Hall & Hwit).
    destruct (py_max_spec start (alloc_diff cur new s)) as (H1 & H2 & H3).
    repeat split.
    + lra.
    + intros k [->|Hk]; [lra | now apply Hall].
    + destruct Hwit as [Hs | (k & Hk & Hk')].
      * rewrite Hs. destruct H3 as [-> | ->]; [now left | right; exists s; split; [now left | reflexivity]].
      * right; exists k; split; [now right | assumption].
Qed.

Lemma in_all_subnets cur new k :
  In k (all_subnets cur new) <-> In k (Dict.keys cur) \/ In k (Dict.keys new).
Proof. unfold all_subnets. rewrite nodup_In, in_app_iff. tauto. Qed.

(** For non-empty maps the code's [max_diff] is the spec's maximum. *)
Lemma max_diff_is_max cur new :
  cur <> [] -> is_max_abs_diff cur new (max_diff cur new).
Proof.
  intros Hne. unfold max_diff, max_diff_over.
  destruct (fold_max_spec cur new (all_subnets cur new) 0 _ eq_refl)
    as (Hge & Hall & Hwit).
  split.
  - intros k Hk. apply Hall, in_all_subnets, Hk.
  - destruct Hwit as [Hz | (k & Hk & Hr)].
    + destruct cur as [|[k0 v0] cur']; [congruence|].
      exists k0. split; [left; cbn; auto|].
      assert (In k0 (all_subnets ((k0, v0) :: cur') new))
        by (apply in_all_subnets; left; cbn; auto).
      pose proof (Hall k0 H) as Hle.
      pose proof (alloc_diff_nonneg ((k0, v0) :: cur') new k0) as Hnn.
      rewrite Hz in Hle |- *. lra.
    + exists k. split; [now apply in_all_subnets|]. rewrite Hr. reflexivity.
Qed.

Lemma is_max_abs_diff_unique cur new m1 m2 :
  is_max_abs_diff cur new m1 -> is_max_abs_diff cur new m2 -> m1 == m2.
Proof.
  intros (U1 & k1 & I1 & E1) (U2 & k2 & I2 & E2).
  pose proof (U1 k2 I2). pose proof (U2 k1 I1). lra.
Qed.

Lemma is_empty_false {V} (d : Dict.t V) : d <> [] -> Dict.is_empty d = false.
Proof. destruct d; [congruence | reflexivity]. Qed.

(** Past the two guards, the decision is the threshold test. *)
Lemma should_rebalance_threshold self now cur new m :
  cur <> [] -> new <> [] -> cooldown_blocks self now = false ->
  is_max_abs_diff cur new m ->
  (should_rebalance self now cur new = true <-> rebalance_threshold self <= m).
Proof.
  intros Hc Hn Hcool Hm. unfold should_rebalance.
  rewrite (is_empty_false cur Hc), (is_empty_false new Hn), Hcool. cbn.
  rewrite Q_geb_ge.
  pose proof (is_max_abs_diff_unique _ _ _ _ Hm (max_diff_is_max cur new Hc)) as E.
  rewrite E. tauto.
Qed.

Lemma cooldown_elapsed_not_blocks self now :
  cooldown_elapsed self now -> cooldown_blocks self now = false.
Proof.
  unfold cooldown_elapsed, cooldown_blocks.
  destruct (last_rebalance self); [|reflexivity].
  intros H. now apply Q_ltb_ge.
Qed.

End RebalanceFacts.

(* ================================================================== *)
(** * RebalancePolicy: the decision rule *)

Section RebalanceClaims.
Import Rebalance RebalanceFacts.

Lemma half_half_tilted_max : is_max_abs_diff half_half tilted 0.5.
Proof.
  split.
  - intros k [[<-|[<-|[]]] | [<-|[<-|[]]]]; vm_compute; discriminate.
  - exists 2%Z. split; [left; right; left; reflexivity | reflexivity].
Qed.

(** C4: for non-empty maps and with the cooldown elapsed (or none
    recorded), [should_rebalance] accepts exactly when the maximum absolute
    per-entity difference over the union of the keys, missing keys counted
    as 0, is at least [rebalance_threshold]; for identical maps, such as
    [{1: 0.5, 2: 0.5}] against itself, and a positive threshold it
    rejects. *)
Theorem C4_accept_iff_max_diff_reaches_threshold :
  forall (self : Optimizer) (now : datetime),
    cooldown_elapsed self now ->
    (forall current proposed m,
        current <> [] -> proposed <> [] ->
        is_max_abs_diff current proposed m ->
        (should_rebalance self now current proposed = true
         <-> rebalance_threshold self <= m)) /\
    (forall current,
        current <> [] -> 0 < rebalance_threshold self ->
        should_rebalance self now current current = false) /\
    (0 < rebalance_threshold self ->
     should_rebalance self now half_half half_half = false).
Proof.
  intros self now Hcool.
  apply cooldown_elapsed_not_blocks in Hcool.
  assert (Hsame : forall current,
             current <> [] -> 0 < rebalance_threshold self ->
             should_rebalance self now current current = false).
  { intros current Hne Hthr.
    apply not_true_is_false. intros Hacc.
    apply (should_rebalance_threshold self now current current
             (max_diff current current) Hne Hne Hcool
             (max_diff_is_max current current Hne)) in Hacc.
    destruct (max_diff_is_max current current Hne) as (_ & k & _ & Hk).
    rewrite alloc_diff_same in Hk. lra. }
  split; [|split].
  - intros current proposed m Hc Hp Hm.
    now apply should_rebalance_threshold.
  - exact Hsame.
  - apply Hsame. discriminate.
Qed.

Lemma C4_witness :
  (should_rebalance rebalanced_at_zero seven_hours half_half tilted = true
   <-> rebalance_threshold rebalanced_at_zero <= 0.5) /\
  should_rebalance rebalanced_at_zero seven_hours half_half half_half = false.
Proof.
  assert (Hcool : cooldown_elapsed rebalanced_at_zero seven_hours)
    by (vm_compute; discriminate).
  destruct (C4_accept_iff_max_diff_reaches_threshold
              rebalanced_at_zero seven_hours Hcool) as (Hiff & _ & Hsame).
  split.
  - apply Hiff; [discriminate | discriminate | exact half_half_tilted_max].
  - apply Hsame. reflexivity.
Defined.

(** C5: for non-empty maps, when a last rebalance is recorded and fewer
    than six hours have passed since, the decision is a rejection whatever
    the allocation differences are, both in [should_rebalance] and in the
    miner's decision when [force_rebalance] is not set. *)
Theorem C5_cooldown_dominates_threshold :
  forall (self : Optimizer) (now last : datetime) (current proposed : Dict.t Q),
    current <> [] -> proposed <> [] ->
    last_rebalance self = Some last ->
    hours_since_rebalance now last < 6 ->
    should_rebalance self now current proposed = false /\
    optimize_strategy_decision false self now current proposed = false.
Proof.
  intros self now last current proposed Hc Hp Hlast Hhours.
  assert (Hblocks : cooldown_blocks self now = true).
  { unfold cooldown_blocks. rewrite Hlast. now apply Q_ltb_lt. }
  assert (Hrej : should_rebalance self now current proposed = false).
  { unfold should_rebalance.
    now rewrite (is_empty_false current Hc), (is_empty_false proposed Hp), Hblocks. }
  split; [exact Hrej|].
  unfold optimize_strategy_decision.
  now rewrite (is_empty_false proposed Hp), Hrej.
Qed.

Lemma C5_witness :
  should_rebalance rebalanced_at_zero one_hour all_in_one nearly_all_out = false /\
  optimize_strategy_decision false rebalanced_at_zero one_hour all_in_one nearly_all_out
  = false.
Proof.
  apply (C5_cooldown_dominates_threshold rebalanced_at_zero one_hour 0%Z).
  - discriminate.
  - discriminate.
  - reflexivity.
  - reflexivity.
Defined.

(** C6: with an empty current allocation map [should_rebalance] accepts,
    whatever the proposal, the time and the recorded last rebalance; so it
    does for [current = {}] and [proposed = {1: 1.0}], also through the
    miner's decision. *)
Theorem C6_empty_current_always_accepts :
  forall (self : Optimizer) (now : datetime),
    (forall proposed, should_rebalance self now [] proposed = true) /\
    (forall force, optimize_strategy_decision force self now [] all_in_one = true).
Proof.
  intros self now. split.
  - intros proposed. reflexivity.
  - intros force. unfold optimize_strategy_decision. cbn.
    now rewrite orb_true_r.
Qed.

(** C10: for non-empty maps, when no last rebalance has been recorded the
    cooldown test does not block at any time, and the decision is the
    comparison of the maximum per-entity difference with
    [rebalance_threshold]. *)
Theorem C10_no_timestamp_threshold_only :
  forall (self : Optimizer) (now : datetime) (current proposed : Dict.t Q) (m : Q),
    current <> [] -> proposed <> [] ->
    last_rebalance self = None ->
    is_max_abs_diff current proposed m ->
    cooldown_blocks self now = false /\
    should_rebalance self now current proposed
    = Q_geb (max_diff current proposed) (rebalance_threshold self) /\
    (should_rebalance self now current proposed = true
     <-> rebalance_threshold self <= m).
Proof.
  intros self now current proposed m Hc Hp Hnone Hm.
  assert (Hcool : cooldown_blocks self now = false)
    by (unfold cooldown_blocks; now rewrite Hnone).
  split; [exact Hcool|]. split.
  - unfold should_rebalance.
    now rewrite (is_empty_false current Hc), (is_empty_false proposed Hp), Hcool.
  - now apply should_rebalance_threshold.
Qed.

Lemma C10_witness :
  cooldown_blocks (init 30 0.05 0.25) one_hour = false /\
  should_rebalance (init 30 0.05 0.25) one_hour half_half tilted
  = Q_geb (max_diff half_half tilted) (rebalance_threshold (init 30 0.05 0.25)) /\
  (should_rebalance (init 30 0.05 0.25) one_hour half_half tilted = true
   <-> rebalance_threshold (init 30 0.05 0.25) <= 0.5).
Proof.
  apply (C10_no_timestamp_threshold_only (init 30 0.05 0.25) one_hour
           half_half tilted 0.5).
  - discriminate.
  - discriminate.
  - reflexivity.
  - exact half_half_tilted_max.
Defined.

End RebalanceClaims.

(* ================================================================== *)
(** * Dictionaries and sums *)

Module DictFacts.

Lemma get_set_same {V} (d : Dict.t V) k v : Dict.get (Dict.set d k v) k = Some v.
Proof.
  induction d as [|[k' v'] d IH]; cbn.
  - now rewrite Z.eqb_refl.
  - destruct (Z.eqb k' k) eqn:E; cbn.
    + now rewrite Z.eqb_refl.
    + now rewrite E.
Qed.

Lemma get_set_other {V} (d : Dict.t V) k k' v :
  k <> k' -> Dict.get (Dict.set d k v) k' = Dict.get d k'.
Proof.
  intros Hne. induction d as [|[k0 v0] d IH]; cbn.
  - destruct (Z.eqb k k') eqn:E; [apply Z.eqb_eq in E; congruence | reflexivity].
  - destruct (Z.eqb k0 k) eqn:E; cbn.
    + apply Z.eqb_eq in E. subst k0.
      destruct (Z.eqb k k') eqn:E'; [apply Z.eqb_eq in E'; congruence | reflexivity].
    + destruct (Z.eqb k0 k'); [reflexivity | exact IH].
Qed.

Lemma set_fresh {V} (d : Dict.t V) k v :
  ~ In k (Dict.keys d) -> Dict.set d k v = d ++ [(k, v)].
Proof.
  induction d as [|[k0 v0] d IH]; cbn; intros Hnin.
  - reflexivity.
  - destruct (Z.eqb k0 k) eqn:E.
    + apply Z.eqb_eq in E. tauto.
    + f_equal. apply IH. tauto.
Qed.

Lemma fold_left_Qplus_acc (l : list Q) : forall a,
  fold_left Qplus l a == a + fold_left Qplus l 0.
Proof.
  induction l as [|x l IH]; intros a; cbn.
  - ring.
  - rewrite (IH (a + x)), (IH (0 + x)). ring.
Qed.

Lemma py_sum_cons x l : py_sum (x :: l) == x + py_sum l.
Proof.
  unfold py_sum. cbn. rewrite fold_left_Qplus_acc. ring.
Qed.

Lemma py_sum_app l1 l2 : py_sum (l1 ++ l2) == py_sum l1 + py_sum l2.
Proof.
  induction l1 as [|x l1 IH]; simpl app.
  - change (py_sum []) with 0. ring.
  - rewrite !py_sum_cons, IH. ring.
Qed.

Lemma py_sum_scale c l : py_sum (map (fun v => v * c) l) == py_sum l * c.
Proof.
  induction l as [|x l IH]; simpl map.
  - change (py_sum []) with 0. ring.
  - rewrite !py_sum_cons, IH. ring.
Qed.

Lemma py_sum_nonneg l : Forall (fun v => 0 <= v) l -> 0 <= py_sum l.
Proof.
  induction 1 as [|x l Hx Hl IH].
  - unfold py_sum. cbn. lra.
  - rewrite py_sum_cons. lra.
Qed.

End DictFacts.

(* ================================================================== *)
(** * Allocator: invariants of the loops *)

Module AllocatorFacts.
Import Allocator DictFacts.

Lemma Q_gtb_gt (x y : Q) : Q_gtb x y = true <-> y < x.
Proof. unfold Q_gtb. apply Q_ltb_lt. Qed.

Lemma Q_gtb_le (x y : Q) : Q_gtb x y = false <-> x <= y.
Proof. unfold Q_gtb. apply Q_ltb_ge. Qed.

Lemma py_min_spec (a b : Q) : py_min a b <= a /\ py_min a b <= b.
Proof.
  unfold py_min. destruct (Q_ltb b a) eqn:E.
  - apply Q_ltb_lt in E. lra.
  - apply Q_ltb_ge in E. lra.
Qed.

Lemma in_firstn {A} (x : A) n l : In x (firstn n l) -> In x l.
Proof.
  revert l. induction n as [|n IH]; intros [|y l]; cbn; try tauto.
  intros [->|H]; [now left | right; now apply IH].
Qed.

Lemma clamp_ge_min self b : min_allocation self <= clamp self b.
Proof. unfold clamp. apply py_max_spec. Qed.

Lemma clamp_le_max self b :
  min_allocation self <= max_allocation self -> clamp self b <= max_allocation self.
Proof.
  intros Hmm. unfold clamp.
  destruct (py_max_spec (min_allocation self) (py_min (max_allocation self) b))
    as (_ & _ & [-> | ->]).
  - exact Hmm.
  - apply py_min_spec.
Qed.

Lemma all_entries_set {V} (P : Z -> V -> Prop) (d : Dict.t V) k v :
  all_entries P d -> P k v -> all_entries P (Dict.set d k v).
Proof.
  unfold all_entries.
  induction d as [|[k0 v0] d IH]; cbn; intros Hd Hv.
  - now constructor.
  - inversion Hd as [|? ? H0 Hd']; subst.
    destruct (Z.eqb k0 k); constructor; auto.
Qed.

Lemma all_entries_get {V} (P : Z -> V -> Prop) (d : Dict.t V) k v :
  all_entries P d -> Dict.get d k = Some v -> P k v.
Proof.
  unfold all_entries.
  induction d as [|[k0 v0] d IH]; cbn; intros Hd Hg; [discriminate|].
  inversion Hd as [|? ? H0 Hd']; subst. cbn in H0.
  destruct (Z.eqb k0 k) eqn:E.
  - apply Z.eqb_eq in E. inversion Hg. now subst.
  - now apply IH.
Qed.

Lemma all_entries_keys (P : Z -> Prop) (d : Dict.t Q) k :
  all_entries (fun k _ => P k) d -> In k (Dict.keys d) -> P k.
Proof.
  unfold all_entries, Dict.keys. intros H.
  induction H as [|[k0 v0] d H0 Hd IH]; cbn; [tauto|].
  intros [<-|Hin]; auto.
Qed.

(** The second loop only writes clamped values under selected keys. *)
Lemma alloc_loop_entries self w t (P : Z -> Q -> Prop) selected :
  (forall k b, In k selected -> P k (clamp self b)) ->
  forall acc, all_entries P acc ->
              all_entries P (fold_left (alloc_step self w t) selected acc).
Proof.
  induction selected as [|s selected IH]; intros HP acc Hacc; cbn.
  - exact Hacc.
  - apply IH.
    + intros k b Hk. apply HP. now right.
    + unfold alloc_step. destruct (Dict.get w s); [|exact Hacc].
      destruct (Q_gtb t 0); [|exact Hacc].
      apply all_entries_set; [exact Hacc|]. apply HP. now left.
Qed.

Lemma clamped_allocations_entries self ranked metrics (P : Z -> Q -> Prop) :
  (forall k b, In k ranked -> P k (clamp self b)) ->
  all_entries P (clamped_allocations self ranked metrics).
Proof.
  intros HP. unfold clamped_allocations.
  destruct (inv_vol_loop metrics (selected_subnets self ranked)) as [w t].
  apply alloc_loop_entries; [|constructor].
  intros k b Hk. apply HP.
  unfold selected_subnets in Hk. eapply in_firstn; eauto.
Qed.

Lemma scale_all_entries (P R : Z -> Q -> Prop) c d :
  (forall k v, P k v -> R k (v * c)) ->
  all_entries P d -> all_entries R (scale_all c d).
Proof.
  unfold all_entries, scale_all. intros HPR H.
  induction H as [|[k v] d H0 Hd IH]; cbn; constructor; cbn in *; auto.
Qed.

Lemma values_scale_all c d :
  Dict.values (scale_all c d) = map (fun v => v * c) (Dict.values d).
Proof.
  unfold Dict.values, scale_all. rewrite !map_map. reflexivity.
Qed.

Lemma keys_scale_all c d : Dict.keys (scale_all c d) = Dict.keys d.
Proof.
  unfold Dict.keys, scale_all. rewrite map_map. reflexivity.
Qed.

(** When the shrink runs the total becomes the risk budget exactly. *)
Lemma normalize_sum_shrunk self d :
  cash_allocation self <= 1 ->
  all_entries (fun _ v => 0 <= v) d ->
  shrink_needed self d = true ->
  py_sum (Dict.values (normalize self d)) == total_risk_budget self.
Proof.
  intros Hcash Hpos Hs. unfold normalize. rewrite Hs.
  rewrite values_scale_all, py_sum_scale.
  unfold shrink_needed in Hs. apply Q_gtb_gt in Hs.
  unfold total_risk_budget in *.
  field. lra.
Qed.

Lemma normalize_sum_le self d :
  cash_allocation self <= 1 ->
  all_entries (fun _ v => 0 <= v) d ->
  py_sum (Dict.values (normalize self d)) <= total_risk_budget self.
Proof.
  intros Hcash Hpos. destruct (shrink_needed self d) eqn:Hs.
  - rewrite (normalize_sum_shrunk self d Hcash Hpos Hs). lra.
  - unfold normalize. rewrite Hs.
    unfold shrink_needed in Hs. now apply Q_gtb_le in Hs.
Qed.

(** The scale factor of a shrink lies between 0 and 1. *)
Lemma scale_factor_range self d :
  cash_allocation self <= 1 ->
  shrink_needed self d = true ->
  0 <= total_risk_budget self / py_sum (Dict.values d) <= 1.
Proof.
  intros Hcash Hs. unfold shrink_needed in Hs. apply Q_gtb_gt in Hs.
  unfold total_risk_budget in *.
  assert (Hpos : 0 < py_sum (Dict.values d)) by lra.
  split.
  - apply Qle_shift_div_l; lra.
  - apply Qle_shift_div_r; lra.
Qed.

Lemma normalize_entries_le self d (bound : Q) :
  cash_allocation self <= 1 ->
  all_entries (fun _ v => 0 <= v <= bound) d ->
  all_entries (fun _ v => 0 <= v <= bound) (normalize self d).
Proof.
  intros Hcash Hd. unfold normalize.
  destruct (shrink_needed self d) eqn:Hs; [|exact Hd].
  pose proof (scale_factor_range self d Hcash Hs) as Hc.
  eapply scale_all_entries; [|exact Hd].
  cbn. intros _ v Hv. split.
  - apply Qmult_le_0_compat; lra.
  - set (c := total_risk_budget self / py_sum (Dict.values d)) in *.
    nra.
Qed.

Lemma normalize_keys self d k :
  In k (Dict.keys (normalize self d)) <-> In k (Dict.keys d).
Proof.
  unfold normalize. destruct (shrink_needed self d); [|tauto].
  now rewrite keys_scale_all.
Qed.

(** Without a key equal to the cash key, the entries other than cash of
    the final map are the normalized allocations themselves. *)
Lemma non_cash_id d :
  ~ In cash_key (Dict.keys d) -> non_cash d = d.
Proof.
  unfold non_cash. induction d as [|[k v] d IH]; cbn; intros Hnin; [reflexivity|].
  destruct (Z.eqb k cash_key) eqn:E.
  - apply Z.eqb_eq in E. tauto.
  - cbn. f_equal. apply IH. tauto.
Qed.

Lemma non_cash_add_cash d :
  ~ In cash_key (Dict.keys d) -> non_cash (add_cash d) = d.
Proof.
  intros Hnin. unfold add_cash.
  destruct (Q_gtb (1.0 - py_sum (Dict.values d)) 0.01).
  - rewrite (set_fresh d _ _ Hnin). unfold non_cash.
    rewrite filter_app. cbn. rewrite app_nil_r.
    now apply non_cash_id.
  - now apply non_cash_id.
Qed.

Lemma add_cash_get_other d k :
  k <> cash_key -> Dict.get (add_cash d) k = Dict.get d k.
Proof.
  intros Hne. unfold add_cash.
  destruct (Q_gtb (1.0 - py_sum (Dict.values d)) 0.01); [|reflexivity].
  apply get_set_other. congruence.
Qed.

Lemma add_cash_sum d :
  ~ In cash_key (Dict.keys d) ->
  (Q_gtb (1.0 - py_sum (Dict.values d)) 0.01 = true ->
   py_sum (Dict.values (add_cash d)) == 1) /\
  (Q_gtb (1.0 - py_sum (Dict.values d)) 0.01 = false ->
   add_cash d = d).
Proof.
  intros Hnin. unfold add_cash.
  destruct (Q_gtb (1.0 - py_sum (Dict.values d)) 0.01); split;
    try discriminate; try reflexivity.
  intros _. rewrite (set_fresh d _ _ Hnin).
  unfold Dict.values. rewrite map_app. cbn.
  rewrite py_sum_app, py_sum_cons. change (py_sum []) with 0. ring.
Qed.

Lemma nonempty_inputs (ranked : list Z) (metrics : Dict.t MetricRecord) :
  ranked <> [] -> metrics <> [] ->
  list_is_empty ranked || Dict.is_empty metrics = false.
Proof.
  destruct ranked, metrics; cbn; congruence.
Qed.

End AllocatorFacts.

(* ================================================================== *)
(** * Allocator: bounds and total *)

Section AllocatorClaims.
Import Allocator DictFacts AllocatorFacts.

(** The bounds fail for an optimizer built with [max_allocation = 0.01]:
    in the clamp [max(min_allocation, min(max_allocation, base))] the
    minimum of 0.02 wins, no shrink runs, and the one subnet gets 0.02,
    twice [max_allocation]. *)
Lemma C2_low_cap_entry_above_max :
  shrink_executed low_cap_optimizer [1%Z] one_metric = false /\
  max_allocation low_cap_optimizer == 0.01 /\
  exists v,
    Dict.get (calculate_optimal_allocation low_cap_optimizer [1%Z] one_metric) 1%Z
    = Some v /\
    v == 0.02 /\
    ~ (v <= max_allocation low_cap_optimizer).
Proof.
  split; [vm_compute; reflexivity|]. split; [reflexivity|].
  eexists. split; [vm_compute; reflexivity|].
  split; [reflexivity|].
  vm_compute. intros H. apply H. reflexivity.
Qed.

(** C2, as the code has it: under a configuration with
    [0 <= min_allocation <= max_allocation]
    and [cash_allocation <= 1]: when the proportional shrink has not run,
    every entry other than cash lies in [[min_allocation, max_allocation]];
    when it has run, no entry other than cash exceeds [max_allocation]
    (nothing is said of [min_allocation]) and, no ranked entity sitting
    under the cash key, the entries other than cash add up to
    [total_risk_budget = 1 - cash_allocation], within 1e-6. *)
Theorem C2_entries_within_bounds :
  forall (self : Optimizer) (ranked : list Z) (metrics : Dict.t MetricRecord),
    0 <= min_allocation self <= max_allocation self ->
    cash_allocation self <= 1 ->
    let result := calculate_optimal_allocation self ranked metrics in
    (shrink_executed self ranked metrics = false ->
     forall k v, k <> cash_key -> Dict.get result k = Some v ->
                 min_allocation self <= v <= max_allocation self) /\
    (shrink_executed self ranked metrics = true ->
     (forall k v, k <> cash_key -> Dict.get result k = Some v ->
                  v <= max_allocation self) /\
     (~ In cash_key ranked ->
      Qabs (py_sum (Dict.values (non_cash result)) - total_risk_budget self)
      <= 0.000001)).
Proof.
  intros self ranked metrics Hmm Hcash result.
  subst result. unfold calculate_optimal_allocation, shrink_executed.
  destruct (list_is_empty ranked || Dict.is_empty metrics) eqn:Hempty; cbn [negb andb].
  - split; [|discriminate]. intros _ k v _ Hg. discriminate.
  - set (clamped := clamped_allocations self ranked metrics).
    assert (Hbounds : all_entries
                        (fun _ v => min_allocation self <= v <= max_allocation self)
                        clamped).
    { apply clamped_allocations_entries. intros k b _. split.
      - apply clamp_ge_min.
      - apply clamp_le_max. lra. }
    split; intros Hs.
    + intros k v Hk Hg. rewrite add_cash_get_other in Hg by exact Hk.
      unfold normalize in Hg. rewrite Hs in Hg.
      exact (all_entries_get _ _ _ _ Hbounds Hg).
    + split.
      * intros k v Hk Hg. rewrite add_cash_get_other in Hg by exact Hk.
        assert (Hle : all_entries (fun _ v => 0 <= v <= max_allocation self)
                                  (normalize self clamped)).
        { apply normalize_entries_le; [exact Hcash|].
          eapply Forall_impl; [|exact Hbounds]. intros [? ?] ?; cbn in *; lra. }
        apply (all_entries_get _ _ _ _ Hle Hg).
      * intros Hnocash.
        assert (Hkeys : ~ In cash_key (Dict.keys (normalize self clamped))).
        { rewrite normalize_keys. intros Hin. apply Hnocash.
          apply (all_entries_keys (fun k => In k ranked) clamped cash_key);
            [|exact Hin].
          apply clamped_allocations_entries. auto. }
        rewrite non_cash_add_cash by exact Hkeys.
        rewrite normalize_sum_shrunk; [| exact Hcash | | exact Hs].
        -- setoid_replace (total_risk_budget self - total_risk_budget self)
             with 0 by ring.
           cbn. discriminate.
        -- eapply Forall_impl; [|exact Hbounds]. intros [? ?] ?; cbn in *; lra.
Qed.

Lemma ten_ranked_no_cash : ~ In cash_key ten_ranked.
Proof.
  intros H. vm_compute in H.
  repeat (destruct H as [H|H]; [discriminate|]). exact H.
Qed.

Lemma C2_witness :
  shrink_executed default_optimizer ten_ranked ten_metrics = true /\
  (forall k v, k <> cash_key ->
     Dict.get (calculate_optimal_allocation default_optimizer ten_ranked ten_metrics) k
     = Some v ->
     v <= max_allocation default_optimizer) /\
  Qabs (py_sum (Dict.values
                  (non_cash (calculate_optimal_allocation
                               default_optimizer ten_ranked ten_metrics)))
        - total_risk_budget default_optimizer) <= 0.000001.
Proof.
  assert (Hmm : 0 <= min_allocation default_optimizer
                <= max_allocation default_optimizer)
    by (split; vm_compute; discriminate).
  assert (Hcash : cash_allocation default_optimizer <= 1)
    by (vm_compute; discriminate).
  assert (Hs : shrink_executed default_optimizer ten_ranked ten_metrics = true)
    by (vm_compute; reflexivity).
  split; [exact Hs|].
  destruct (proj2 (C2_entries_within_bounds default_optimizer ten_ranked ten_metrics
                     Hmm Hcash) Hs) as (Hmax & Hsum).
  split; [exact Hmax | exact (Hsum ten_ranked_no_cash)].
Defined.

(** After a shrink an entry can indeed end below [min_allocation]. *)
Lemma shrink_can_undercut_min :
  exists v,
    Dict.get (calculate_optimal_allocation default_optimizer ten_ranked ten_metrics)
             5%Z = Some v /\
    v < min_allocation default_optimizer.
Proof.
  eexists. split; [vm_compute; reflexivity|]. vm_compute. reflexivity.
Qed.

(** The claim of a total of 1 for every non-empty ranked list fails on an
    empty metrics mapping: the first guard returns the empty map. *)
Lemma C3_empty_metrics_total_zero :
  calculate_optimal_allocation default_optimizer [1%Z] [] = [] /\
  py_sum (Dict.values (calculate_optimal_allocation default_optimizer [1%Z] []))
  == 0 /\
  ~ (1 - 0.01
     <= py_sum (Dict.values (calculate_optimal_allocation default_optimizer [1%Z] []))).
Proof.
  split; [reflexivity|]. split; [reflexivity|].
  vm_compute. intros H. apply H. reflexivity.
Qed.

(** C3, as the code has it: for a non-empty ranked list and a non-empty metrics
    mapping, with no ranked entity under the cash key and a configuration
    with [0 <= min_allocation] and [0 <= cash_allocation <= 1], the values
    of the returned map, cash included, add up to at least 0.99 and at most
    1; they add up to 1 exactly when [cash_allocation] exceeds 0.01, as the
    constructor's 0.05 does. *)
Theorem C3_total_is_one :
  forall (self : Optimizer) (ranked : list Z) (metrics : Dict.t MetricRecord),
    ranked <> [] -> metrics <> [] ->
    ~ In cash_key ranked ->
    0 <= min_allocation self ->
    0 <= cash_allocation self <= 1 ->
    let total :=
      py_sum (Dict.values (calculate_optimal_allocation self ranked metrics)) in
    (1 - 0.01 <= total <= 1) /\
    (0.01 < cash_allocation self -> total == 1).
Proof.
  intros self ranked metrics Hr Hm Hnocash Hmin Hcash total. subst total.
  unfold calculate_optimal_allocation.
  rewrite (nonempty_inputs ranked metrics Hr Hm).
  set (d := normalize self (clamped_allocations self ranked metrics)).
  assert (Hpos : all_entries (fun _ v => 0 <= v)
                             (clamped_allocations self ranked metrics)).
  { apply clamped_allocations_entries. intros k b _.
    pose proof (clamp_ge_min self b). lra. }
  assert (Hkeys : ~ In cash_key (Dict.keys d)).
  { unfold d. rewrite normalize_keys. intros Hin. apply Hnocash.
    apply (all_entries_keys (fun k => In k ranked)
             (clamped_allocations self ranked metrics) cash_key); [|exact Hin].
    apply clamped_allocations_entries. auto. }
  assert (Hle : py_sum (Dict.values d) <= total_risk_budget self).
  { apply normalize_sum_le; [lra | exact Hpos]. }
  unfold total_risk_budget in Hle.
  destruct (add_cash_sum d Hkeys) as (Hyes & Hno).
  destruct (Q_gtb (1.0 - py_sum (Dict.values d)) 0.01) eqn:E.
  - specialize (Hyes eq_refl). split; [rewrite Hyes; lra | intros _; exact Hyes].
  - specialize (Hno eq_refl). rewrite Hno.
    apply Q_gtb_le in E. split; [lra|]. intros Hc. lra.
Qed.

Lemma C3_witness :
  (1 - 0.01
   <= py_sum (Dict.values
                (calculate_optimal_allocation default_optimizer [1%Z; 2%Z] two_metrics))
   <= 1) /\
  (0.01 < cash_allocation default_optimizer ->
   py_sum (Dict.values
             (calculate_optimal_allocation default_optimizer [1%Z; 2%Z] two_metrics))
   == 1).
Proof.
  apply (C3_total_is_one default_optimizer [1%Z; 2%Z] two_metrics).
  - discriminate.
  - discriminate.
  - intros [H|[H|[]]]; discriminate.
  - vm_compute. discriminate.
  - split; vm_compute; discriminate.
Defined.

(** After a shrink with a ranked entity under the cash key, the cash
    entry replaces the share of that entity, and the other entries no
    longer add up to the risk budget. *)
Lemma cash_entry_hides_a_share_after_shrink :
  shrink_executed default_optimizer (Dict.keys ten_from_zero) ten_from_zero = true /\
  In cash_key (Dict.keys ten_from_zero) /\
  ~ (Qabs (py_sum (Dict.values
                     (non_cash (calculate_optimal_allocation
                                  default_optimizer (Dict.keys ten_from_zero)
                                  ten_from_zero)))
           - total_risk_budget default_optimizer) <= 0.000001).
Proof.
  split; [vm_compute; reflexivity|]. split; [left; reflexivity|].
  vm_compute. intros H. apply H. reflexivity.
Qed.

(** What happens when a ranked entity does sit under the cash key: the
    cash entry replaces its allocation. *)
Lemma cash_entry_replaces_entity_zero :
  calculate_optimal_allocation default_optimizer [0%Z]
    [(0%Z, record_with_volatility 1)] = [(0%Z, 0.750)].
Proof. vm_compute. reflexivity. Qed.

End AllocatorClaims.

(* ================================================================== *)
(** * MetricsCalculator: what a record is made of *)

Module MetricsFacts.
Import Metrics DictFacts AllocatorFacts.

Lemma insert_by_date_perm r l : Permutation (insert_by_date r l) (r :: l).
Proof.
  induction l as [|r' l IH]; cbn.
  - reflexivity.
  - destruct (String.leb (row_date r) (row_date r')).
    + reflexivity.
    + rewrite IH. apply perm_swap.
Qed.

Lemma sort_values_date_perm l : Permutation (sort_values_date l) l.
Proof.
  induction l as [|r l IH]; cbn.
  - reflexivity.
  - rewrite insert_by_date_perm. now constructor.
Qed.

Lemma finite_values_length a : (length (finite_values a) <= length a)%nat.
Proof.
  induction a as [|[q| | |] a IH]; cbn; lia.
Qed.

Lemma np_diff_length a : length (np_diff a) = (length a - 1)%nat.
Proof.
  induction a as [|x [|y t] IH]; try reflexivity.
  change (np_diff (x :: y :: t)) with ((y - x) :: np_diff (y :: t)).
  cbn [length] in *. rewrite IH. lia.
Qed.

Lemma returns_of_length prices :
  (length (returns_of prices) <= length prices - 1)%nat.
Proof.
  unfold returns_of, np_divide.
  etransitivity; [apply finite_values_length|].
  rewrite length_map, length_combine, np_diff_length. lia.
Qed.

Lemma forallb_false_exists {A} (f : A -> bool) l :
  forallb f l = false -> exists x, In x l /\ f x = false.
Proof.
  induction l as [|x l IH]; cbn; [discriminate|].
  destruct (f x) eqn:E; cbn.
  - intros H. destruct (IH H) as (y & Hy & Hf). exists y. auto.
  - intros _. exists x. auto.
Qed.

Lemma Q_is_zero_false q : Q_is_zero q = false -> ~ q == 0.
Proof. unfold Q_is_zero. apply Qeq_bool_neq. Qed.

Lemma Q_of_nat_nonneg n : 0 <= Q_of_nat n.
Proof.
  unfold Q_of_nat. change 0 with (inject_Z 0). rewrite <- Zle_Qle. lia.
Qed.

Lemma Qdiv_nonneg a b : 0 <= a -> 0 <= b -> 0 <= a / b.
Proof.
  intros Ha Hb. unfold Qdiv. apply Qmult_le_0_compat; [exact Ha|].
  now apply Qinv_le_0_compat.
Qed.

Lemma mean_of_nonneg a : Forall (fun v => 0 <= v) a -> 0 <= mean_of a.
Proof.
  intros H. unfold mean_of. apply Qdiv_nonneg.
  - now apply py_sum_nonneg.
  - apply Q_of_nat_nonneg.
Qed.

(** The variance inside [np.std] is not negative. *)
Lemma variance_nonneg a :
  0 <= mean_of (map (fun x => Qabs (x - mean_of a) * Qabs (x - mean_of a)) a).
Proof.
  apply mean_of_nonneg. apply Forall_forall. intros v Hv.
  apply in_map_iff in Hv. destruct Hv as (x & <- & _).
  apply Qmult_le_0_compat; apply Qabs_nonneg.
Qed.

Lemma volatility_of_nonneg (np_sqrt : Q -> Q) returns :
  (forall q, 0 <= q -> 0 <= np_sqrt q) ->
  0 <= volatility_of np_sqrt returns.
Proof.
  intros Hsqrt. unfold volatility_of, np_std.
  destruct (1 <? length returns)%nat; [|lra].
  apply Hsqrt, variance_nonneg.
Qed.

(** An absolute value is a [nan] or is not below zero. *)
Lemma fabs_nan_or_nonneg x : fabs x = NaN \/ fle (Fin 0) (fabs x) = true.
Proof.
  destruct x as [q| | |]; cbn [fabs]; auto.
  right. unfold fle. cbn [flt feqb].
  destruct (Q_ltb 0 (Qabs q)) eqn:E; [reflexivity|].
  apply Q_ltb_ge in E. pose proof (Qabs_nonneg q).
  cbn [orb]. apply Qeq_bool_iff. lra.
Qed.

(** [kelly / 2 * 100] is [kelly * 50], special values included. *)
Lemma half_times_hundred k :
  fl_eq (fmul (fdiv k (Fin 2)) (Fin 100)) (fmul k (Fin 50)).
Proof.
  destruct k as [q| | |]; cbn; try exact I.
  field.
Qed.

Lemma fl_eq_refl x : fl_eq x x.
Proof. destruct x; cbn; auto. reflexivity. Qed.

Lemma fadd_fl_eq a x y : fl_eq x y -> fl_eq (fadd a x) (fadd a y).
Proof.
  destruct a as [qa| | |], x as [qx| | |], y as [qy| | |]; cbn; try tauto.
  intros H. now rewrite H.
Qed.

Section Records.
Variable np_sqrt : Q -> Q.
Variable float_pow : Q -> Q -> fl.

(** What the existence of a record says about the rows it was made
    from. *)
Lemma subnet_record_inv subnet_data r :
  subnet_record np_sqrt float_pow subnet_data = Some r ->
  let prices := prices_of_rows subnet_data in
  let returns := returns_of_rows subnet_data in
  (5 <= length subnet_data)%nat /\
  forallb Q_is_zero prices = false /\
  (1 <= length returns)%nat /\
  r = {| total_return := total_return_of prices;
         volatility := volatility_of np_sqrt returns;
         sharpe := sharpe_of np_sqrt returns;
         max_drawdown := fabs (max_drawdown_of returns);
         win_rate := win_rate_of returns;
         profit_factor := profit_factor_of returns;
         kelly := kelly_of returns;
         mar := mar_of prices returns;
         lsr := lsr_of returns;
         odds := odds_of returns;
         daily_return := daily_return_of float_pow prices returns;
         composite_score := composite_score_of float_pow prices returns;
         emission := mean_of (map row_emission (sort_values_date subnet_data));
         weight := mean_of (map row_weight (sort_values_date subnet_data));
         current_price := last_of prices;
         data_points := length returns |}.
Proof.
  unfold subnet_record, returns_of_rows, prices_of_rows.
  destruct (length subnet_data <? 5)%nat eqn:Hlen; [discriminate|].
  apply Nat.ltb_ge in Hlen.
  cbv zeta.
  destruct (forallb Q_is_zero (map row_price (sort_values_date subnet_data)))
    eqn:Hzero; [rewrite orb_true_r; discriminate|].
  rewrite orb_false_r.
  destruct (length (map row_price (sort_values_date subnet_data)) =? 0)%nat;
    [discriminate|].
  destruct (length (returns_of (map row_price (sort_values_date subnet_data)))
            =? 0)%nat eqn:Hret; [discriminate|].
  apply Nat.eqb_neq in Hret.
  intros H. inversion H. repeat split; auto. lia.
Qed.

(** Every entry of the result is the record of the rows of its key. *)
Lemma metrics_entries df :
  all_entries
    (fun netuid r => subnet_record np_sqrt float_pow (rows_of df netuid) = Some r)
    (calculate_performance_metrics np_sqrt float_pow df).
Proof.
  unfold calculate_performance_metrics.
  generalize (unique (map row_netuid df)).
  assert (H0 : all_entries
                 (fun netuid r =>
                    subnet_record np_sqrt float_pow (rows_of df netuid) = Some r)
                 (@Dict.empty MetricRecord)) by constructor.
  revert H0. generalize (@Dict.empty MetricRecord).
  intros acc Hacc l. revert acc Hacc.
  induction l as [|k l IH]; intros acc Hacc; cbn.
  - exact Hacc.
  - apply IH. unfold metrics_step.
    destruct (subnet_record np_sqrt float_pow (rows_of df k)) eqn:E;
      [|exact Hacc].
    now apply all_entries_set.
Qed.

Lemma metrics_get df netuid r :
  Dict.get (calculate_performance_metrics np_sqrt float_pow df) netuid = Some r ->
  subnet_record np_sqrt float_pow (rows_of df netuid) = Some r.
Proof.
  intros Hg. exact (all_entries_get _ _ _ _ (metrics_entries df) Hg).
Qed.

End Records.

End MetricsFacts.

(* ================================================================== *)
(** * MetricsCalculator: the record invariant and the scoring fields *)

Section MetricsClaims.
Import Metrics DictFacts AllocatorFacts MetricsFacts.

Lemma example_sqrt_nonneg q : 0 <= q -> 0 <= example_sqrt q.
Proof.
  intros _. unfold example_sqrt, Qle. cbn [Qnum Qden].
  rewrite Z.mul_0_l, Z.mul_1_r. apply Z.sqrt_nonneg.
Qed.

(** Five samples pass the first guard and give four returns: the record
    exists with [data_points = 4]. *)
Lemma C1_five_samples_four_data_points :
  exists r,
    Dict.get (calculate_performance_metrics example_sqrt example_pow five_rising)
             7%Z = Some r /\
    data_points r = 4%nat /\
    ~ (5 <= data_points r)%nat.
Proof.
  eexists. split; [vm_compute; reflexivity|].
  split; [reflexivity|]. cbn. lia.
Qed.

(** On a price that falls to zero the drawdown is 0/0: the record carries
    a [nan] as [max_drawdown]. *)
Lemma max_drawdown_can_be_nan :
  exists r,
    Dict.get (calculate_performance_metrics example_sqrt example_pow fall_to_zero)
             7%Z = Some r /\
    max_drawdown r = NaN.
Proof.
  eexists. split; [vm_compute; reflexivity | reflexivity].
Qed.

(** C1, as the code has it: when the calculator holds a record for an entity, the
    entity has at least 5 rows, one of them with a non-zero price;
    [data_points] is the number of finite returns, at least 1 and at most
    the number of rows less one; [volatility] is not negative (the square
    root being not negative); [max_drawdown] is a [nan] or is not negative. *)
Theorem C1_record_invariant :
  forall (np_sqrt : Q -> Q) (float_pow : Q -> Q -> fl)
         (df : list Row) (netuid : Z) (r : MetricRecord),
    (forall q, 0 <= q -> 0 <= np_sqrt q) ->
    Dict.get (calculate_performance_metrics np_sqrt float_pow df) netuid = Some r ->
    let subnet_data := rows_of df netuid in
    (5 <= length subnet_data)%nat /\
    (exists row, In row subnet_data /\ ~ row_price row == 0) /\
    data_points r = length (returns_of_rows subnet_data) /\
    (1 <= data_points r <= length subnet_data - 1)%nat /\
    0 <= volatility r /\
    (max_drawdown r = NaN \/ fle (Fin 0) (max_drawdown r) = true).
Proof.
  intros np_sqrt float_pow df netuid r Hsqrt Hget subnet_data.
  apply metrics_get in Hget. fold subnet_data in Hget.
  destruct (subnet_record_inv np_sqrt float_pow subnet_data r Hget)
    as (Hlen & Hzero & Hret & ->).
  cbn [data_points volatility max_drawdown].
  split; [exact Hlen|]. split.
  - apply forallb_false_exists in Hzero. destruct Hzero as (p & Hp & Hz).
    unfold prices_of_rows in Hp. apply in_map_iff in Hp.
    destruct Hp as (row & <- & Hrow).
    exists row. split.
    + eapply Permutation_in; [apply sort_values_date_perm | exact Hrow].
    + now apply Q_is_zero_false.
  - split; [reflexivity|]. split; [|split].
    + split; [exact Hret|].
      unfold returns_of_rows.
      etransitivity; [apply returns_of_length|].
      unfold prices_of_rows. rewrite length_map.
      rewrite (Permutation_length (sort_values_date_perm subnet_data)). lia.
    + now apply volatility_of_nonneg.
    + apply fabs_nan_or_nonneg.
Qed.

Lemma C1_witness :
  exists r,
    Dict.get (calculate_performance_metrics example_sqrt example_pow six_mixed)
             7%Z = Some r /\
    (5 <= length (rows_of six_mixed 7))%nat /\
    (exists row, In row (rows_of six_mixed 7) /\ ~ row_price row == 0) /\
    data_points r = length (returns_of_rows (rows_of six_mixed 7)) /\
    (1 <= data_points r <= length (rows_of six_mixed 7) - 1)%nat /\
    0 <= volatility r /\
    (max_drawdown r = NaN \/ fle (Fin 0) (max_drawdown r) = true).
Proof.
  eexists. split; [vm_compute; reflexivity|].
  apply (C1_record_invariant example_sqrt example_pow six_mixed 7%Z).
  - exact example_sqrt_nonneg.
  - vm_compute. reflexivity.
Defined.

(** C8: in every record the calculator produces, [odds] is
    [50 + kelly * 50] and [composite_score] is the plain product
    [mar * lsr * odds * daily_return * 100], no factor being bounded. *)
Theorem C8_odds_and_composite_score :
  forall (np_sqrt : Q -> Q) (float_pow : Q -> Q -> fl)
         (df : list Row) (netuid : Z) (r : MetricRecord),
    Dict.get (calculate_performance_metrics np_sqrt float_pow df) netuid = Some r ->
    fl_eq (odds r) (fadd (Fin 50) (fmul (kelly r) (Fin 50))) /\
    fl_eq (composite_score r)
          (fmul (fmul (fmul (fmul (mar r) (Fin (lsr r))) (odds r)) (daily_return r))
                (Fin 100)).
Proof.
  intros np_sqrt float_pow df netuid r Hget.
  apply metrics_get in Hget.
  destruct (subnet_record_inv np_sqrt float_pow _ r Hget) as (_ & _ & _ & ->).
  cbn [odds kelly composite_score mar lsr daily_return].
  split.
  - unfold odds_of. apply fadd_fl_eq, half_times_hundred.
  - unfold composite_score_of. apply fl_eq_refl.
Qed.

Lemma C8_witness :
  exists r,
    Dict.get (calculate_performance_metrics example_sqrt example_pow six_mixed)
             7%Z = Some r /\
    fl_eq (odds r) (fadd (Fin 50) (fmul (kelly r) (Fin 50))) /\
    fl_eq (composite_score r)
          (fmul (fmul (fmul (fmul (mar r) (Fin (lsr r))) (odds r)) (daily_return r))
                (Fin 100)).
Proof.
  eexists. split; [vm_compute; reflexivity|].
  apply (C8_odds_and_composite_score example_sqrt example_pow six_mixed 7%Z).
  vm_compute. reflexivity.
Defined.



(** A day without change counts as a day that is not won, while the mean
    of the losses is taken over an empty array: [avg_loss] and
    [profit_factor] are [nan] and [kelly] falls back to 0. *)
Lemma flat_day_gives_nan_profit_factor :
  let returns := [1; 0; 1; 0] in
  avg_loss_of returns = NaN /\
  profit_factor_of returns = NaN /\
  kelly_of returns = Fin 0.
Proof. repeat split. Qed.

End MetricsClaims.

(* ================================================================== *)
(** * Ranker: the order of the scores and the sorts *)

Module RankerFacts.
Import Ranker AllocatorFacts.

Lemma fle_Fin x y : fle (Fin x) (Fin y) = true <-> x <= y.
Proof.
  unfold fle. cbn [flt feqb]. rewrite orb_true_iff, Q_ltb_lt, Qeq_bool_iff.
  split; [intros [H|H]; lra|].
  intros H. destruct (Qlt_le_dec x y); [now left | right; lra].
Qed.

(** [score_geb] is a total preorder. *)
Lemma score_geb_trans a b c :
  score_geb a b = true -> score_geb b c = true -> score_geb a c = true.
Proof.
  destruct a as [x| | |], b as [y| | |], c as [z| | |];
    cbn [score_geb]; try reflexivity; try discriminate;
    try (rewrite !fle_Fin; intros; lra);
    try (cbn; intros; reflexivity);
    try (cbn; intros; discriminate).
Qed.

Lemma score_geb_total a b :
  score_geb a b = false -> score_geb b a = true.
Proof.
  destruct a as [x| | |], b as [y| | |];
    cbn [score_geb]; try reflexivity; try discriminate;
    try (cbn; intros; reflexivity);
    try (cbn; intros; discriminate).
  intros H. apply fle_Fin.
  destruct (Qlt_le_dec x y) as [Hlt|Hle]; [lra|].
  apply fle_Fin in Hle. congruence.
Qed.

Section InsertionSort.

(** A test that places [x] before [y] only when [x] may stand before [y],
    and after [y] only when [y] may stand before [x]. *)
Variable before : fl -> fl -> bool.
Hypothesis before_true : forall a b, before a b = true -> score_geb a b = true.
Hypothesis before_false : forall a b, before a b = false -> score_geb b a = true.

Lemma insert_row_perm x l : Permutation (insert_row before x l) (x :: l).
Proof.
  induction l as [|y l IH]; cbn.
  - reflexivity.
  - destruct (before (snd x) (snd y)).
    + reflexivity.
    + rewrite IH. apply perm_swap.
Qed.

Lemma insertion_sort_perm l : Permutation l (insertion_sort before l).
Proof.
  induction l as [|x l IH]; cbn.
  - reflexivity.
  - rewrite insert_row_perm. now constructor.
Qed.

Lemma insert_row_sorted x l :
  desc_sorted l -> desc_sorted (insert_row before x l).
Proof.
  unfold desc_sorted.
  induction 1 as [|y l Hl IH Hy]; cbn.
  - repeat constructor.
  - destruct (before (snd x) (snd y)) eqn:E.
    + constructor; [now constructor|].
      apply before_true in E. constructor; [exact E|].
      eapply Forall_impl; [|exact Hy]. cbn.
      intros z Hz. eapply score_geb_trans; eauto.
    + constructor; [exact IH|].
      eapply Permutation_Forall; [symmetry; apply insert_row_perm|].
      constructor; [now apply before_false | exact Hy].
Qed.

Lemma insertion_sort_sorted l : desc_sorted (insertion_sort before l).
Proof.
  induction l as [|x l IH]; cbn.
  - constructor.
  - now apply insert_row_sorted.
Qed.

Lemma insertion_sort_sorts_descending : sorts_descending (insertion_sort before).
Proof.
  intros l. split; [apply insertion_sort_perm | apply insertion_sort_sorted].
Qed.

End InsertionSort.

Lemma stable_sort_desc_sorts : sorts_descending stable_sort_desc.
Proof.
  apply insertion_sort_sorts_descending.
  - auto.
  - apply score_geb_total.
Qed.

(** Equal scores are interchangeable for the order. *)
Lemma feqb_score_geb a b s :
  feqb a s = true -> feqb b s = true -> score_geb a b = true.
Proof.
  destruct a as [x| | |], b as [y| | |], s as [z| | |];
    cbn [feqb]; try discriminate; try reflexivity.
  rewrite !Qeq_bool_iff. intros Hx Hy. cbn [score_geb]. apply fle_Fin. lra.
Qed.

(** The first insertion sort is stable. *)
Lemma stable_insert_filter s x l :
  filter (fun y => feqb (snd y) s) (insert_row score_geb x l)
  = filter (fun y => feqb (snd y) s) (x :: l).
Proof.
  induction l as [|y l IH]; [reflexivity|].
  cbn [insert_row]. destruct (score_geb (snd x) (snd y)) eqn:E; [reflexivity|].
  cbn [filter] in *. rewrite IH.
  destruct (feqb (snd x) s) eqn:Ex; [|reflexivity].
  destruct (feqb (snd y) s) eqn:Ey; [|reflexivity].
  rewrite (feqb_score_geb _ _ _ Ex Ey) in E. discriminate.
Qed.

Lemma stable_sort_desc_keeps_ties : keeps_order_of_ties stable_sort_desc.
Proof.
  intros l s. induction l as [|x l IH]; [reflexivity|].
  unfold stable_sort_desc, insertion_sort in *. cbn [fold_right].
  rewrite stable_insert_filter. cbn [filter]. now rewrite IH.
Qed.

(** The column of scores has one entry per row. *)
Lemma normalize_column_length col : length (normalize_column col) = length col.
Proof.
  unfold normalize_column.
  destruct (fgt (series_max col) (series_min col)); now rewrite length_map.
Qed.

Lemma weighted_scores_length df : length (weighted_scores df) = length df.
Proof.
  unfold weighted_scores.
  assert (H0 : length (map (fun _ : Z * MetricRecord => Fin 0) df) = length df)
    by apply length_map.
  revert H0. generalize (map (fun _ : Z * MetricRecord => Fin 0) df).
  generalize weights.
  induction l as [|mw l IH]; intros acc Hacc; cbn.
  - exact Hacc.
  - apply IH. unfold add_weighted.
    rewrite length_map, length_combine, normalize_column_length, length_map.
    lia.
Qed.

Lemma scored_rows_keys self metrics :
  map fst (scored_rows self metrics) = Dict.keys (filter_problematic self metrics).
Proof.
  unfold scored_rows.
  set (df := filter_problematic self metrics).
  pose proof (weighted_scores_length df) as Hlen.
  revert Hlen. generalize (weighted_scores df).
  unfold Dict.keys. induction df as [|[k m] df IH]; intros [|s scores] Hlen;
    cbn in *; try reflexivity; try discriminate.
  f_equal. apply IH. lia.
Qed.

(** The rows that pass the three filters. *)
Lemma filter_problematic_in self metrics k m :
  In (k, m) (filter_problematic self metrics) <->
  In (k, m) metrics /\
  (5 <= data_points m)%nat /\
  fle (max_drawdown m) (Fin (max_drawdown_limit self)) = true /\
  volatility m < 5.0.
Proof.
  unfold filter_problematic. rewrite !filter_In. cbn [snd].
  rewrite Nat.leb_le, Q_ltb_lt. tauto.
Qed.

(** The sorted rows, for any sort that sorts in descending order. *)
Lemma ranked_rows_spec sort self metrics :
  sorts_descending sort ->
  Permutation (ranked_rows sort self metrics) (scored_rows self metrics) /\
  desc_sorted (ranked_rows sort self metrics) /\
  (keeps_order_of_ties sort -> ties_in_input_order sort self metrics).
Proof.
  intros Hsort. unfold ties_in_input_order, ranked_rows.
  destruct metrics as [|km metrics]; cbn [Dict.is_empty].
  - split; [reflexivity|]. split; [constructor|]. intros _ s. reflexivity.
  - destruct (Hsort (scored_rows self (km :: metrics))) as (Hperm & Hdesc).
    split; [now symmetry|]. split; [exact Hdesc|].
    intros Hstable s. now rewrite Hstable.
Qed.

End RankerFacts.

(* ================================================================== *)
(** * Ranker: descending order, and the order of ties *)

Section RankerClaims.
Import Ranker RankerFacts.


(** On two and on three subnets that sort goes by insertion, and the
    subnets of equal score stay in input order. *)
Lemma pandas_ranking_of_twins :
  rank_subnets Pandas.sort_values_desc default_optimizer twin_metrics
  = [1%Z; 2%Z] /\
  rank_subnets Pandas.sort_values_desc default_optimizer three_metrics
  = [2%Z; 1%Z; 3%Z].
Proof. split; vm_compute; reflexivity. Qed.



(** With the stable sort the three subnets come out with the larger
    emission first and the two tied ones in input order. *)
Lemma stable_ranking_of_three :
  rank_subnets stable_sort_desc default_optimizer three_metrics = [2%Z; 1%Z; 3%Z] /\
  ties_in_input_order stable_sort_desc default_optimizer three_metrics.
Proof.
  split; [vm_compute; reflexivity|].
  apply (ranked_rows_spec stable_sort_desc default_optimizer three_metrics
           stable_sort_desc_sorts).
  exact stable_sort_desc_keeps_ties.
Qed.

End RankerClaims.

(* ================================================================== *)
(** * More on dictionaries: keys, lookups, loops of assignments *)

Module DictMore.
Import DictFacts.

Lemma in_keys_set {V} (d : Dict.t V) k v k' :
  In k' (Dict.keys (Dict.set d k v)) <-> k' = k \/ In k' (Dict.keys d).
Proof.
  induction d as [|[k0 v0] d IH]; cbn.
  - intuition.
  - destruct (Z.eqb k0 k) eqn:E; cbn.
    + apply Z.eqb_eq in E. subst k0. intuition.
    + fold (Dict.keys (Dict.set d k v)). fold (Dict.keys d). rewrite IH. intuition.
Qed.

Lemma get_none_iff {V} (d : Dict.t V) k :
  Dict.get d k = None <-> ~ In k (Dict.keys d).
Proof.
  induction d as [|[k0 v0] d IH]; cbn.
  - tauto.
  - destruct (Z.eqb k0 k) eqn:E.
    + apply Z.eqb_eq in E. split; [discriminate | tauto].
    + apply Z.eqb_neq in E. fold (Dict.keys d). rewrite IH. tauto.
Qed.

Lemma get_some_in_keys {V} (d : Dict.t V) k v :
  Dict.get d k = Some v -> In k (Dict.keys d).
Proof.
  intros H. destruct (in_dec Z.eq_dec k (Dict.keys d)) as [Hin|Hnin]; [exact Hin|].
  apply get_none_iff in Hnin. congruence.
Qed.

Lemma in_keys_get {V} (d : Dict.t V) k :
  In k (Dict.keys d) -> exists v, Dict.get d k = Some v.
Proof.
  intros Hin. destruct (Dict.get d k) as [v|] eqn:E; [now exists v|].
  apply get_none_iff in E. tauto.
Qed.

Lemma get_in {V} (d : Dict.t V) k v : Dict.get d k = Some v -> In (k, v) d.
Proof.
  induction d as [|[k0 v0] d IH]; cbn; [discriminate|].
  destruct (Z.eqb k0 k) eqn:E; intros H.
  - apply Z.eqb_eq in E. left. congruence.
  - right. now apply IH.
Qed.

(** With distinct keys a lookup finds every entry. *)
Lemma in_get {V} (d : Dict.t V) k v :
  NoDup (Dict.keys d) -> In (k, v) d -> Dict.get d k = Some v.
Proof.
  induction d as [|[k0 v0] d IH]; cbn; intros Hnd Hin; [tauto|].
  inversion Hnd as [|? ? Hnotin Hnd']; subst.
  destruct Hin as [Heq|Hin].
  - inversion Heq; subst. now rewrite Z.eqb_refl.
  - destruct (Z.eqb k0 k) eqn:E.
    + apply Z.eqb_eq in E. subst k0. exfalso. apply Hnotin.
      change k with (fst (k, v)). now apply in_map.
    + now apply IH.
Qed.

(** With distinct keys the order of the entries does not matter to a
    lookup. *)
Lemma get_perm {V} (d d' : Dict.t V) k :
  NoDup (Dict.keys d) -> Permutation d d' -> Dict.get d k = Dict.get d' k.
Proof.
  intros Hnd Hperm.
  assert (Hnd' : NoDup (Dict.keys d')).
  { eapply Permutation_NoDup; [|exact Hnd]. now apply Permutation_map. }
  destruct (Dict.get d k) as [v|] eqn:E.
  - symmetry. apply in_get; [exact Hnd'|].
    eapply Permutation_in; [exact Hperm | now apply get_in].
  - destruct (Dict.get d' k) as [v'|] eqn:E'; [|reflexivity].
    apply get_in in E'. apply get_none_iff in E. exfalso. apply E.
    change k with (fst (k, v')). apply in_map.
    eapply Permutation_in; [symmetry; exact Hperm | exact E'].
Qed.

Lemma set_keys_nodup {V} (d : Dict.t V) k v :
  NoDup (Dict.keys d) -> NoDup (Dict.keys (Dict.set d k v)).
Proof.
  induction d as [|[k0 v0] d IH]; cbn; intros Hnd.
  - constructor; [tauto | constructor].
  - inversion Hnd as [|? ? Hnotin Hnd']; subst.
    destruct (Z.eqb k0 k) eqn:E; cbn.
    + apply Z.eqb_eq in E. subst k0. now constructor.
    + apply Z.eqb_neq in E. constructor; [|now apply IH].
      fold (Dict.keys (Dict.set d k v)). rewrite in_keys_set. tauto.
Qed.

(** A loop that assigns [f k] under each key [k] of a list for which [f]
    gives a value: what a lookup finds afterwards. *)
Lemma get_assign_loop {V} (f : Z -> option V) (l : list Z) : forall acc k,
  Dict.get
    (fold_left (fun acc k => match f k with
                             | Some v => Dict.set acc k v
                             | None => acc
                             end) l acc) k
  = match f k with
    | Some v => if existsb (Z.eqb k) l then Some v else Dict.get acc k
    | None => Dict.get acc k
    end.
Proof.
  induction l as [|x l IH]; intros acc k; cbn [fold_left existsb].
  - now destruct (f k).
  - rewrite IH. destruct (Z.eqb k x) eqn:E.
    + apply Z.eqb_eq in E. subst x. cbn [orb].
      destruct (f k) as [v|]; [|reflexivity].
      rewrite get_set_same. now destruct (existsb (Z.eqb k) l).
    + apply Z.eqb_neq in E. cbn [orb].
      assert (Hget : Dict.get (match f x with
                               | Some v => Dict.set acc x v
                               | None => acc
                               end) k = Dict.get acc k).
      { destruct (f x); [|reflexivity]. apply get_set_other. congruence. }
      rewrite Hget. reflexivity.
Qed.

Lemma assign_loop_keys_nodup {V} (f : Z -> option V) (l : list Z) : forall acc,
  NoDup (Dict.keys acc) ->
  NoDup (Dict.keys
           (fold_left (fun acc k => match f k with
                                    | Some v => Dict.set acc k v
                                    | None => acc
                                    end) l acc)).
Proof.
  induction l as [|x l IH]; intros acc Hnd; cbn [fold_left].
  - exact Hnd.
  - apply IH. destruct (f x); [now apply set_keys_nodup | exact Hnd].
Qed.

Lemma existsb_eqb_in k l : existsb (Z.eqb k) l = true <-> In k l.
Proof.
  rewrite existsb_exists. split.
  - intros (x & Hx & E). apply Z.eqb_eq in E. now subst.
  - intros H. exists k. split; [exact H | apply Z.eqb_refl].
Qed.

End DictMore.

(* ================================================================== *)
(** * Allocator: what each entry is *)

Module AllocatorMore.
Import Allocator AllocatorValues DictFacts DictMore AllocatorFacts.

Lemma fold_left_ext {A B} (f g : A -> B -> A) l :
  (forall a b, f a b = g a b) -> forall a, fold_left f l a = fold_left g l a.
Proof.
  intros Hfg. induction l as [|x l IH]; intros a; cbn; [reflexivity|].
  now rewrite Hfg, IH.
Qed.

Lemma py_max_floor_pos v : 0 < py_max v 0.01.
Proof.
  destruct (py_max_spec v 0.01) as (_ & H & _). lra.
Qed.

Lemma py_max_mono a b c : a <= b -> py_max a c <= py_max b c.
Proof.
  intros Hab. unfold py_max, Q_gtb.
  destruct (Q_ltb a c) eqn:Ea, (Q_ltb b c) eqn:Eb;
    rewrite ?Q_ltb_lt, ?Q_ltb_ge in *; lra.
Qed.

Lemma py_max_mono_r a b c : a <= b -> py_max c a <= py_max c b.
Proof.
  intros Hab. unfold py_max, Q_gtb.
  destruct (Q_ltb c a) eqn:Ea, (Q_ltb c b) eqn:Eb;
    rewrite ?Q_ltb_lt, ?Q_ltb_ge in *; lra.
Qed.

Lemma py_min_mono_r a b c : a <= b -> py_min c a <= py_min c b.
Proof.
  intros Hab. unfold py_min.
  destruct (Q_ltb a c) eqn:Ea, (Q_ltb b c) eqn:Eb;
    rewrite ?Q_ltb_lt, ?Q_ltb_ge in *; lra.
Qed.

Lemma clamp_mono self a b : a <= b -> clamp self a <= clamp self b.
Proof.
  intros Hab. unfold clamp. apply py_max_mono_r, py_min_mono_r, Hab.
Qed.

Lemma inv_pos_antitone a b : 0 < a -> a <= b -> 1.0 / b <= 1.0 / a.
Proof.
  intros Ha Hab.
  apply Qle_shift_div_l; [exact Ha|].
  setoid_replace (1.0 / b * a) with (a / b) by (field; lra).
  apply Qle_shift_div_r; lra.
Qed.

Lemma inv_pos_pos a : 0 < a -> 0 < 1.0 / a.
Proof. intros Ha. apply Qlt_shift_div_l; lra. Qed.

(** The first loop: the weights are an assignment loop, the total only
    grows, and it is positive as soon as one selected subnet has metrics. *)
Lemma inv_vol_loop_weights metrics selected : forall w t,
  fst (fold_left (inv_vol_step metrics) selected (w, t))
  = assign_loop (inv_vol_weight metrics) selected w.
Proof.
  unfold assign_loop.
  induction selected as [|x l IH]; intros w t; cbn [fold_left]; [reflexivity|].
  unfold inv_vol_step at 2, inv_vol_weight at 2.
  destruct (Dict.get metrics x); apply IH.
Qed.

Lemma inv_vol_loop_total_ge metrics selected : forall w t,
  t <= snd (fold_left (inv_vol_step metrics) selected (w, t)).
Proof.
  induction selected as [|x l IH]; intros w t; cbn [fold_left]; [cbn; lra|].
  unfold inv_vol_step at 2.
  destruct (Dict.get metrics x) as [m|]; [|apply IH].
  eapply Qle_trans; [|apply IH].
  pose proof (inv_pos_pos _ (py_max_floor_pos (volatility m))). lra.
Qed.

Lemma inv_vol_loop_total_pos metrics selected k : forall w t,
  0 <= t -> In k selected -> Dict.get metrics k <> None ->
  0 < snd (fold_left (inv_vol_step metrics) selected (w, t)).
Proof.
  induction selected as [|x l IH]; intros w t Ht Hin Hk; [destruct Hin|].
  cbn [fold_left]. destruct Hin as [->|Hin].
  - unfold inv_vol_step at 2. destruct (Dict.get metrics k) as [m|]; [|congruence].
    eapply Qlt_le_trans; [|apply inv_vol_loop_total_ge].
    pose proof (inv_pos_pos _ (py_max_floor_pos (volatility m))). lra.
  - unfold inv_vol_step at 2.
    destruct (Dict.get metrics x) as [m|]; [|now apply IH].
    apply IH; auto.
    pose proof (inv_pos_pos _ (py_max_floor_pos (volatility m))). lra.
Qed.

(** The second loop is an assignment loop of [clamped_value]. *)
Lemma alloc_loop_assign self w t selected acc :
  fold_left (alloc_step self w t) selected acc
  = assign_loop (clamped_value self w t) selected acc.
Proof.
  unfold assign_loop. apply fold_left_ext. intros a k.
  unfold alloc_step, clamped_value.
  destruct (Dict.get w k); [|reflexivity].
  now destruct (Q_gtb t 0).
Qed.

(** What a lookup finds in the clamped allocations. *)
Lemma clamped_allocations_get self ranked metrics k :
  let selected := selected_subnets self ranked in
  let w := fst (inv_vol_loop metrics selected) in
  let t := snd (inv_vol_loop metrics selected) in
  Dict.get (clamped_allocations self ranked metrics) k
  = match Dict.get metrics k with
    | Some m =>
        if existsb (Z.eqb k) selected
        then Some (clamp self ((1.0 / py_max (volatility m) 0.01) / t
                               * total_risk_budget self))
        else None
    | None => None
    end.
Proof.
  intros selected w t. unfold clamped_allocations. fold selected.
  destruct (inv_vol_loop metrics selected) as [w' t'] eqn:Eloop.
  subst w t. cbn [fst snd].
  rewrite alloc_loop_assign. unfold assign_loop. rewrite get_assign_loop.
  assert (Hw : w' = assign_loop (inv_vol_weight metrics) selected Dict.empty).
  { unfold inv_vol_loop in Eloop.
    rewrite <- (inv_vol_loop_weights metrics selected Dict.empty 0).
    now rewrite Eloop. }
  unfold clamped_value. rewrite Hw at 1. unfold assign_loop.
  rewrite get_assign_loop. unfold inv_vol_weight. cbn [Dict.get Dict.empty].
  destruct (Dict.get metrics k) as [m|] eqn:Em; [|reflexivity].
  destruct (existsb (Z.eqb k) selected) eqn:Ein; [|reflexivity].
  assert (Hpos : 0 < t').
  { apply existsb_eqb_in in Ein.
    replace t' with (snd (fold_left (inv_vol_step metrics) selected (Dict.empty, 0)))
      by (unfold inv_vol_loop in Eloop; now rewrite Eloop).
    apply (inv_vol_loop_total_pos metrics selected k); [lra | exact Ein | congruence]. }
  apply Q_gtb_gt in Hpos. now rewrite Hpos.
Qed.

Lemma clamped_allocations_keys_nodup self ranked metrics :
  NoDup (Dict.keys (clamped_allocations self ranked metrics)).
Proof.
  unfold clamped_allocations.
  destruct (inv_vol_loop metrics (selected_subnets self ranked)) as [w t].
  rewrite alloc_loop_assign. apply assign_loop_keys_nodup. constructor.
Qed.

Lemma scale_all_get c d k :
  Dict.get (scale_all c d) k = option_map (fun v => v * c) (Dict.get d k).
Proof.
  unfold scale_all. induction d as [|[k0 v0] d IH]; cbn; [reflexivity|].
  destruct (Z.eqb k0 k); [reflexivity | exact IH].
Qed.

(** The normalisation leaves the map as it is or multiplies every entry
    by one factor between 0 and 1. *)
Lemma normalize_get self d :
  cash_allocation self <= 1 ->
  normalize self d = d \/
  exists c, 0 <= c <= 1 /\
            forall k, Dict.get (normalize self d) k
                      = option_map (fun v => v * c) (Dict.get d k).
Proof.
  intros Hcash. unfold normalize. destruct (shrink_needed self d) eqn:Hs.
  - right. exists (total_risk_budget self / py_sum (Dict.values d)).
    split; [now apply scale_factor_range|].
    intros k. apply scale_all_get.
  - now left.
Qed.

Lemma normalize_keys_nodup self d :
  NoDup (Dict.keys d) -> NoDup (Dict.keys (normalize self d)).
Proof.
  unfold normalize. destruct (shrink_needed self d); [|auto].
  now rewrite keys_scale_all.
Qed.

Lemma add_cash_keys_nodup d :
  NoDup (Dict.keys d) -> NoDup (Dict.keys (add_cash d)).
Proof.
  unfold add_cash.
  destruct (Q_gtb (1.0 - py_sum (Dict.values d)) 0.01); [|auto].
  apply set_keys_nodup.
Qed.

(** The clamped value falls as the floored volatility rises. *)
Lemma clamped_value_antitone self t fv1 fv2 :
  cash_allocation self <= 1 -> 0 < t -> 0 < fv1 -> fv1 <= fv2 ->
  clamp self ((1.0 / fv2) / t * total_risk_budget self)
  <= clamp self ((1.0 / fv1) / t * total_risk_budget self).
Proof.
  intros Hcash Ht Hpos Hle. apply clamp_mono.
  assert (Hw : 1.0 / fv2 <= 1.0 / fv1) by now apply inv_pos_antitone.
  assert (Hbud : 0 <= total_risk_budget self)
    by (unfold total_risk_budget; lra).
  apply Qmult_le_compat_r; [|exact Hbud].
  unfold Qdiv at 1 3. apply Qmult_le_compat_r; [exact Hw|].
  apply Qlt_le_weak, Qinv_lt_0_compat, Ht.
Qed.

End AllocatorMore.

(* ================================================================== *)
(** * Allocator: who gets an entry, how large, and the cash reserve *)

Section AllocatorExtras.
Import Allocator AllocatorValues DictFacts DictMore AllocatorFacts AllocatorMore.

Lemma result_get_other self ranked metrics k :
  ranked <> [] -> metrics <> [] -> k <> cash_key ->
  Dict.get (calculate_optimal_allocation self ranked metrics) k
  = Dict.get (normalize self (clamped_allocations self ranked metrics)) k.
Proof.
  intros Hr Hm Hk. unfold calculate_optimal_allocation.
  rewrite (nonempty_inputs ranked metrics Hr Hm).
  now apply add_cash_get_other.
Qed.

Lemma in_keys_iff_get {V} (d : Dict.t V) k :
  In k (Dict.keys d) <-> Dict.get d k <> None.
Proof.
  split.
  - intros Hin E. apply get_none_iff in E. tauto.
  - intros Hne. destruct (Dict.get d k) eqn:E; [|congruence].
    eapply get_some_in_keys; eauto.
Qed.

(** X1: with non-empty inputs, an entity other than the cash key has an
    entry in the allocation map exactly when it is among the first
    [max_subnets] ranked entities and has metrics. *)
Theorem X1_entry_iff_selected_with_metrics :
  forall (self : Optimizer) (ranked : list Z) (metrics : Dict.t MetricRecord) (k : Z),
    ranked <> [] -> metrics <> [] -> k <> cash_key ->
    (In k (Dict.keys (calculate_optimal_allocation self ranked metrics))
     <-> In k (firstn (max_subnets self) ranked) /\ Dict.get metrics k <> None).
Proof.
  intros self ranked metrics k Hr Hm Hk.
  rewrite in_keys_iff_get, (result_get_other self ranked metrics k Hr Hm Hk).
  rewrite <- in_keys_iff_get, normalize_keys, in_keys_iff_get.
  rewrite clamped_allocations_get. unfold selected_subnets.
  rewrite <- (existsb_eqb_in k (firstn (max_subnets self) ranked)).
  destruct (Dict.get metrics k) as [m|].
  - destruct (existsb (Z.eqb k) (firstn (max_subnets self) ranked)).
    + split; intros _; [split; [reflexivity | discriminate] | discriminate].
    + split; [congruence | intros [H _]; discriminate].
  - split; [congruence | intros [_ H]; congruence].
Qed.

Lemma X1_witness :
  In 3%Z (Dict.keys (calculate_optimal_allocation default_optimizer ten_ranked
                       ten_metrics))
  <-> In 3%Z (firstn (max_subnets default_optimizer) ten_ranked) /\
      Dict.get ten_metrics 3%Z <> None.
Proof.
  apply (X1_entry_iff_selected_with_metrics default_optimizer ten_ranked
           ten_metrics 3%Z); discriminate.
Defined.

(** X2: the allocation map never holds a key twice and never holds more
    than [max_subnets] entries besides the cash entry. *)
Theorem X2_distinct_keys_and_size :
  forall (self : Optimizer) (ranked : list Z) (metrics : Dict.t MetricRecord),
    NoDup (Dict.keys (calculate_optimal_allocation self ranked metrics)) /\
    (length (non_cash (calculate_optimal_allocation self ranked metrics))
     <= max_subnets self)%nat.
Proof.
  intros self ranked metrics.
  assert (Hnd : NoDup (Dict.keys (calculate_optimal_allocation self ranked metrics))).
  { unfold calculate_optimal_allocation.
    destruct (list_is_empty ranked || Dict.is_empty metrics); [constructor|].
    apply add_cash_keys_nodup, normalize_keys_nodup, clamped_allocations_keys_nodup. }
  split; [exact Hnd|].
  set (result := calculate_optimal_allocation self ranked metrics) in *.
  assert (Hnd' : NoDup (Dict.keys (non_cash result))).
  { unfold non_cash, Dict.keys in *. clear -Hnd.
    induction result as [|[k v] d IH]; cbn in *; [constructor|].
    inversion Hnd as [|? ? Hnotin Hnd']; subst.
    destruct (Z.eqb k cash_key); cbn; [now apply IH|].
    constructor; [|now apply IH].
    intros Hin. apply Hnotin. apply in_map_iff in Hin.
    destruct Hin as ([k' v'] & <- & Hin'). apply filter_In in Hin'.
    change (fst (k', v')) with (fst (k', v')). apply in_map. tauto. }
  assert (Hincl : incl (Dict.keys (non_cash result)) (selected_subnets self ranked)).
  { intros k Hin. unfold non_cash, Dict.keys in Hin. apply in_map_iff in Hin.
    destruct Hin as ([k' v'] & <- & Hin'). apply filter_In in Hin'.
    destruct Hin' as (Hin' & Hk). cbn [fst] in *.
    apply negb_true_iff, Z.eqb_neq in Hk.
    assert (Hkeys : In k' (Dict.keys result))
      by (change k' with (fst (k', v')); now apply in_map).
    subst result. unfold calculate_optimal_allocation in Hkeys.
    destruct (list_is_empty ranked || Dict.is_empty metrics) eqn:E; [destruct Hkeys|].
    apply in_keys_iff_get in Hkeys. rewrite add_cash_get_other in Hkeys by exact Hk.
    apply in_keys_iff_get in Hkeys. rewrite normalize_keys in Hkeys.
    apply in_keys_iff_get in Hkeys. rewrite clamped_allocations_get in Hkeys.
    destruct (Dict.get metrics k'); [|congruence].
    destruct (existsb (Z.eqb k') (selected_subnets self ranked)) eqn:Ein;
      [|congruence].
    now apply existsb_eqb_in. }
  pose proof (NoDup_incl_length Hnd' Hincl) as Hlen.
  unfold Dict.keys in Hlen. rewrite length_map in Hlen.
  unfold selected_subnets in Hlen. pose proof (firstn_le_length (max_subnets self) ranked).
  lia.
Qed.

(** X3: risk parity.  Of two entities with entries, the one with the
    lower volatility never gets the smaller entry; and two entities whose
    volatilities are both at or under the floor of 0.01 get equal
    entries. *)
Theorem X3_lower_volatility_never_gets_less :
  forall (self : Optimizer) (ranked : list Z) (metrics : Dict.t MetricRecord)
         (k1 k2 : Z) (a1 a2 : Q) (m1 m2 : MetricRecord),
    cash_allocation self <= 1 ->
    k1 <> cash_key -> k2 <> cash_key ->
    Dict.get (calculate_optimal_allocation self ranked metrics) k1 = Some a1 ->
    Dict.get (calculate_optimal_allocation self ranked metrics) k2 = Some a2 ->
    Dict.get metrics k1 = Some m1 ->
    Dict.get metrics k2 = Some m2 ->
    (volatility m1 <= volatility m2 -> a2 <= a1) /\
    (volatility m1 <= 0.01 -> volatility m2 <= 0.01 -> a1 == a2).
Proof.
  intros self ranked metrics k1 k2 a1 a2 m1 m2 Hcash Hk1 Hk2 Hg1 Hg2 Hm1 Hm2.
  assert (Hr : ranked <> []).
  { intros ->. cbn in Hg1. discriminate. }
  assert (Hm : metrics <> []).
  { intros ->. cbn in Hm1. discriminate. }
  rewrite (result_get_other self ranked metrics _ Hr Hm Hk1) in Hg1.
  rewrite (result_get_other self ranked metrics _ Hr Hm Hk2) in Hg2.
  set (t := snd (inv_vol_loop metrics (selected_subnets self ranked))) in *.
  set (b1 := clamp self ((1.0 / py_max (volatility m1) 0.01) / t
                         * total_risk_budget self)).
  set (b2 := clamp self ((1.0 / py_max (volatility m2) 0.01) / t
                         * total_risk_budget self)).
  assert (Hmono : forall c1 c2,
             Dict.get (clamped_allocations self ranked metrics) k1 = Some c1 ->
             Dict.get (clamped_allocations self ranked metrics) k2 = Some c2 ->
             c1 = b1 /\ c2 = b2 /\ 0 < t).
  { intros c1 c2 Hc1 Hc2.
    rewrite clamped_allocations_get in Hc1, Hc2. fold t in Hc1, Hc2.
    rewrite Hm1 in Hc1. rewrite Hm2 in Hc2.
    destruct (existsb (Z.eqb k1) (selected_subnets self ranked)) eqn:E1;
      [|discriminate].
    destruct (existsb (Z.eqb k2) (selected_subnets self ranked)); [|discriminate].
    inversion Hc1; inversion Hc2. repeat split.
    apply existsb_eqb_in in E1. unfold t, inv_vol_loop.
    apply (inv_vol_loop_total_pos metrics _ k1); [lra | exact E1 | congruence]. }
  assert (Hfloor : forall v, v <= 0.01 -> py_max v 0.01 == 0.01).
  { intros v Hv. destruct (py_max_spec v 0.01) as (H1 & H2 & [E|E]); rewrite E in *; lra. }
  assert (Hb : (volatility m1 <= volatility m2 -> 0 < t -> b2 <= b1) /\
               (volatility m1 <= 0.01 -> volatility m2 <= 0.01 -> 0 < t -> b1 == b2)).
  { split.
    - intros Hv Ht.
      apply (clamped_value_antitone self t);
        [exact Hcash | exact Ht | apply py_max_floor_pos | now apply py_max_mono].
    - intros H1 H2 Ht. apply Qle_antisym.
      + apply (clamped_value_antitone self t);
          [exact Hcash | exact Ht | apply py_max_floor_pos |].
        rewrite (Hfloor _ H1), (Hfloor _ H2). lra.
      + apply (clamped_value_antitone self t);
          [exact Hcash | exact Ht | apply py_max_floor_pos |].
        rewrite (Hfloor _ H1), (Hfloor _ H2). lra. }
  destruct (normalize_get self (clamped_allocations self ranked metrics) Hcash)
    as [Hid | (c & Hc & Hscaled)].
  - rewrite Hid in Hg1, Hg2.
    destruct (Hmono a1 a2 Hg1 Hg2) as (-> & -> & Ht).
    split; [intros Hv; now apply Hb | intros H1 H2; now apply Hb].
  - rewrite Hscaled in Hg1, Hg2.
    destruct (Dict.get (clamped_allocations self ranked metrics) k1) as [c1|] eqn:E1;
      [|discriminate].
    destruct (Dict.get (clamped_allocations self ranked metrics) k2) as [c2|] eqn:E2;
      [|discriminate].
    destruct (Hmono c1 c2 eq_refl eq_refl) as (-> & -> & Ht).
    cbn in Hg1, Hg2. inversion Hg1; inversion Hg2; subst a1 a2.
    split.
    + intros Hv. apply Qmult_le_compat_r; [now apply Hb | lra].
    + intros H1 H2. destruct Hb as (_ & Hb). now rewrite (Hb H1 H2 Ht).
Qed.

Lemma X3_witness :
  exists a1 a2,
    Dict.get (calculate_optimal_allocation default_optimizer ten_ranked ten_metrics)
             4%Z = Some a1 /\
    Dict.get (calculate_optimal_allocation default_optimizer ten_ranked ten_metrics)
             5%Z = Some a2 /\
    (volatility (record_with_volatility 0.01) <= volatility (record_with_volatility 0.7)
     -> a2 <= a1) /\
    (volatility (record_with_volatility 0.01) <= 0.01 ->
     volatility (record_with_volatility 0.7) <= 0.01 -> a1 == a2).
Proof.
  eexists. eexists.
  split; [vm_compute; reflexivity|]. split; [vm_compute; reflexivity|].
  apply (X3_lower_volatility_never_gets_less default_optimizer ten_ranked
           ten_metrics 4%Z 5%Z).
  - vm_compute. discriminate.
  - discriminate.
  - discriminate.
  - vm_compute. reflexivity.
  - vm_compute. reflexivity.
  - reflexivity.
  - reflexivity.
Defined.

(** X4: with non-empty inputs, no ranked entity under the cash key, and a
    configuration with [0 <= min_allocation] and
    [0.01 < cash_allocation <= 1] (the constructor's 0.02 and 0.05), the
    allocation map always holds a cash entry; that entry is 1 less the
    other entries, and it is not under [cash_allocation] by more than the
    tolerance of 1e-6 (in exact arithmetic it is not under it at all; the
    shrink in floats can leave it a rounding error short). *)
Theorem X4_cash_reserve_is_kept :
  forall (self : Optimizer) (ranked : list Z) (metrics : Dict.t MetricRecord),
    ranked <> [] -> metrics <> [] ->
    ~ In cash_key ranked ->
    0 <= min_allocation self ->
    0.01 < cash_allocation self <= 1 ->
    exists cash,
      Dict.get (calculate_optimal_allocation self ranked metrics) cash_key
      = Some cash /\
      cash_allocation self - 0.000001 <= cash /\
      cash == 1 - py_sum (Dict.values
                            (non_cash (calculate_optimal_allocation self ranked
                                                                    metrics))).
Proof.
  intros self ranked metrics Hr Hm Hnocash Hmin Hcash.
  unfold calculate_optimal_allocation.
  rewrite (nonempty_inputs ranked metrics Hr Hm).
  set (d := normalize self (clamped_allocations self ranked metrics)).
  assert (Hpos : all_entries (fun _ v => 0 <= v)
                             (clamped_allocations self ranked metrics)).
  { apply clamped_allocations_entries. intros k b _.
    pose proof (clamp_ge_min self b). lra. }
  assert (Hkeys : ~ In cash_key (Dict.keys d)).
  { unfold d. rewrite normalize_keys. intros Hin. apply Hnocash.
    apply (all_entries_keys (fun k => In k ranked)
             (clamped_allocations self ranked metrics) cash_key); [|exact Hin].
    apply clamped_allocations_entries. auto. }
  assert (Hle : py_sum (Dict.values d) <= total_risk_budget self).
  { apply normalize_sum_le; [lra | exact Hpos]. }
  unfold total_risk_budget in Hle.
  rewrite (non_cash_add_cash d Hkeys).
  unfold add_cash.
  assert (E : Q_gtb (1.0 - py_sum (Dict.values d)) 0.01 = true)
    by (apply Q_gtb_gt; lra).
  rewrite E. exists (1.0 - py_sum (Dict.values d)).
  split; [apply get_set_same|]. split; lra.
Qed.

Lemma X4_witness :
  exists cash,
    Dict.get (calculate_optimal_allocation default_optimizer [1%Z; 2%Z] two_metrics)
             cash_key = Some cash /\
    cash_allocation default_optimizer - 0.000001 <= cash /\
    cash == 1 - py_sum (Dict.values
                          (non_cash (calculate_optimal_allocation
                                       default_optimizer [1%Z; 2%Z] two_metrics))).
Proof.
  apply (X4_cash_reserve_is_kept default_optimizer [1%Z; 2%Z] two_metrics).
  - discriminate.
  - discriminate.
  - intros [H|[H|[]]]; discriminate.
  - vm_compute. discriminate.
  - split; vm_compute; [reflexivity | discriminate].
Defined.

(** X5: when none of the first [max_subnets] ranked entities has metrics,
    nothing is invested: the allocation map is the cash entry alone, with
    the whole capital. *)
Theorem X5_no_metrics_for_the_selected_all_cash :
  forall (self : Optimizer) (ranked : list Z) (metrics : Dict.t MetricRecord),
    ranked <> [] -> metrics <> [] ->
    (forall k, In k (firstn (max_subnets self) ranked) -> Dict.get metrics k = None) ->
    exists cash,
      calculate_optimal_allocation self ranked metrics = [(cash_key, cash)] /\
      cash == 1.
Proof.
  intros self ranked metrics Hr Hm Hnone.
  unfold calculate_optimal_allocation.
  rewrite (nonempty_inputs ranked metrics Hr Hm).
  assert (Hempty : clamped_allocations self ranked metrics = []).
  { destruct (clamped_allocations self ranked metrics) as [|[k v] d] eqn:E;
      [reflexivity|].
    assert (Hg : Dict.get (clamped_allocations self ranked metrics) k = Some v)
      by (rewrite E; cbn; now rewrite Z.eqb_refl).
    rewrite clamped_allocations_get in Hg.
    destruct (Dict.get metrics k) eqn:Em; [|discriminate].
    destruct (existsb (Z.eqb k) (selected_subnets self ranked)) eqn:Ein;
      [|discriminate].
    apply existsb_eqb_in in Ein. rewrite (Hnone k Ein) in Em. discriminate. }
  rewrite Hempty.
  assert (Hnorm : normalize self [] = []).
  { unfold normalize. now destruct (shrink_needed self []). }
  rewrite Hnorm. exists (1.0 - py_sum (Dict.values (@nil (Z * Q)))).
  split; reflexivity.
Qed.

Lemma X5_witness :
  exists cash,
    calculate_optimal_allocation default_optimizer [8%Z; 9%Z] two_metrics
    = [(cash_key, cash)] /\
    cash == 1.
Proof.
  apply (X5_no_metrics_for_the_selected_all_cash default_optimizer [8%Z; 9%Z]
           two_metrics).
  - discriminate.
  - discriminate.
  - intros k [<-|[<-|[]]]; reflexivity.
Defined.

End AllocatorExtras.

(* ================================================================== *)
(** * MetricsCalculator: which entities get a record, and value ranges *)

Module MetricsMore.
Import Metrics AllocatorValues DictFacts DictMore AllocatorFacts MetricsFacts.

Lemma unique_in l k : In k (unique l) <-> In k l.
Proof.
  induction l as [|x l IH]; cbn; [tauto|].
  rewrite filter_In, IH, negb_true_iff, Z.eqb_neq.
  destruct (Z.eq_dec x k); intuition congruence.
Qed.

Lemma unique_nodup l : NoDup (unique l).
Proof.
  induction l as [|x l IH]; cbn; constructor.
  - rewrite filter_In, negb_true_iff, Z.eqb_neq. intros [_ H]. congruence.
  - now apply NoDup_filter.
Qed.

Lemma rows_of_nonempty_in df k :
  rows_of df k <> [] -> In k (map row_netuid df).
Proof.
  unfold rows_of. induction df as [|r df IH]; cbn; [congruence|].
  destruct (Z.eqb (row_netuid r) k) eqn:E.
  - intros _. left. now apply Z.eqb_eq.
  - intros H. right. now apply IH.
Qed.

Section Records.
Variable np_sqrt : Q -> Q.
Variable float_pow : Q -> Q -> fl.

Lemma calculate_as_assign_loop df :
  calculate_performance_metrics np_sqrt float_pow df
  = assign_loop (fun k => subnet_record np_sqrt float_pow (rows_of df k))
                (unique (map row_netuid df)) Dict.empty.
Proof. reflexivity. Qed.

(** The record under a key is the record of the rows of that key. *)
Lemma metrics_lookup df netuid :
  Dict.get (calculate_performance_metrics np_sqrt float_pow df) netuid
  = subnet_record np_sqrt float_pow (rows_of df netuid).
Proof.
  rewrite calculate_as_assign_loop. unfold assign_loop. rewrite get_assign_loop.
  destruct (subnet_record np_sqrt float_pow (rows_of df netuid)) as [r|] eqn:E;
    [|reflexivity].
  assert (Hin : In netuid (unique (map row_netuid df))).
  { apply unique_in, rows_of_nonempty_in. intros Hnil. rewrite Hnil in E.
    cbn in E. discriminate. }
  apply existsb_eqb_in in Hin. now rewrite Hin.
Qed.

Lemma subnet_record_exists subnet_data :
  (5 <= length subnet_data)%nat ->
  forallb Q_is_zero (prices_of_rows subnet_data) = false ->
  returns_of_rows subnet_data <> [] ->
  subnet_record np_sqrt float_pow subnet_data <> None.
Proof.
  intros Hlen Hzero Hret. unfold subnet_record.
  apply Nat.ltb_ge in Hlen. rewrite Hlen. cbv zeta.
  unfold prices_of_rows, returns_of_rows in *. rewrite Hzero, orb_false_r.
  destruct (length (map row_price (sort_values_date subnet_data)) =? 0)%nat eqn:E0.
  - apply Nat.eqb_eq in E0. rewrite length_map in E0.
    rewrite (Permutation_length (sort_values_date_perm subnet_data)) in E0.
    apply Nat.ltb_ge in Hlen. lia.
  - destruct (returns_of (map row_price (sort_values_date subnet_data))) eqn:Er.
    + exfalso. apply Hret. exact Er.
    + cbn. discriminate.
Qed.

End Records.

Lemma positives_le_length a : (length (positives a) <= length a)%nat.
Proof. unfold positives. apply filter_length_le. Qed.

Lemma Q_of_nat_le n m : (n <= m)%nat -> Q_of_nat n <= Q_of_nat m.
Proof. intros H. unfold Q_of_nat. rewrite <- Zle_Qle. lia. Qed.

Lemma Q_of_nat_pos n : (0 < n)%nat -> 0 < Q_of_nat n.
Proof.
  intros H. unfold Q_of_nat. change 0 with (inject_Z 0). rewrite <- Zlt_Qlt. lia.
Qed.

Lemma win_rate_range returns : 0 <= win_rate_of returns <= 1.
Proof.
  unfold win_rate_of. destruct (0 <? length returns)%nat eqn:E; [|lra].
  apply Nat.ltb_lt in E.
  pose proof (Q_of_nat_pos _ E) as Hpos.
  pose proof (Q_of_nat_le _ _ (positives_le_length returns)) as Hle.
  pose proof (Q_of_nat_nonneg (positive_days_of returns)) as Hnn.
  unfold positive_days_of in *. split.
  - apply Qle_shift_div_l; lra.
  - apply Qle_shift_div_r; lra.
Qed.

Lemma np_sum_cons x a : np_sum (x :: a) == x + np_sum a.
Proof. apply py_sum_cons. Qed.

Lemma np_sum_abs_bounds a :
  - np_sum (map Qabs a) <= np_sum a <= np_sum (map Qabs a).
Proof.
  induction a as [|x a IH]; cbn [map].
  - unfold np_sum. cbn. lra.
  - rewrite !np_sum_cons.
    pose proof (Qle_Qabs x). pose proof (Qle_Qabs (- x)) as H'.
    rewrite Qabs_opp in H'. lra.
Qed.

Lemma lsr_range returns : - (1) <= lsr_of returns <= 1.
Proof.
  unfold lsr_of. destruct (Q_gtb (np_sum (map Qabs returns)) 0) eqn:E; [|lra].
  apply Q_gtb_gt in E. pose proof (np_sum_abs_bounds returns) as [Hlo Hhi].
  split.
  - apply Qle_shift_div_l; lra.
  - apply Qle_shift_div_r; lra.
Qed.

(** [profit_factor] is [+inf], a [nan] or a number that is not negative. *)
Lemma profit_factor_shape returns :
  profit_factor_of returns = PInf \/ profit_factor_of returns = NaN \/
  exists p, profit_factor_of returns = Fin p /\ 0 <= p.
Proof.
  unfold profit_factor_of.
  destruct (fne (avg_loss_of returns) (Fin 0)); [|now left].
  destruct (fdiv (Fin (avg_win_of returns)) (avg_loss_of returns)) as [q| | |];
    cbn [fabs]; auto.
  right. right. exists (Qabs q). split; [reflexivity | apply Qabs_nonneg].
Qed.

Lemma kelly_bounded returns :
  exists k, kelly_of returns = Fin k /\ k <= win_rate_of returns.
Proof.
  unfold kelly_of. pose proof (win_rate_range returns) as [Hlo Hhi].
  destruct (profit_factor_shape returns) as [-> | [-> | (p & -> & Hp)]].
  - cbn. eexists. split; [reflexivity|]. lra.
  - cbn. exists 0. split; [reflexivity | exact Hlo].
  - cbn [fgt flt]. destruct (Q_ltb 0 p) eqn:E.
    + apply Q_ltb_lt in E. cbn [fdiv].
      assert (Hz : Q_is_zero p = false).
      { unfold Q_is_zero. apply not_true_is_false. intros Hz.
        apply Qeq_bool_iff in Hz. lra. }
      rewrite Hz. cbn. eexists. split; [reflexivity|].
      assert (0 <= (1 - win_rate_of returns) / p)
        by (apply Qle_shift_div_l; lra).
      lra.
    + exists 0. split; [reflexivity | exact Hlo].
Qed.

End MetricsMore.

Section MetricsExtras.
Import Metrics DictFacts DictMore AllocatorFacts MetricsFacts MetricsMore.

Lemma exists_nonzero_forallb prices :
  (exists p, In p prices /\ ~ p == 0) -> forallb Q_is_zero prices = false.
Proof.
  intros (p & Hin & Hp). apply not_true_is_false. intros Hall.
  rewrite forallb_forall in Hall. specialize (Hall p Hin).
  unfold Q_is_zero in Hall. apply Qeq_bool_iff in Hall. tauto.
Qed.

(** X6: the calculator holds a record for an entity exactly when the
    entity has at least 5 rows, one of its prices is not zero, and at least
    one of its returns is finite; every other entity is left out, whatever
    the other entities' rows are. *)
Theorem X6_record_exists_iff :
  forall (np_sqrt : Q -> Q) (float_pow : Q -> Q -> fl) (df : list Row) (netuid : Z),
    Dict.get (calculate_performance_metrics np_sqrt float_pow df) netuid <> None
    <-> (5 <= length (rows_of df netuid))%nat /\
        (exists row, In row (rows_of df netuid) /\ ~ row_price row == 0) /\
        returns_of_rows (rows_of df netuid) <> [].
Proof.
  intros np_sqrt float_pow df netuid. rewrite metrics_lookup. split.
  - intros Hsome.
    destruct (subnet_record np_sqrt float_pow (rows_of df netuid)) as [r|] eqn:E;
      [|congruence].
    destruct (subnet_record_inv np_sqrt float_pow _ r E) as (Hlen & Hzero & Hret & _).
    split; [exact Hlen|]. split.
    + apply forallb_false_exists in Hzero. destruct Hzero as (p & Hp & Hz).
      unfold prices_of_rows in Hp. apply in_map_iff in Hp.
      destruct Hp as (row & <- & Hrow). exists row. split.
      * eapply Permutation_in; [apply sort_values_date_perm | exact Hrow].
      * now apply Q_is_zero_false.
    + intros Hnil. rewrite Hnil in Hret. cbn in Hret. lia.
  - intros (Hlen & (row & Hrow & Hp) & Hret).
    apply subnet_record_exists; [exact Hlen | | exact Hret].
    apply exists_nonzero_forallb. exists (row_price row). split; [|exact Hp].
    unfold prices_of_rows. apply in_map.
    eapply Permutation_in; [symmetry; apply sort_values_date_perm | exact Hrow].
Qed.

(** X7: in every record, [win_rate] lies in [[0, 1]] and [lsr] in
    [[-1, 1]]; [kelly] is always a number, never above [win_rate], and
    [odds] is a number never above 100. *)
Theorem X7_ranges_of_the_scoring_fields :
  forall (np_sqrt : Q -> Q) (float_pow : Q -> Q -> fl)
         (df : list Row) (netuid : Z) (r : MetricRecord),
    Dict.get (calculate_performance_metrics np_sqrt float_pow df) netuid = Some r ->
    0 <= win_rate r <= 1 /\
    - (1) <= lsr r <= 1 /\
    exists k o, kelly r = Fin k /\ k <= win_rate r /\
                odds r = Fin o /\ o <= 100.
Proof.
  intros np_sqrt float_pow df netuid r Hget.
  apply metrics_get in Hget.
  destruct (subnet_record_inv np_sqrt float_pow _ r Hget) as (_ & _ & _ & ->).
  cbn [win_rate lsr kelly odds].
  set (returns := returns_of_rows (rows_of df netuid)).
  pose proof (win_rate_range returns) as Hwr.
  split; [exact Hwr|]. split; [apply lsr_range|].
  destruct (kelly_bounded returns) as (k & Hk & Hle).
  exists k. unfold odds_of. rewrite Hk. cbn.
  eexists. repeat split; try exact Hle.
  assert (k / 2 * 100 == k * 50) by field. lra.
Qed.

Lemma X7_witness :
  exists r,
    Dict.get (calculate_performance_metrics example_sqrt example_pow six_mixed)
             7%Z = Some r /\
    0 <= win_rate r <= 1 /\
    - (1) <= lsr r <= 1 /\
    exists k o, kelly r = Fin k /\ k <= win_rate r /\
                odds r = Fin o /\ o <= 100.
Proof.
  eexists. split; [vm_compute; reflexivity|].
  apply (X7_ranges_of_the_scoring_fields example_sqrt example_pow six_mixed 7%Z).
  vm_compute. reflexivity.
Defined.

Lemma np_sum_const a c :
  (forall x, In x a -> x == c) -> np_sum a == c * Q_of_nat (length a).
Proof.
  induction a as [|x a IH]; intros Hall.
  - unfold np_sum, Q_of_nat. cbn. ring.
  - assert (Hx : x == c) by (apply Hall; now left).
    assert (Ha : np_sum a == c * Q_of_nat (length a))
      by (apply IH; intros y Hy; apply Hall; now right).
    rewrite np_sum_cons, Ha.
    unfold Q_of_nat. cbn [length]. rewrite Nat2Z.inj_succ, <- Z.add_1_r.
    rewrite inject_Z_plus. rewrite Hx. ring.
Qed.

Lemma mean_of_const a c :
  a <> [] -> (forall x, In x a -> x == c) -> mean_of a == c.
Proof.
  intros Hne Hall. unfold mean_of. rewrite (np_sum_const a c Hall).
  assert (0 < Q_of_nat (length a))
    by (apply Q_of_nat_pos; destruct a; [congruence | cbn; lia]).
  field. lra.
Qed.

Lemma example_sqrt_zero q : q == 0 -> example_sqrt q == 0.
Proof.
  intros Hq. unfold example_sqrt.
  assert (Hnum : Qnum q = 0%Z).
  { unfold Qeq in Hq. cbn in Hq. lia. }
  rewrite Hnum. reflexivity.
Qed.

(** X8: when all the finite returns of an entity are 0 (a price that does
    not move from one row to the next), its record has volatility 0 and
    Sharpe ratio 0: the ratio falls back to 0 instead of dividing by the
    volatility.  The square root is taken to be 0 at 0. *)
Theorem X8_flat_returns_give_zero_sharpe :
  forall (np_sqrt : Q -> Q) (float_pow : Q -> Q -> fl)
         (df : list Row) (netuid : Z) (r : MetricRecord),
    (forall q, q == 0 -> np_sqrt q == 0) ->
    Dict.get (calculate_performance_metrics np_sqrt float_pow df) netuid = Some r ->
    (forall x, In x (returns_of_rows (rows_of df netuid)) -> x == 0) ->
    volatility r == 0 /\ sharpe r = 0.
Proof.
  intros np_sqrt float_pow df netuid r Hsqrt Hget Hall.
  apply metrics_get in Hget.
  destruct (subnet_record_inv np_sqrt float_pow _ r Hget) as (_ & _ & Hlen & ->).
  cbn [volatility sharpe].
  set (returns := returns_of_rows (rows_of df netuid)) in *.
  assert (Hvol : volatility_of np_sqrt returns == 0).
  { unfold volatility_of. destruct (1 <? length returns)%nat; [|reflexivity].
    unfold np_std. apply Hsqrt.
    assert (Hne : returns <> []) by (destruct returns; [cbn in Hlen; lia | congruence]).
    pose proof (mean_of_const returns 0 Hne Hall) as Hmean.
    rewrite (mean_of_const _ 0).
    - reflexivity.
    - destruct returns; [congruence | cbn; congruence].
    - intros y Hy. apply in_map_iff in Hy. destruct Hy as (x & <- & Hx).
      rewrite (Hall x Hx), Hmean.
      setoid_replace (0 - 0) with 0 by ring. reflexivity. }
  split; [exact Hvol|].
  unfold sharpe_of.
  destruct (Q_gtb (volatility_of np_sqrt returns) 0) eqn:E; [|reflexivity].
  apply Q_gtb_gt in E. lra.
Qed.

Lemma X8_witness :
  exists r,
    Dict.get (calculate_performance_metrics example_sqrt example_pow five_flat)
             7%Z = Some r /\
    volatility r == 0 /\ sharpe r = 0.
Proof.
  eexists. split; [vm_compute; reflexivity|].
  apply (X8_flat_returns_give_zero_sharpe example_sqrt example_pow five_flat 7%Z).
  - exact example_sqrt_zero.
  - vm_compute. reflexivity.
  - intros x Hx. vm_compute in Hx.
    repeat (destruct Hx as [<-|Hx]; [reflexivity|]). destruct Hx.
Defined.

End MetricsExtras.

(* ================================================================== *)
(** * Ranker: who is ranked, and the range of the scores *)

Module RankerMore.
Import Ranker RankerValues RankerFacts AllocatorFacts.

Lemma skipna_finite col : all_finite col -> skipna col = col.
Proof.
  unfold skipna. induction 1 as [|x col Hx Hcol IH]; cbn; [reflexivity|].
  destruct x; cbn in *; try discriminate; now rewrite IH.
Qed.

Lemma fold_max_finite (t : list fl) : forall x,
  all_finite t ->
  exists r, fold_left (fun a b => if fgt b a then b else a) t (Fin x) = Fin r /\
            x <= r /\ forall q, In (Fin q) t -> q <= r.
Proof.
  induction t as [|y t IH]; intros x Ht; cbn [fold_left].
  - exists x. repeat split; [lra | intros q []].
  - inversion Ht as [|? ? Hy Ht']; subst.
    destruct y as [y| | |]; cbn in Hy; try discriminate.
    cbn [fgt flt]. destruct (Q_ltb x y) eqn:E.
    + apply Q_ltb_lt in E. destruct (IH y Ht') as (r & Hr & Hge & Hall).
      exists r. repeat split; [exact Hr | lra |].
      intros q [Hq|Hq]; [inversion Hq; subst; lra | now apply Hall].
    + apply Q_ltb_ge in E. destruct (IH x Ht') as (r & Hr & Hge & Hall).
      exists r. repeat split; [exact Hr | lra |].
      intros q [Hq|Hq]; [inversion Hq; subst; lra | now apply Hall].
Qed.

Lemma fold_min_finite (t : list fl) : forall x,
  all_finite t ->
  exists r, fold_left (fun a b => if flt b a then b else a) t (Fin x) = Fin r /\
            r <= x /\ forall q, In (Fin q) t -> r <= q.
Proof.
  induction t as [|y t IH]; intros x Ht; cbn [fold_left].
  - exists x. repeat split; [lra | intros q []].
  - inversion Ht as [|? ? Hy Ht']; subst.
    destruct y as [y| | |]; cbn in Hy; try discriminate.
    cbn [flt]. destruct (Q_ltb y x) eqn:E.
    + apply Q_ltb_lt in E. destruct (IH y Ht') as (r & Hr & Hge & Hall).
      exists r. repeat split; [exact Hr | lra |].
      intros q [Hq|Hq]; [inversion Hq; subst; lra | now apply Hall].
    + apply Q_ltb_ge in E. destruct (IH x Ht') as (r & Hr & Hge & Hall).
      exists r. repeat split; [exact Hr | lra |].
      intros q [Hq|Hq]; [inversion Hq; subst; lra | now apply Hall].
Qed.

(** The normalised entries of a column of numbers lie between 0 and 1. *)
Lemma normalize_column_between col :
  all_finite col -> Forall (between 0 1) (normalize_column col).
Proof.
  intros Hfin. unfold normalize_column, series_max, series_min.
  rewrite (skipna_finite col Hfin).
  destruct col as [|x col]; [cbn; destruct (fgt NaN NaN); constructor|].
  inversion Hfin as [|? ? Hx Hcol]; subst.
  destruct x as [x| | |]; cbn in Hx; try discriminate.
  destruct (fold_max_finite col x Hcol) as (mx & -> & Hmx & Hallmx).
  destruct (fold_min_finite col x Hcol) as (mn & -> & Hmn & Hallmn).
  cbn [fgt flt]. destruct (Q_ltb mn mx) eqn:E.
  - apply Q_ltb_lt in E. apply Forall_forall. intros y Hy.
    apply in_map_iff in Hy. destruct Hy as (z & <- & Hz).
    assert (Hzf : exists q, z = Fin q /\ mn <= q <= mx).
    { destruct Hz as [<-|Hz].
      - exists x. split; [reflexivity | lra].
      - pose proof (proj1 (Forall_forall _ _) Hcol z Hz) as Hf.
        destruct z as [q| | |]; cbn in Hf; try discriminate.
        exists q. split; [reflexivity|]. split; [now apply Hallmn | now apply Hallmx]. }
    destruct Hzf as (q & -> & Hq). cbn [fsub fopp fadd fdiv].
    assert (Hz0 : Q_is_zero (mx + - mn) = false).
    { unfold Q_is_zero. apply not_true_is_false. intros H0.
      apply Qeq_bool_iff in H0. lra. }
    rewrite Hz0. eexists. split; [reflexivity|]. split.
    + apply Qle_shift_div_l; lra.
    + apply Qle_shift_div_r; lra.
  - apply Forall_forall. intros y Hy. apply in_map_iff in Hy.
    destruct Hy as (z & <- & _). exists 0.5. split; [reflexivity | lra].
Qed.

(** One more weighted metric moves the upper bound up by its weight. *)
Lemma add_weighted_between df acc mw lo hi :
  0 <= snd mw ->
  all_finite (map (fun kv => fst mw (snd kv)) df) ->
  Forall (between lo hi) acc ->
  Forall (between lo (hi + snd mw)) (add_weighted df acc mw).
Proof.
  intros Hw Hfin Hacc. unfold add_weighted.
  pose proof (normalize_column_between _ Hfin) as Hnorm.
  revert Hnorm. generalize (normalize_column (map (fun kv => fst mw (snd kv)) df)).
  induction Hacc as [|a acc Ha Hacc IH]; intros norm Hnorm; cbn; [constructor|].
  destruct Hnorm as [|n norm Hn Hnorm]; cbn; [constructor|].
  constructor; [|now apply IH].
  destruct Ha as (qa & -> & Hqa). destruct Hn as (qn & -> & Hqn). cbn.
  eexists. split; [reflexivity|]. nra.
Qed.

Lemma all_finite_Fin {A} (f : A -> Q) (l : list A) :
  all_finite (map (fun x => Fin (f x)) l).
Proof. apply Forall_forall. intros y Hy. apply in_map_iff in Hy.
       destruct Hy as (x & <- & _). reflexivity. Qed.

(** With one row, every normalised column is 0.5. *)
Lemma normalize_column_single x : normalize_column [x] = [Fin 0.5].
Proof.
  unfold normalize_column, series_max, series_min.
  destruct x as [q| | |]; cbn; try reflexivity.
  unfold Q_ltb. now rewrite (proj2 (Qle_bool_iff q q) (Qle_refl q)).
Qed.

End RankerMore.

Section RankerExtras.
Import Metrics Ranker RankerValues RankerFacts RankerMore.
Import DictFacts DictMore AllocatorFacts MetricsFacts MetricsMore.

(** X9: whatever sort in descending order is used, an entity the ranker
    returns from the calculator's records has at least 6 rows in the data:
    its record passes [data_points >= 5], and the returns are one fewer
    than the rows.  Its [max_drawdown] is a number within the limit and
    its volatility is under 5. *)
Theorem X9_ranked_entities_have_six_rows :
  forall (np_sqrt : Q -> Q) (float_pow : Q -> Q -> fl)
         (sort : list (Z * fl) -> list (Z * fl))
         (self : Optimizer) (df : list Row) (netuid : Z),
    sorts_descending sort ->
    In netuid (rank_subnets sort self
                 (calculate_performance_metrics np_sqrt float_pow df)) ->
    (6 <= length (rows_of df netuid))%nat /\
    exists r,
      Dict.get (calculate_performance_metrics np_sqrt float_pow df) netuid = Some r /\
      (5 <= data_points r)%nat /\
      fle (max_drawdown r) (Fin (max_drawdown_limit self)) = true /\
      volatility r < 5.0.
Proof.
  intros np_sqrt float_pow sort self df netuid Hsort Hin.
  set (metrics := calculate_performance_metrics np_sqrt float_pow df) in *.
  destruct (ranked_rows_spec sort self metrics Hsort) as (Hperm & _ & _).
  unfold rank_subnets in Hin.
  apply (Permutation_in _ (Permutation_map fst Hperm)) in Hin.
  rewrite scored_rows_keys in Hin. unfold Dict.keys in Hin.
  apply in_map_iff in Hin. destruct Hin as ([k m] & Hk & Hkm). cbn in Hk. subst k.
  apply filter_problematic_in in Hkm.
  destruct Hkm as (Hkm & Hdp & Hdd & Hvol).
  assert (Hrec : subnet_record np_sqrt float_pow (rows_of df netuid) = Some m).
  { pose proof (metrics_entries np_sqrt float_pow df) as Hall.
    unfold all_entries in Hall. rewrite Forall_forall in Hall.
    exact (Hall (netuid, m) Hkm). }
  destruct (subnet_record_inv np_sqrt float_pow _ m Hrec) as (_ & _ & _ & Hm).
  assert (Hdata : data_points m = length (returns_of_rows (rows_of df netuid)))
    by (rewrite Hm; reflexivity).
  split.
  - pose proof (returns_of_length (prices_of_rows (rows_of df netuid))) as Hlen.
    unfold prices_of_rows in Hlen at 2. rewrite length_map in Hlen.
    rewrite (Permutation_length (sort_values_date_perm _)) in Hlen.
    unfold returns_of_rows in Hdata. lia.
  - exists m. split; [|auto]. unfold metrics. now rewrite metrics_lookup.
Qed.

Lemma X9_witness :
  (6 <= length (rows_of six_mixed 7))%nat /\
  exists r,
    Dict.get (calculate_performance_metrics example_sqrt example_pow six_mixed)
             7%Z = Some r /\
    (5 <= data_points r)%nat /\
    fle (max_drawdown r) (Fin (max_drawdown_limit default_optimizer)) = true /\
    volatility r < 5.0.
Proof.
  apply (X9_ranked_entities_have_six_rows example_sqrt example_pow
           stable_sort_desc default_optimizer six_mixed 7%Z).
  - exact stable_sort_desc_sorts.
  - vm_compute. left. reflexivity.
Defined.

(** Five rows give a record, and the record is never ranked. *)
Lemma five_rows_are_analysed_but_not_ranked :
  Dict.get (calculate_performance_metrics example_sqrt example_pow five_rising) 7%Z
  <> None /\
  rank_subnets stable_sort_desc default_optimizer
    (calculate_performance_metrics example_sqrt example_pow five_rising) = [].
Proof. split; [vm_compute; discriminate | vm_compute; reflexivity]. Qed.

(** X10: when the composite score and the MAR ratio of every entity that
    passes the filters are numbers, every [weighted_score] is a number
    between 0 and 1. *)
Theorem X10_weighted_scores_between_zero_and_one :
  forall (self : Optimizer) (metrics : Dict.t MetricRecord),
    (forall k m, In (k, m) (filter_problematic self metrics) ->
                 isfinite (composite_score m) = true /\ isfinite (mar m) = true) ->
    Forall (fun row => between 0 1 (snd row)) (scored_rows self metrics).
Proof.
  intros self metrics Hfin. unfold scored_rows.
  set (df := filter_problematic self metrics) in *.
  assert (Hscores : Forall (between 0 1) (weighted_scores df)).
  { unfold weighted_scores, weights. cbn [fold_left].
    assert (Hcs : all_finite (map (fun kv => composite_score (snd kv)) df)).
    { apply Forall_forall. intros y Hy. apply in_map_iff in Hy.
      destruct Hy as ([k m] & <- & Hkm). now apply (Hfin k m). }
    assert (Hmar : all_finite (map (fun kv => mar (snd kv)) df)).
    { apply Forall_forall. intros y Hy. apply in_map_iff in Hy.
      destruct Hy as ([k m] & <- & Hkm). now apply (Hfin k m). }
    assert (H0 : Forall (between 0 0) (map (fun _ : Z * MetricRecord => Fin 0) df)).
    { apply Forall_forall. intros y Hy. apply in_map_iff in Hy.
      destruct Hy as (x & <- & _). exists 0. split; [reflexivity | lra]. }
    pose proof (add_weighted_between df _ (composite_score, 0.30) 0 0
                  ltac:(cbn; lra) Hcs H0) as H1.
    pose proof (add_weighted_between df _ (fun m => Fin (sharpe m), 0.25) 0 _
                  ltac:(cbn; lra) (all_finite_Fin _ df) H1) as H2.
    pose proof (add_weighted_between df _ (mar, 0.20) 0 _
                  ltac:(cbn; lra) Hmar H2) as H3.
    pose proof (add_weighted_between df _ (fun m => Fin (win_rate m), 0.15) 0 _
                  ltac:(cbn; lra) (all_finite_Fin _ df) H3) as H4.
    pose proof (add_weighted_between df _ (fun m => Fin (emission m), 0.10) 0 _
                  ltac:(cbn; lra) (all_finite_Fin _ df) H4) as H5.
    eapply Forall_impl; [|exact H5].
    intros x (q & -> & Hq). exists q. split; [reflexivity|]. cbn in Hq. lra. }
  revert Hscores. generalize (weighted_scores df). generalize (Dict.keys df).
  induction l as [|k l IH]; intros scores Hs; cbn; [constructor|].
  destruct Hs as [|s scores Hs Hrest]; constructor; [exact Hs | now apply IH].
Qed.

Lemma X10_witness :
  Forall (fun row => between 0 1 (snd row)) (scored_rows default_optimizer three_metrics).
Proof.
  apply (X10_weighted_scores_between_zero_and_one default_optimizer three_metrics).
  intros k m Hkm. vm_compute in Hkm.
  repeat (destruct Hkm as [Hkm|Hkm]; [inversion Hkm; subst; split; reflexivity|]).
  destruct Hkm.
Defined.

(** X11: an entity that passes the filters alone gets the score 0.5,
    whatever its metrics are, special values included. *)
Theorem X11_single_survivor_scores_one_half :
  forall (self : Optimizer) (metrics : Dict.t MetricRecord) (k : Z) (m : MetricRecord),
    filter_problematic self metrics = [(k, m)] ->
    exists s, scored_rows self metrics = [(k, Fin s)] /\ s == 0.5.
Proof.
  intros self metrics k m Hone. unfold scored_rows. rewrite Hone.
  unfold weighted_scores, weights. cbn [fold_left map fst snd Dict.keys].
  unfold add_weighted. cbn [map fst snd].
  rewrite !normalize_column_single. cbn.
  eexists. split; [reflexivity|]. reflexivity.
Qed.

Lemma X11_witness :
  exists s,
    scored_rows default_optimizer [(4%Z, record_with_volatility 1)]
    = [(4%Z, Fin s)] /\ s == 0.5.
Proof.
  apply (X11_single_survivor_scores_one_half default_optimizer
           [(4%Z, record_with_volatility 1)] 4%Z (record_with_volatility 1)).
  reflexivity.
Defined.

End RankerExtras.

(* ================================================================== *)
(** * From the data frame to the strategy *)

Module PipelineFacts.
Import Metrics Ranker Allocator Strategy.
Import RankerFacts RankerMore DictFacts DictMore AllocatorFacts AllocatorMore.
Import MetricsFacts MetricsMore.

(** A ranked entity is a row of the filtered frame. *)
Lemma ranked_in_filtered sort self metrics k :
  sorts_descending sort ->
  In k (rank_subnets sort self metrics) ->
  exists m, In (k, m) (filter_problematic self metrics).
Proof.
  intros Hsort Hin.
  destruct (ranked_rows_spec sort self metrics Hsort) as (Hperm & _ & _).
  unfold rank_subnets in Hin.
  apply (Permutation_in _ (Permutation_map fst Hperm)) in Hin.
  rewrite scored_rows_keys in Hin. unfold Dict.keys in Hin.
  apply in_map_iff in Hin. destruct Hin as ([k' m] & Hk & Hkm). cbn in Hk. subst k'.
  now exists m.
Qed.

(** The returns of a record are fewer than the rows. *)
Lemma record_rows_bound np_sqrt float_pow subnet_data m :
  subnet_record np_sqrt float_pow subnet_data = Some m ->
  (data_points m + 1 <= length subnet_data)%nat.
Proof.
  intros Hrec.
  destruct (subnet_record_inv np_sqrt float_pow _ m Hrec) as (Hlen & _ & _ & Hm).
  assert (Hdata : data_points m = length (returns_of_rows subnet_data))
    by (rewrite Hm; reflexivity).
  pose proof (returns_of_length (prices_of_rows subnet_data)) as Hret.
  unfold prices_of_rows in Hret at 2. rewrite length_map in Hret.
  rewrite (Permutation_length (sort_values_date_perm _)) in Hret.
  unfold returns_of_rows in Hdata. lia.
Qed.

(** The keys of the records are netuids of the frame. *)
Lemma metrics_key_in_frame np_sqrt float_pow df k m :
  In (k, m) (calculate_performance_metrics np_sqrt float_pow df) ->
  In k (map row_netuid df) /\
  subnet_record np_sqrt float_pow (rows_of df k) = Some m.
Proof.
  intros Hkm.
  pose proof (metrics_entries np_sqrt float_pow df) as Hall.
  unfold all_entries in Hall. rewrite Forall_forall in Hall.
  pose proof (Hall (k, m) Hkm) as Hrec. cbn in Hrec.
  split; [|exact Hrec].
  apply rows_of_nonempty_in. intros Hnil. rewrite Hnil in Hrec. cbn in Hrec.
  discriminate.
Qed.

(** The total of an allocation map made from non-empty inputs. *)
Lemma allocation_total self ranked metrics :
  ranked <> [] -> metrics <> [] ->
  ~ In cash_key ranked ->
  0 <= min_allocation self ->
  0.01 < cash_allocation self <= 1 ->
  py_sum (Dict.values (calculate_optimal_allocation self ranked metrics)) == 1 /\
  calculate_optimal_allocation self ranked metrics <> [].
Proof.
  intros Hr Hm Hnocash Hmin Hcash.
  unfold calculate_optimal_allocation.
  rewrite (nonempty_inputs ranked metrics Hr Hm).
  set (d := normalize self (clamped_allocations self ranked metrics)).
  assert (Hpos : all_entries (fun _ v => 0 <= v)
                             (clamped_allocations self ranked metrics)).
  { apply clamped_allocations_entries. intros k b _.
    pose proof (clamp_ge_min self b). lra. }
  assert (Hkeys : ~ In cash_key (Dict.keys d)).
  { unfold d. rewrite normalize_keys. intros Hin. apply Hnocash.
    apply (all_entries_keys (fun k => In k ranked)
             (clamped_allocations self ranked metrics) cash_key); [|exact Hin].
    apply clamped_allocations_entries. auto. }
  assert (Hle : py_sum (Dict.values d) <= total_risk_budget self).
  { apply normalize_sum_le; [lra | exact Hpos]. }
  unfold total_risk_budget in Hle.
  destruct (add_cash_sum d Hkeys) as (Hyes & _).
  assert (E : Q_gtb (1.0 - py_sum (Dict.values d)) 0.01 = true)
    by (apply Q_gtb_gt; lra).
  split; [exact (Hyes E)|].
  unfold add_cash. rewrite E. rewrite (set_fresh d _ _ Hkeys).
  destruct d; discriminate.
Qed.

End PipelineFacts.

Section PipelineExtras.
Import Metrics Ranker Allocator Strategy.
Import RankerFacts RankerMore DictFacts DictMore AllocatorFacts AllocatorMore.
Import MetricsFacts MetricsMore PipelineFacts.

(** X12: [generate_strategy] returns the empty map exactly when no entity
    is ranked; every other strategy it returns adds up to 1, cash
    included.  This is for a sort in descending order, a frame without
    netuid 0 (the cash key), and a configuration with
    [0 <= min_allocation] and [0.01 < cash_allocation <= 1]. *)
Theorem X12_strategy_is_empty_or_fully_allocated :
  forall (np_sqrt : Q -> Q) (float_pow : Q -> Q -> fl)
         (sort : list (Z * fl) -> list (Z * fl))
         (self : Optimizer) (df : list Row),
    sorts_descending sort ->
    ~ In cash_key (map row_netuid df) ->
    0 <= min_allocation self ->
    0.01 < cash_allocation self <= 1 ->
    let strategy := generate_strategy np_sqrt float_pow sort self df in
    (strategy = []
     <-> rank_subnets sort self
           (calculate_performance_metrics np_sqrt float_pow df) = []) /\
    (strategy <> [] -> py_sum (Dict.values strategy) == 1).
Proof.
  intros np_sqrt float_pow sort self df Hsort Hnocash Hmin Hcash strategy.
  subst strategy. unfold generate_strategy.
  set (metrics := calculate_performance_metrics np_sqrt float_pow df).
  set (ranked := rank_subnets sort self metrics).
  assert (Hranked_nocash : ~ In cash_key ranked).
  { intros Hin. apply Hnocash.
    destruct (ranked_in_filtered sort self metrics cash_key Hsort Hin) as (m & Hm).
    apply filter_problematic_in in Hm. destruct Hm as (Hm & _).
    now apply (metrics_key_in_frame np_sqrt float_pow df cash_key m). }
  assert (Hranked_empty : metrics = [] -> ranked = []).
  { intros E. unfold ranked, rank_subnets, ranked_rows. now rewrite E. }
  assert (Hempty_case :
            ranked = [] ->
            (@Dict.empty Q = [] <-> ranked = []) /\
            (@Dict.empty Q <> [] -> py_sum (Dict.values (@Dict.empty Q)) == 1)).
  { intros E. split; [split; [intros _; exact E | reflexivity]|].
    intros Hne. exfalso. apply Hne. reflexivity. }
  destruct (list_is_empty df) eqn:Edf.
  { apply Hempty_case, Hranked_empty. unfold metrics.
    destruct df; [reflexivity | discriminate]. }
  destruct (Dict.is_empty metrics) eqn:Em.
  { apply Hempty_case, Hranked_empty. destruct metrics; [reflexivity | discriminate]. }
  destruct (list_is_empty ranked) eqn:Er.
  { assert (E : ranked = []) by (destruct ranked; [reflexivity | discriminate]).
    unfold calculate_optimal_allocation. rewrite Er. cbn [orb].
    now apply Hempty_case. }
  assert (Hr : ranked <> []) by (intros E; rewrite E in Er; discriminate).
  assert (Hm : metrics <> []) by (intros E; rewrite E in Em; discriminate).
  destruct (allocation_total self ranked metrics Hr Hm Hranked_nocash Hmin Hcash)
    as (Hsum & Hne).
  split; [|intros _; exact Hsum].
  split; [intros E; now elim Hne | intros E; now elim Hr].
Qed.

Lemma X12_witness :
  (generate_strategy example_sqrt example_pow stable_sort_desc default_optimizer
     six_mixed = []
   <-> rank_subnets stable_sort_desc default_optimizer
         (calculate_performance_metrics example_sqrt example_pow six_mixed) = []) /\
  (generate_strategy example_sqrt example_pow stable_sort_desc default_optimizer
     six_mixed <> [] ->
   py_sum (Dict.values
             (generate_strategy example_sqrt example_pow stable_sort_desc
                default_optimizer six_mixed)) == 1).
Proof.
  apply (X12_strategy_is_empty_or_fully_allocated example_sqrt example_pow
           stable_sort_desc default_optimizer six_mixed).
  - exact stable_sort_desc_sorts.
  - vm_compute. intros H. repeat (destruct H as [H|H]; [discriminate|]). exact H.
  - vm_compute. discriminate.
  - split; vm_compute; [reflexivity | discriminate].
Defined.

(** X13: every entity that [generate_strategy] puts money on, the cash
    entry apart, has at least 6 rows in the data frame and a record that
    passes the three filters of the ranker. *)
Theorem X13_invested_entities_have_six_rows :
  forall (np_sqrt : Q -> Q) (float_pow : Q -> Q -> fl)
         (sort : list (Z * fl) -> list (Z * fl))
         (self : Optimizer) (df : list Row) (netuid : Z),
    sorts_descending sort ->
    netuid <> cash_key ->
    In netuid (Dict.keys (generate_strategy np_sqrt float_pow sort self df)) ->
    (6 <= length (rows_of df netuid))%nat /\
    exists r,
      Dict.get (calculate_performance_metrics np_sqrt float_pow df) netuid = Some r /\
      (5 <= data_points r)%nat /\
      fle (max_drawdown r) (Fin (max_drawdown_limit self)) = true /\
      volatility r < 5.0.
Proof.
  intros np_sqrt float_pow sort self df netuid Hsort Hk Hin.
  unfold generate_strategy in Hin.
  destruct (list_is_empty df); [destruct Hin|].
  set (metrics := calculate_performance_metrics np_sqrt float_pow df) in *.
  destruct (Dict.is_empty metrics); [destruct Hin|].
  set (ranked := rank_subnets sort self metrics) in *.
  assert (Hranked : In netuid ranked).
  { unfold calculate_optimal_allocation in Hin.
    destruct (list_is_empty ranked || Dict.is_empty metrics); [destruct Hin|].
    destruct (in_keys_get _ _ Hin) as (v & Hv).
    rewrite add_cash_get_other in Hv by exact Hk.
    apply get_some_in_keys in Hv. rewrite normalize_keys in Hv.
    apply (all_entries_keys (fun k => In k ranked)
             (clamped_allocations self ranked metrics) netuid); [|exact Hv].
    apply clamped_allocations_entries. auto. }
  destruct (ranked_in_filtered sort self metrics netuid Hsort Hranked) as (m & Hm).
  apply filter_problematic_in in Hm. destruct Hm as (Hm & Hdp & Hdd & Hvol).
  destruct (metrics_key_in_frame np_sqrt float_pow df netuid m Hm) as (_ & Hrec).
  pose proof (record_rows_bound np_sqrt float_pow _ m Hrec) as Hrows.
  split; [lia|].
  exists m. split; [|auto]. unfold metrics. now rewrite metrics_lookup.
Qed.

Lemma X13_witness :
  (6 <= length (rows_of six_mixed 7))%nat /\
  exists r,
    Dict.get (calculate_performance_metrics example_sqrt example_pow six_mixed)
             7%Z = Some r /\
    (5 <= data_points r)%nat /\
    fle (max_drawdown r) (Fin (max_drawdown_limit default_optimizer)) = true /\
    volatility r < 5.0.
Proof.
  apply (X13_invested_entities_have_six_rows example_sqrt example_pow
           stable_sort_desc default_optimizer six_mixed 7%Z).
  - exact stable_sort_desc_sorts.
  - discriminate.
  - vm_compute. left. reflexivity.
Defined.

End PipelineExtras.

(* ================================================================== *)
(** * More on the rebalancing rule *)

Module RebalanceMore.
Import Rebalance RebalanceFacts.

(** Six hours, counted in microseconds. *)
Lemma hours_lt_6 (later now : datetime) :
  Q_ltb (hours_since_rebalance later now) 6
  = (later - now <? 21600000000)%Z.
Proof.
  unfold hours_since_rebalance, total_seconds.
  set (d := (later - now)%Z). 
  assert (E : inject_Z d / 1000000 / 3600 == inject_Z d * (1 # 3600000000)) by field.
  destruct (Z.ltb_spec d 21600000000) as [H|H].
  - apply Q_ltb_lt. rewrite E.
    assert (inject_Z d < inject_Z 21600000000) by (rewrite <- Zlt_Qlt; exact H).
    change (inject_Z 21600000000) with 21600000000 in *. lra.
  - apply Q_ltb_ge. rewrite E.
    assert (inject_Z 21600000000 <= inject_Z d) by (rewrite <- Zle_Qle; exact H).
    change (inject_Z 21600000000) with 21600000000 in *. lra.
Qed.

Lemma alloc_diff_sym cur new k : alloc_diff cur new k = alloc_diff new cur k.
Proof. unfold alloc_diff. cbv zeta. apply Qabs_Qminus. Qed.

Lemma max_diff_le cur new : max_diff cur new <= max_diff new cur.
Proof.
  unfold max_diff, max_diff_over.
  destruct (fold_max_spec cur new (all_subnets cur new) 0 _ eq_refl)
    as (_ & _ & Hwit).
  destruct (fold_max_spec new cur (all_subnets new cur) 0 _ eq_refl)
    as (Hge & Hall & _).
  destruct Hwit as [-> | (k & Hk & ->)]; [exact Hge|].
  rewrite alloc_diff_sym. apply Hall.
  apply in_all_subnets. apply in_all_subnets in Hk. tauto.
Qed.

(** The largest difference is the same in both directions. *)
Lemma max_diff_sym cur new : max_diff cur new == max_diff new cur.
Proof. apply Qle_antisym; apply max_diff_le. Qed.

Lemma Q_geb_proper x y t : x == y -> Q_geb x t = Q_geb y t.
Proof.
  intros E. destruct (Q_geb x t) eqn:Ex.
  - symmetry. apply Q_geb_ge. apply Q_geb_ge in Ex. lra.
  - symmetry. apply not_true_is_false. intros Ey. apply Q_geb_ge in Ey.
    assert (Ex' : Q_geb x t = true) by (apply Q_geb_ge; lra). congruence.
Qed.

End RebalanceMore.
(* ================================================================== *)
(** * Saving a strategy: rounding, order, and reading the file back *)

Module PersistFacts.
Import Persist DictFacts DictMore.

Lemma near_integer (n : Z) (d : positive) (z : Z) :
  (2 * Z.pos d * z <= 2 * n + Z.pos d)%Z ->
  (2 * n - Z.pos d <= 2 * Z.pos d * z)%Z ->
  (n # d) - (1#2) <= inject_Z z <= (n # d) + (1#2).
Proof.
  intros H1 H2. unfold Qle, Qminus, Qplus, Qopp, inject_Z. cbn.
  rewrite ?Pos2Z.inj_mul. change (Z.neg d) with (Z.opp (Z.pos d)).
  split; lia.
Qed.

(** Rounding moves a number by at most one half. *)
Lemma round_half_even_bounds q :
  q - (1#2) <= inject_Z (round_half_even q) <= q + (1#2).
Proof.
  unfold round_half_even. destruct q as [n d]. cbn [Qnum Qden].
  pose proof (Z.div_mod n (Z.pos d) ltac:(lia)) as Hdm.
  pose proof (Z.mod_pos_bound n (Z.pos d) ltac:(lia)) as Hr.
  set (f := (n / Z.pos d)%Z) in *. set (r := (n mod Z.pos d)%Z) in *.
  clearbody f r.
  destruct (Z.compare_spec (2 * r) (Z.pos d)) as [E|E|E].
  - destruct (Z.even f); apply near_integer; lia.
  - apply near_integer; lia.
  - apply near_integer; lia.
Qed.

Lemma above_integer (n : Z) (d : positive) (z : Z) :
  (2 * n - Z.pos d < 2 * Z.pos d * z)%Z -> (n # d) - (1#2) < inject_Z z.
Proof.
  intros H. unfold Qlt, Qminus, Qplus, Qopp, inject_Z. cbn.
  rewrite ?Pos2Z.inj_mul. change (Z.neg d) with (Z.opp (Z.pos d)). lia.
Qed.

Lemma below_integer (n : Z) (d : positive) (z : Z) :
  (2 * Z.pos d * z < 2 * n + Z.pos d)%Z -> inject_Z z < (n # d) + (1#2).
Proof.
  intros H. unfold Qlt, Qminus, Qplus, Qopp, inject_Z. cbn.
  rewrite ?Pos2Z.inj_mul. lia.
Qed.

Lemma half_below_integer (n : Z) (d : positive) (z : Z) :
  (2 * Z.pos d * z = 2 * n - Z.pos d)%Z -> inject_Z z == (n # d) - (1#2).
Proof.
  intros H. unfold Qeq, Qminus, Qplus, Qopp, inject_Z. cbn.
  rewrite ?Pos2Z.inj_mul. change (Z.neg d) with (Z.opp (Z.pos d)). lia.
Qed.

Lemma half_above_integer (n : Z) (d : positive) (z : Z) :
  (2 * Z.pos d * z = 2 * n + Z.pos d)%Z -> inject_Z z == (n # d) + (1#2).
Proof.
  intros H. unfold Qeq, Qminus, Qplus, Qopp, inject_Z. cbn.
  rewrite ?Pos2Z.inj_mul. lia.
Qed.

(** The result is the nearest integer, and an even one at a tie. *)
Lemma round_half_even_spec q :
  (q - (1#2) < inject_Z (round_half_even q) /\
   inject_Z (round_half_even q) < q + (1#2)) \/
  (Z.even (round_half_even q) = true /\
   (inject_Z (round_half_even q) == q - (1#2) \/
    inject_Z (round_half_even q) == q + (1#2))).
Proof.
  unfold round_half_even. destruct q as [n d]. cbn [Qnum Qden].
  pose proof (Z.div_mod n (Z.pos d) ltac:(lia)) as Hdm.
  pose proof (Z.mod_pos_bound n (Z.pos d) ltac:(lia)) as Hr.
  set (f := (n / Z.pos d)%Z) in *. set (r := (n mod Z.pos d)%Z) in *.
  clearbody f r.
  destruct (Z.compare_spec (2 * r) (Z.pos d)) as [E|E|E].
  - right. destruct (Z.even f) eqn:Ev.
    + split; [exact Ev|]. left. apply half_below_integer. lia.
    + split.
      * rewrite Z.add_1_r, Z.even_succ, <- Z.negb_even, Ev. reflexivity.
      * right. apply half_above_integer. lia.
  - left. split; [apply above_integer | apply below_integer]; lia.
  - left. split; [apply above_integer | apply below_integer]; lia.
Qed.

(** Rounding keeps the order. *)
Lemma round_half_even_mono q1 q2 :
  q1 <= q2 -> (round_half_even q1 <= round_half_even q2)%Z.
Proof.
  intros Hle.
  destruct (Z_le_gt_dec (round_half_even q1) (round_half_even q2)) as [H|H];
    [exact H | exfalso].
  assert (Hz : inject_Z (round_half_even q2) + 1 <= inject_Z (round_half_even q1)).
  { change 1 with (inject_Z 1). rewrite <- inject_Z_plus, <- Zle_Qle. lia. }
  pose proof (round_half_even_bounds q1) as B1.
  pose proof (round_half_even_bounds q2) as B2.
  destruct (round_half_even_spec q1) as [[S1 S1']|[E1 T1]];
    destruct (round_half_even_spec q2) as [[S2 S2']|[E2 T2]]; try lra.
  assert (Hq : inject_Z (round_half_even q1) == inject_Z (round_half_even q2) + 1).
  { destruct T1, T2; lra. }
  change 1 with (inject_Z 1) in Hq. rewrite <- inject_Z_plus in Hq.
  assert (Hq' : round_half_even q1 = (round_half_even q2 + 1)%Z).
  { unfold Qeq in Hq. cbn in Hq. lia. }
  rewrite Hq', Z.add_1_r, Z.even_succ, <- Z.negb_even, E2 in E1. discriminate.
Qed.

(** A printed allocation is within half a ten-thousandth of the value. *)
Lemma format_4f_close v : Qabs (printed_value (format_4f v) - v) <= 0.00005.
Proof.
  unfold printed_value, format_4f.
  pose proof (round_half_even_bounds (v * 10000)) as [B1 B2].
  set (z := inject_Z (round_half_even (v * 10000))) in *. clearbody z.
  assert (E : z / 10000 == z * (1 # 10000)) by field.
  apply Qabs_Qle_condition. rewrite E. split; lra.
Qed.

Lemma format_4f_mono v1 v2 : v1 <= v2 -> (format_4f v1 <= format_4f v2)%Z.
Proof.
  intros H. apply round_half_even_mono. lra.
Qed.

(** ** The order of the lines *)

Lemma insert_by_value_perm x l : Permutation (insert_by_value x l) (x :: l).
Proof.
  induction l as [|y t IH]; cbn.
  - reflexivity.
  - destruct (Q_geb (snd x) (snd y)); [reflexivity|].
    rewrite IH. apply perm_swap.
Qed.

Lemma sorted_by_value_desc_perm l : Permutation (sorted_by_value_desc l) l.
Proof.
  induction l as [|x l IH]; cbn.
  - reflexivity.
  - rewrite insert_by_value_perm. now constructor.
Qed.

Lemma insert_by_value_sorted x l :
  StronglySorted (fun a b : Z * Q => snd b <= snd a) l ->
  StronglySorted (fun a b : Z * Q => snd b <= snd a) (insert_by_value x l).
Proof.
  induction 1 as [|y t Hs IH Hy]; cbn.
  - constructor; constructor.
  - destruct (Q_geb (snd x) (snd y)) eqn:E.
    + apply Q_geb_ge in E. constructor; [now constructor|].
      constructor; [exact E|].
      eapply Forall_impl; [|exact Hy]. cbn. intros a Ha. lra.
    + assert (Hlt : snd x < snd y).
      { apply Qnot_le_lt. intros Hle. apply Q_geb_ge in Hle. congruence. }
      constructor; [exact IH|].
      eapply Permutation_Forall; [symmetry; apply insert_by_value_perm|].
      constructor; [lra | exact Hy].
Qed.

Lemma sorted_by_value_desc_sorted l :
  StronglySorted (fun a b : Z * Q => snd b <= snd a) (sorted_by_value_desc l).
Proof.
  induction l as [|x l IH]; cbn.
  - constructor.
  - now apply insert_by_value_sorted.
Qed.

Lemma StronglySorted_map {A B} (R : A -> A -> Prop) (R' : B -> B -> Prop)
      (g : A -> B) l :
  (forall a b, R a b -> R' (g a) (g b)) ->
  StronglySorted R l -> StronglySorted R' (map g l).
Proof.
  intros Hg. induction 1 as [|x l Hs IH Hx]; cbn; constructor.
  - exact IH.
  - apply Forall_map. eapply Forall_impl; [|exact Hx]. intros a. apply Hg.
Qed.

(** The printed numbers go down the file. *)
Lemma file_lines_sorted strategy :
  StronglySorted (fun a b : Z * Z => (snd b <= snd a)%Z) (file_lines strategy).
Proof.
  unfold file_lines.
  eapply StronglySorted_map; [|apply sorted_by_value_desc_sorted].
  intros a b H. cbn. now apply format_4f_mono.
Qed.

Lemma in_strategy_dict strategy k v :
  In (k, v) (strategy_dict strategy) <-> In (k, v) strategy /\ 0.001 < v.
Proof.
  unfold strategy_dict. rewrite filter_In. cbn. unfold Q_gtb.
  rewrite Q_ltb_lt. tauto.
Qed.

Lemma in_file_lines strategy k n :
  In (k, n) (file_lines strategy) <->
  exists v, In (k, v) strategy /\ 0.001 < v /\ n = format_4f v.
Proof.
  unfold file_lines. rewrite in_map_iff. split.
  - intros ([k' v] & E & Hin). cbn in E. inversion E; subst.
    exists v.
    assert (Hin' : In (k, v) (strategy_dict strategy))
      by (eapply Permutation_in; [apply sorted_by_value_desc_perm | exact Hin]).
    apply in_strategy_dict in Hin'. tauto.
  - intros (v & Hin & Hv & ->). exists (k, v). split; [reflexivity|].
    eapply Permutation_in; [symmetry; apply sorted_by_value_desc_perm|].
    now apply in_strategy_dict.
Qed.

Lemma file_lines_length strategy :
  length (file_lines strategy) = length (strategy_dict strategy).
Proof.
  unfold file_lines. rewrite length_map.
  apply Permutation_length, sorted_by_value_desc_perm.
Qed.

(** ** Reading the file back *)

Lemma get_app {V} (d1 d2 : Dict.t V) k :
  Dict.get (d1 ++ d2) k
  = match Dict.get d1 k with Some v => Some v | None => Dict.get d2 k end.
Proof.
  induction d1 as [|[k0 v0] d1 IH]; cbn; [reflexivity|].
  destruct (Z.eqb k0 k); [reflexivity | exact IH].
Qed.

Lemma get_map_values {V W} (g : V -> W) (d : Dict.t V) k :
  Dict.get (map (fun kv => (fst kv, g (snd kv))) d) k
  = option_map g (Dict.get d k).
Proof.
  induction d as [|[k0 v0] d IH]; cbn; [reflexivity|].
  destruct (Z.eqb k0 k); [reflexivity | exact IH].
Qed.

Lemma keys_map_values {V W} (g : V -> W) (d : Dict.t V) :
  Dict.keys (map (fun kv => (fst kv, g (snd kv))) d) = Dict.keys d.
Proof.
  unfold Dict.keys. rewrite map_map. reflexivity.
Qed.

Lemma filter_keys_nodup {V} (p : Z * V -> bool) (d : Dict.t V) :
  NoDup (Dict.keys d) -> NoDup (Dict.keys (filter p d)).
Proof.
  induction d as [|[k0 v0] d IH]; cbn; intros Hnd; [constructor|].
  inversion Hnd as [|? ? Hnotin Hnd']; subst.
  destruct (p (k0, v0)); cbn; [|now apply IH].
  constructor; [|now apply IH].
  intros Hin. apply Hnotin. unfold Dict.keys in *.
  apply in_map_iff in Hin. destruct Hin as (x & E & Hx).
  apply filter_In in Hx. apply in_map_iff. exists x. tauto.
Qed.

Lemma get_filter {V} (p : Z * V -> bool) (d : Dict.t V) k :
  NoDup (Dict.keys d) ->
  Dict.get (filter p d) k
  = match Dict.get d k with
    | Some v => if p (k, v) then Some v else None
    | None => None
    end.
Proof.
  induction d as [|[k0 v0] d IH]; cbn; intros Hnd; [reflexivity|].
  inversion Hnd as [|? ? Hnotin Hnd']; subst.
  destruct (Z.eqb k0 k) eqn:E.
  - apply Z.eqb_eq in E. subst k0.
    destruct (p (k, v0)) eqn:Ep; cbn.
    + now rewrite Z.eqb_refl.
    + apply get_none_iff. intros Hin. apply Hnotin.
      unfold Dict.keys in *. apply in_map_iff in Hin.
      destruct Hin as (x & Ex & Hx). apply filter_In in Hx.
      apply in_map_iff. exists x. tauto.
  - destruct (p (k0, v0)); cbn; [rewrite E|]; now apply IH.
Qed.

(** Evaluating a dictionary display: the last entry written under a key
    is the one found. *)
Lemma get_eval_loop (lines : list (Z * Z)) : forall (acc : Dict.t Q) k,
  Dict.get (fold_left (fun d kv => Dict.set d (fst kv) (printed_value (snd kv)))
                      lines acc) k
  = match Dict.get (rev lines) k with
    | Some n => Some (printed_value n)
    | None => Dict.get acc k
    end.
Proof.
  induction lines as [|[k0 n0] lines IH]; intros acc k; cbn [fold_left rev].
  - reflexivity.
  - rewrite IH, get_app. destruct (Dict.get (rev lines) k); [reflexivity|].
    cbn. destruct (Z.eqb k0 k) eqn:E.
    + apply Z.eqb_eq in E. subst k0. apply get_set_same.
    + apply Z.eqb_neq in E. now apply get_set_other.
Qed.

(** Saving and reading back: an entry above 0.001 comes back as its
    printed value, the others are gone. *)
Lemma get_eval_file_lines strategy k :
  NoDup (Dict.keys strategy) ->
  Dict.get (eval_strategy_file (file_lines strategy)) k
  = match Dict.get strategy k with
    | Some v => if Q_gtb v 0.001 then Some (printed_value (format_4f v)) else None
    | None => None
    end.
Proof.
  intros Hnd. unfold eval_strategy_file. rewrite get_eval_loop.
  assert (Hnd1 : NoDup (Dict.keys (strategy_dict strategy)))
    by now apply filter_keys_nodup.
  assert (Hnd2 : NoDup (Dict.keys (sorted_by_value_desc (strategy_dict strategy)))).
  { eapply Permutation_NoDup; [|exact Hnd1].
    apply Permutation_map. symmetry. apply sorted_by_value_desc_perm. }
  assert (Hnd3 : NoDup (Dict.keys (file_lines strategy))).
  { unfold file_lines. now rewrite keys_map_values. }
  rewrite <- (get_perm (file_lines strategy) (rev (file_lines strategy)) k Hnd3
                       (Permutation_rev _)).
  unfold file_lines. rewrite get_map_values.
  rewrite (get_perm _ (strategy_dict strategy) k Hnd2 (sorted_by_value_desc_perm _)).
  unfold strategy_dict. rewrite (get_filter _ strategy k Hnd). cbn.
  destruct (Dict.get strategy k) as [v|]; [|reflexivity].
  cbn. destruct (Q_gtb v 0.001); reflexivity.
Qed.

End PersistFacts.

Section PersistExtras.
Import Persist PersistFacts DictFacts DictMore.

(** X14: [save_strategy_to_file].  When the write goes through, a
    non-empty strategy is saved as follows: the method returns [True] and
    records the time in [last_rebalance]; the file has one line for each
    entry above 0.001 and no other line; the number printed on a line is
    within 0.00005 of the allocation; and the printed numbers never
    increase down the file. *)
Theorem X14_saved_file_lines self strategy now :
  strategy <> [] ->
  exists lines,
    save_strategy_to_file self strategy true now
    = (set_last_rebalance self now, true, Some lines) /\
    (forall k n, In (k, n) lines ->
       exists v, In (k, v) strategy /\ 0.001 < v /\
                 Qabs (printed_value n - v) <= 0.00005) /\
    (forall k v, In (k, v) strategy -> 0.001 < v ->
       exists n, In (k, n) lines /\ Qabs (printed_value n - v) <= 0.00005) /\
    length lines
    = length (filter (fun kv : Z * Q => Q_gtb (snd kv) 0.001) strategy) /\
    StronglySorted (fun a b : Z * Z => (snd b <= snd a)%Z) lines.
Proof.
  intros Hne. exists (file_lines strategy).
  split; [|split; [|split; [|split]]].
  - unfold save_strategy_to_file. destruct strategy; [congruence | reflexivity].
  - intros k n Hin. apply in_file_lines in Hin. destruct Hin as (v & Hin & Hv & ->).
    exists v. repeat split; [exact Hin | exact Hv | apply format_4f_close].
  - intros k v Hin Hv. exists (format_4f v). split; [|apply format_4f_close].
    apply in_file_lines. exists v. tauto.
  - apply file_lines_length.
  - apply file_lines_sorted.
Qed.

Lemma X14_witness :
  exists lines,
    save_strategy_to_file default_optimizer with_dust true one_hour
    = (set_last_rebalance default_optimizer one_hour, true, Some lines) /\
    (forall k n, In (k, n) lines ->
       exists v, In (k, v) with_dust /\ 0.001 < v /\
                 Qabs (printed_value n - v) <= 0.00005) /\
    (forall k v, In (k, v) with_dust -> 0.001 < v ->
       exists n, In (k, n) lines /\ Qabs (printed_value n - v) <= 0.00005) /\
    length lines
    = length (filter (fun kv : Z * Q => Q_gtb (snd kv) 0.001) with_dust) /\
    StronglySorted (fun a b : Z * Z => (snd b <= snd a)%Z) lines.
Proof.
  apply (X14_saved_file_lines default_optimizer with_dust one_hour).
  discriminate.
Defined.

(** X15: [save_strategy_to_file], then [should_rebalance].  After a save
    that went through at time [now], a comparison of two non-empty
    strategies at time [later] is refused while less than 6 hours
    (21 600 000 000 microseconds) have passed since [now], whatever the two
    strategies are; from then on it is accepted exactly when the largest
    difference reaches the threshold. *)
Theorem X15_a_save_starts_the_cooldown self strategy now later cur new :
  strategy <> [] -> cur <> [] -> new <> [] ->
  Rebalance.should_rebalance
    (fst (fst (save_strategy_to_file self strategy true now))) later cur new
  = if (later - now <? 21600000000)%Z then false
    else Q_geb (Rebalance.max_diff cur new) (rebalance_threshold self).
Proof.
  intros Hs Hc Hn. unfold save_strategy_to_file.
  destruct strategy as [|e strategy]; [congruence|]. cbn [Dict.is_empty fst].
  unfold Rebalance.should_rebalance.
  rewrite (RebalanceFacts.is_empty_false cur Hc), (RebalanceFacts.is_empty_false new Hn).
  cbn [orb]. unfold Rebalance.cooldown_blocks. cbn [last_rebalance set_last_rebalance].
  rewrite RebalanceMore.hours_lt_6. cbn [rebalance_threshold]. reflexivity.
Qed.

Lemma X15_witness :
  Rebalance.should_rebalance
    (fst (fst (save_strategy_to_file default_optimizer half_half true one_hour)))
    seven_hours half_half tilted
  = if (seven_hours - one_hour <? 21600000000)%Z then false
    else Q_geb (Rebalance.max_diff half_half tilted)
               (rebalance_threshold default_optimizer).
Proof.
  apply (X15_a_save_starts_the_cooldown default_optimizer half_half one_hour
           seven_hours half_half tilted); discriminate.
Defined.

(** X16: [save_strategy_to_file], then [eval] of the file.  Reading a
    saved strategy back gives, for an entity whose allocation was above
    0.001, a value within 0.0001 of that allocation, and no entry for any
    other entity.  The printed decimal is within 0.00005 of the allocation;
    the bound of 0.0001 leaves room for the rounding of the float that
    [eval] makes of the decimal. *)
Theorem X16_reading_the_file_back strategy k :
  NoDup (Dict.keys strategy) ->
  (forall v, Dict.get strategy k = Some v -> 0.001 < v ->
     exists p, Dict.get (eval_strategy_file (file_lines strategy)) k = Some p /\
               Qabs (p - v) <= 0.0001) /\
  (forall v, Dict.get strategy k = Some v -> v <= 0.001 ->
     Dict.get (eval_strategy_file (file_lines strategy)) k = None) /\
  (Dict.get strategy k = None ->
     Dict.get (eval_strategy_file (file_lines strategy)) k = None).
Proof.
  intros Hnd. rewrite (get_eval_file_lines strategy k Hnd).
  split; [|split].
  - intros v -> Hv. unfold Q_gtb.
    destruct (Q_ltb 0.001 v) eqn:E.
    + eexists. split; [reflexivity|].
      eapply Qle_trans; [apply format_4f_close | discriminate].
    + apply Q_ltb_ge in E. lra.
  - intros v -> Hv. unfold Q_gtb.
    destruct (Q_ltb 0.001 v) eqn:E; [|reflexivity].
    apply Q_ltb_lt in E. lra.
  - intros ->. reflexivity.
Qed.

Lemma X16_witness :
  (forall v, Dict.get with_dust 1%Z = Some v -> 0.001 < v ->
     exists p, Dict.get (eval_strategy_file (file_lines with_dust)) 1%Z = Some p /\
               Qabs (p - v) <= 0.0001) /\
  (forall v, Dict.get with_dust 1%Z = Some v -> v <= 0.001 ->
     Dict.get (eval_strategy_file (file_lines with_dust)) 1%Z = None) /\
  (Dict.get with_dust 1%Z = None ->
     Dict.get (eval_strategy_file (file_lines with_dust)) 1%Z = None).
Proof.
  apply (X16_reading_the_file_back with_dust 1%Z).
  vm_compute. repeat constructor; cbn; intuition discriminate.
Defined.

Lemma alloc_diff_after_reading_back strategy k :
  NoDup (Dict.keys strategy) ->
  all_entries (fun _ v => 0 <= v) strategy ->
  Rebalance.alloc_diff (eval_strategy_file (file_lines strategy)) strategy k
  <= 0.001.
Proof.
  intros Hnd Hpos. unfold Rebalance.alloc_diff, Dict.get_default. cbv zeta.
  rewrite (get_eval_file_lines strategy k Hnd).
  destruct (Dict.get strategy k) as [v|] eqn:E.
  - assert (Hv : 0 <= v).
    { apply get_in in E. unfold all_entries in Hpos.
      rewrite Forall_forall in Hpos. exact (Hpos _ E). }
    unfold Q_gtb. destruct (Q_ltb 0.001 v) eqn:Ev.
    + rewrite Qabs_Qminus.
      eapply Qle_trans; [apply format_4f_close | lra].
    + apply Q_ltb_ge in Ev. apply Qabs_Qle_condition. lra.
  - apply Qabs_Qle_condition. lra.
Qed.

(** X17: [save_strategy_to_file], [eval] of the file, [should_rebalance].
    A strategy that is compared with its own saved file is never accepted
    for rebalancing, when the threshold is above 0.001, no allocation is
    negative and some allocation is above 0.001 (so that the file is not
    empty): what the rounding and the dropped entries change stays below
    the threshold. *)
Theorem X17_a_saved_strategy_is_not_proposed_again self now strategy :
  NoDup (Dict.keys strategy) ->
  all_entries (fun _ v => 0 <= v) strategy ->
  (exists k v, In (k, v) strategy /\ 0.001 < v) ->
  0.001 < rebalance_threshold self ->
  Rebalance.should_rebalance self now
    (eval_strategy_file (file_lines strategy)) strategy = false.
Proof.
  intros Hnd Hpos (k & v & Hin & Hv) Hthr.
  unfold Rebalance.should_rebalance.
  assert (Hcur : eval_strategy_file (file_lines strategy) <> []).
  { intros Hnil.
    pose proof (get_eval_file_lines strategy k Hnd) as Hget.
    rewrite Hnil, (in_get strategy k v Hnd Hin) in Hget. cbn in Hget.
    unfold Q_gtb in Hget. apply Q_ltb_lt in Hv. rewrite Hv in Hget.
    discriminate. }
  assert (Hnew : strategy <> []) by (intros ->; destruct Hin).
  rewrite (RebalanceFacts.is_empty_false _ Hcur),
          (RebalanceFacts.is_empty_false _ Hnew). cbn [orb].
  destruct (Rebalance.cooldown_blocks self now); [reflexivity|].
  apply not_true_is_false. intros Hge. apply Q_geb_ge in Hge.
  unfold Rebalance.max_diff, Rebalance.max_diff_over in Hge.
  destruct (RebalanceFacts.fold_max_spec
              (eval_strategy_file (file_lines strategy)) strategy
              (Rebalance.all_subnets (eval_strategy_file (file_lines strategy))
                                     strategy) 0 _ eq_refl)
    as (_ & _ & [Hz | (k' & _ & Hk')]).
  - rewrite Hz in Hge. lra.
  - rewrite Hk' in Hge.
    pose proof (alloc_diff_after_reading_back strategy k' Hnd Hpos). lra.
Qed.

Lemma X17_witness :
  Rebalance.should_rebalance default_optimizer one_hour
    (eval_strategy_file (file_lines with_dust)) with_dust = false.
Proof.
  apply (X17_a_saved_strategy_is_not_proposed_again default_optimizer one_hour
           with_dust).
  - vm_compute. repeat constructor; cbn; intuition discriminate.
  - unfold all_entries, with_dust. repeat constructor; cbn; lra.
  - exists 1%Z, 0.25. split; [cbn; tauto | reflexivity].
  - reflexivity.
Defined.

End PersistExtras.

(* ================================================================== *)
(** * The miner: what an optimization and a monitoring pass change *)

Module MinerFacts.
Import Miner.

Lemma last_n_length {A} n (l : list A) :
  length (last_n n l) = Nat.min n (length l).
Proof. unfold last_n. rewrite length_skipn. lia. Qed.

Lemma last_n_all {A} n (l : list A) : (length l <= n)%nat -> last_n n l = l.
Proof.
  intros H. unfold last_n. replace (length l - n)%nat with O by lia. reflexivity.
Qed.

Lemma with_optimizer_same miner :
  with_optimizer miner (strategy_optimizer miner) = miner.
Proof. now destruct miner. Qed.

(** The three ways [optimize_strategy] ends. *)
Lemma optimize_strategy_cases miner force w :
  let current_strategy :=
    match stored_strategy w with Some d => d | None => Dict.empty end in
  let accepted :=
    force || Rebalance.should_rebalance (strategy_optimizer miner) (now_check w)
                                        current_strategy (generated w) in
  optimize_strategy miner force w
  = if Dict.is_empty (generated w) then (miner, false)
    else if accepted then
      if write_ok w then
        (with_last_optimization
           (with_history
              (with_optimizer miner
                 (set_last_rebalance (strategy_optimizer miner) (now_save w)))
              (strategy_history miner
               ++ [ {| history_timestamp := time_history w;
                       old_strategy := current_strategy;
                       new_strategy := generated w;
                       reason := if force then forced else automatic |} ]))
           (time_done w), true)
      else (miner, false)
    else (with_last_optimization miner (time_done w), false).
Proof.
  cbv zeta. unfold optimize_strategy, Persist.save_strategy_to_file.
  destruct (Dict.is_empty (generated w)) eqn:E; [reflexivity|].
  destruct (force || _); [|reflexivity].
  destruct (write_ok w); [reflexivity|].
  now rewrite with_optimizer_same.
Qed.

Lemma optimize_strategy_log miner force w :
  performance_log (fst (optimize_strategy miner force w)) = performance_log miner.
Proof.
  rewrite optimize_strategy_cases. cbv zeta.
  destruct (Dict.is_empty (generated w)); [reflexivity|].
  destruct (force || _); [|reflexivity].
  destruct (write_ok w); reflexivity.
Qed.

Lemma optimize_strategy_settings miner force w :
  optimization_interval (fst (optimize_strategy miner force w))
  = optimization_interval miner /\
  emergency_rebalance_threshold (fst (optimize_strategy miner force w))
  = emergency_rebalance_threshold miner /\
  rebalance_threshold (strategy_optimizer (fst (optimize_strategy miner force w)))
  = rebalance_threshold (strategy_optimizer miner).
Proof.
  rewrite optimize_strategy_cases. cbv zeta.
  destruct (Dict.is_empty (generated w)); [tauto|].
  destruct (force || _); [|cbn; tauto].
  destruct (write_ok w); cbn; tauto.
Qed.

Lemma is_empty_true {V} (d : Dict.t V) : Dict.is_empty d = true <-> d = [].
Proof. destruct d; cbn; split; congruence. Qed.

Lemma optimize_strategy_keeps_history_consistent miner force w :
  history_consistent miner ->
  history_consistent (fst (optimize_strategy miner force w)).
Proof.
  intros H. pose proof H as (H1 & H2 & H3).
  rewrite optimize_strategy_cases. cbv zeta.
  destruct (Dict.is_empty (generated w)) eqn:E; [exact H|].
  assert (Hne : generated w <> []).
  { intros He. apply is_empty_true in He. congruence. }
  destruct (force || _).
  - destruct (write_ok w); [|exact H].
    unfold history_consistent. cbn. repeat split.
    + intros Hnil. destruct (strategy_history miner); discriminate.
    + discriminate.
    + apply Forall_app. split; [exact H2|]. constructor; [exact Hne | constructor].
    + discriminate.
  - unfold history_consistent. cbn. repeat split; try tauto. discriminate.
Qed.

(** The ways [monitor_performance] ends: nothing changes, or one entry is
    logged and, after a poor return, an optimization is forced. *)
Lemma monitor_performance_cases miner ss58 pl t w :
  monitor_performance miner ss58 pl t w = miner \/
  exists e,
    let logged :=
      with_performance_log miner
        (if (30 <? length (performance_log miner ++ [e]))%nat
         then last_n 30 (performance_log miner ++ [e])
         else performance_log miner ++ [e]) in
    monitor_performance miner ss58 pl t w = logged \/
    monitor_performance miner ss58 pl t w = fst (optimize_strategy logged true w).
Proof.
  unfold monitor_performance.
  destruct (length (pnl_rows pl) =? 0)%nat; [now left|].
  destruct (0 <? length _)%nat; [|now left].
  destruct (1 <? length _)%nat; [|now left].
  right. eexists. cbv zeta.
  destruct (flt _ _); [right | left]; reflexivity.
Qed.

Lemma logged_length (log : list LogEntry) e :
  (length (if (30 <? length (log ++ [e]))%nat
           then last_n 30 (log ++ [e]) else log ++ [e]) <= 30)%nat.
Proof.
  destruct (Nat.ltb_spec 30 (length (log ++ [e]))) as [H|H].
  - rewrite last_n_length. lia.
  - exact H.
Qed.

Lemma with_performance_log_history_consistent miner l :
  history_consistent miner -> history_consistent (with_performance_log miner l).
Proof. intros H. exact H. Qed.

Lemma monitor_performance_log_bound miner ss58 pl t w :
  (length (performance_log miner) <= 30)%nat ->
  (length (performance_log (monitor_performance miner ss58 pl t w)) <= 30)%nat.
Proof.
  intros H.
  destruct (monitor_performance_cases miner ss58 pl t w) as [->|(e & [-> | ->])].
  - exact H.
  - cbn. apply logged_length.
  - rewrite optimize_strategy_log. cbn. apply logged_length.
Qed.

Lemma monitor_performance_keeps_history_consistent miner ss58 pl t w :
  history_consistent miner ->
  history_consistent (monitor_performance miner ss58 pl t w).
Proof.
  intros H.
  destruct (monitor_performance_cases miner ss58 pl t w) as [->|(e & [-> | ->])].
  - exact H.
  - exact H.
  - apply optimize_strategy_keeps_history_consistent. exact H.
Qed.

Lemma loop_pass_log_bound ss58 st p :
  (length (performance_log (fst st)) <= 30)%nat ->
  (length (performance_log (fst (loop_pass ss58 st p))) <= 30)%nat.
Proof.
  destruct st as [miner step]. cbn [fst]. intros Hlog.
  unfold loop_pass. destruct (submission_raises p); [exact Hlog|].
  cbv zeta. cbn [fst].
  set (m1 := if _ && _ then _ else miner).
  assert (Hlog1 : (length (performance_log m1) <= 30)%nat).
  { subst m1. destruct (_ && _); [|exact Hlog]. now rewrite optimize_strategy_log. }
  destruct (step mod 600 =? 0)%nat; [|exact Hlog1].
  now apply monitor_performance_log_bound.
Qed.

Lemma loop_pass_keeps_history_consistent ss58 st p :
  history_consistent (fst st) ->
  history_consistent (fst (loop_pass ss58 st p)).
Proof.
  destruct st as [miner step]. cbn [fst]. intros Hhist.
  unfold loop_pass. destruct (submission_raises p); [exact Hhist|].
  cbv zeta. cbn [fst].
  set (m1 := if _ && _ then _ else miner).
  assert (Hhist1 : history_consistent m1).
  { subst m1. destruct (_ && _); [|exact Hhist].
    now apply optimize_strategy_keeps_history_consistent. }
  destruct (step mod 600 =? 0)%nat; [|exact Hhist1].
  now apply monitor_performance_keeps_history_consistent.
Qed.

Lemma miner_init_history_consistent : history_consistent miner_init.
Proof. unfold history_consistent. cbn. repeat split; auto. Qed.

End MinerFacts.

Section MinerExtras.
Import Miner MinerFacts.

(** X18: [run_enhanced_miner], [monitor_performance].  However long the
    miner runs and whatever it reads, the performance log never holds more
    than 30 entries. *)
Theorem X18_performance_log_holds_at_most_30 ss58 w0 passes :
  (length (performance_log (fst (run_enhanced_miner ss58 w0 passes))) <= 30)%nat.
Proof.
  unfold run_enhanced_miner.
  assert (H0 : (length (performance_log
                          (fst (fst (optimize_strategy miner_init true w0), O)))
                <= 30)%nat).
  { cbn [fst]. rewrite optimize_strategy_log. cbn. lia. }
  revert H0. generalize (fst (optimize_strategy miner_init true w0), O).
  induction passes as [|p passes IH]; intros st H; cbn [fold_left].
  - exact H.
  - apply IH. now apply loop_pass_log_bound.
Qed.

(** X19: [run_enhanced_miner], [optimize_strategy],
    [save_strategy_to_file].  In every state the running miner reaches,
    the history of strategy changes is empty exactly when the optimizer
    has no time of last rebalance, every change in the history records a
    proposal that is not empty, and a miner with a change in its history
    has a time of last optimization. *)
Theorem X19_history_agrees_with_the_time_stamps ss58 w0 passes :
  (strategy_history (fst (run_enhanced_miner ss58 w0 passes)) = [] <->
   last_rebalance (strategy_optimizer (fst (run_enhanced_miner ss58 w0 passes)))
   = None) /\
  Forall (fun e => new_strategy e <> [])
         (strategy_history (fst (run_enhanced_miner ss58 w0 passes))) /\
  (strategy_history (fst (run_enhanced_miner ss58 w0 passes)) <> [] ->
   last_optimization (fst (run_enhanced_miner ss58 w0 passes)) <> None).
Proof.
  change (history_consistent (fst (run_enhanced_miner ss58 w0 passes))).
  unfold run_enhanced_miner.
  assert (H0 : history_consistent
                 (fst (fst (optimize_strategy miner_init true w0), O))).
  { cbn [fst]. apply optimize_strategy_keeps_history_consistent.
    exact miner_init_history_consistent. }
  revert H0. generalize (fst (optimize_strategy miner_init true w0), O).
  induction passes as [|p passes IH]; intros st H; cbn [fold_left].
  - exact H.
  - apply IH. now apply loop_pass_keeps_history_consistent.
Qed.

(** X20: [optimize_strategy].  The method returns [True] exactly when a
    strategy was generated, the rebalance was forced or accepted by
    [should_rebalance], and the file was written.  Then one entry is added
    at the end of the history, with the strategy read from the file (empty
    when there was none), the new strategy, and the reason [forced] or
    [automatic]; the two time stamps are set.  When it returns [False] the
    history and the optimizer are as before. *)
Theorem X20_true_exactly_when_the_file_is_written miner force w :
  (snd (optimize_strategy miner force w) = true <->
   generated w <> [] /\ write_ok w = true /\
   (force = true \/
    Rebalance.should_rebalance
      (strategy_optimizer miner) (now_check w)
      (match stored_strategy w with Some d => d | None => Dict.empty end)
      (generated w) = true)) /\
  (snd (optimize_strategy miner force w) = true ->
   strategy_history (fst (optimize_strategy miner force w))
   = strategy_history miner
     ++ [ {| history_timestamp := time_history w;
             old_strategy :=
               match stored_strategy w with Some d => d | None => Dict.empty end;
             new_strategy := generated w;
             reason := if force then forced else automatic |} ] /\
   last_rebalance (strategy_optimizer (fst (optimize_strategy miner force w)))
   = Some (now_save w) /\
   last_optimization (fst (optimize_strategy miner force w))
   = Some (time_done w)) /\
  (snd (optimize_strategy miner force w) = false ->
   strategy_history (fst (optimize_strategy miner force w))
   = strategy_history miner /\
   strategy_optimizer (fst (optimize_strategy miner force w))
   = strategy_optimizer miner).
Proof.
  rewrite optimize_strategy_cases. cbv zeta.
  destruct (Dict.is_empty (generated w)) eqn:E.
  - apply is_empty_true in E. cbn. repeat split; try discriminate; tauto.
  - assert (Hne : generated w <> []).
    { intros He. apply is_empty_true in He. congruence. }
    destruct force; cbn [orb].
    + destruct (write_ok w); cbn; repeat split; try discriminate; tauto.
    + destruct (Rebalance.should_rebalance _ _ _ _);
        [destruct (write_ok w)|]; cbn; repeat split; try discriminate;
        try tauto; intros (_ & _ & [?|?]); discriminate.
Qed.

Lemma fdiv_pos a b : 0 < b -> fdiv (Fin a) (Fin b) = Fin (a / b).
Proof.
  intros Hb. cbn. unfold Q_is_zero.
  destruct (Qeq_bool b 0) eqn:E; [|reflexivity].
  apply Qeq_bool_eq in E. lra.
Qed.

(** X21: [monitor_performance], [optimize_strategy].  When the last of the
    miner's own closing values of the past seven rows lies more than the
    emergency threshold below the first, a strategy that is generated and
    can be written is saved at once: the change is entered in the history
    as [forced] and the time of last rebalance is set, whether or not six
    hours have passed since the last rebalance and however small the
    change. *)
Theorem X21_a_poor_return_forces_a_save miner ss58 pl t w recent :
  has_hotkey_column pl = true ->
  recent = last_n 7 (map snd (filter (fun row => String.eqb (fst row) ss58)
                                     (pnl_rows pl))) ->
  (2 <= length recent)%nat ->
  0 < first_of recent ->
  last_of recent < (1 - emergency_rebalance_threshold miner) * first_of recent ->
  generated w <> [] -> write_ok w = true ->
  strategy_history (monitor_performance miner ss58 pl t w)
  = strategy_history miner
    ++ [ {| history_timestamp := time_history w;
            old_strategy :=
              match stored_strategy w with Some d => d | None => Dict.empty end;
            new_strategy := generated w;
            reason := forced |} ] /\
  last_rebalance (strategy_optimizer (monitor_performance miner ss58 pl t w))
  = Some (now_save w).
Proof.
  intros Hcol Hrecent Hlen Hfirst Hlast Hgen Hwrite.
  unfold monitor_performance. rewrite Hcol, <- Hrecent.
  assert (Hown : (0 < length (filter (fun row => String.eqb (fst row) ss58)
                                     (pnl_rows pl)))%nat).
  { rewrite Hrecent, last_n_length, length_map in Hlen. lia. }
  assert (Hrows : (length (pnl_rows pl) =? 0)%nat = false).
  { apply Nat.eqb_neq. intros Hz. apply length_zero_iff_nil in Hz.
    rewrite Hz in Hown. cbn in Hown. lia. }
  rewrite Hrows.
  apply Nat.ltb_lt in Hown. rewrite Hown.
  assert (H1 : (1 <? length recent)%nat = true) by (apply Nat.ltb_lt; lia).
  rewrite H1. cbv zeta.
  unfold recent_return_of. rewrite (fdiv_pos _ _ Hfirst).
  cbn [flt emergency_rebalance_threshold with_performance_log].
  assert (Hlt : Q_ltb ((last_of recent - first_of recent) / first_of recent)
                      (- emergency_rebalance_threshold miner) = true).
  { apply Q_ltb_lt. apply Qlt_shift_div_r; [exact Hfirst|]. lra. }
  rewrite Hlt, optimize_strategy_cases. cbv zeta.
  destruct (generated w) as [|g gs] eqn:Eg; [congruence|].
  cbn [Dict.is_empty orb]. rewrite Hwrite. cbn. split; reflexivity.
Qed.

Lemma X21_witness :
  strategy_history (monitor_performance miner_init "hk" falling_pnl 0 calm_world)
  = strategy_history miner_init
    ++ [ {| history_timestamp := time_history calm_world;
            old_strategy :=
              match stored_strategy calm_world with
              | Some d => d
              | None => Dict.empty
              end;
            new_strategy := generated calm_world;
            reason := forced |} ] /\
  last_rebalance (strategy_optimizer
                    (monitor_performance miner_init "hk" falling_pnl 0 calm_world))
  = Some (now_save calm_world).
Proof.
  apply (X21_a_poor_return_forces_a_save miner_init "hk" falling_pnl 0 calm_world
           [100; 80]).
  - reflexivity.
  - reflexivity.
  - cbn. lia.
  - reflexivity.
  - reflexivity.
  - discriminate.
  - reflexivity.
Defined.

(** X22: [optimize_strategy] twice, with [save_strategy_to_file] and
    [should_rebalance].  After a run that wrote the file, a run that is not
    forced and finds a non-empty strategy in the file writes nothing while
    less than 6 hours (21 600 000 000 microseconds) have passed since the
    write, whatever strategy is generated: it returns [False] and leaves
    the history and the optimizer as they are. *)
Theorem X22_no_unforced_change_within_six_hours miner force w1 w2 d :
  snd (optimize_strategy miner force w1) = true ->
  stored_strategy w2 = Some d -> d <> [] ->
  (now_check w2 - now_save w1 < 21600000000)%Z ->
  snd (optimize_strategy (fst (optimize_strategy miner force w1)) false w2)
  = false /\
  strategy_history
    (fst (optimize_strategy (fst (optimize_strategy miner force w1)) false w2))
  = strategy_history (fst (optimize_strategy miner force w1)) /\
  strategy_optimizer
    (fst (optimize_strategy (fst (optimize_strategy miner force w1)) false w2))
  = strategy_optimizer (fst (optimize_strategy miner force w1)).
Proof.
  intros Hdone Hstored Hd Hsoon.
  assert (Hlast : last_rebalance
                    (strategy_optimizer (fst (optimize_strategy miner force w1)))
                  = Some (now_save w1)).
  { revert Hdone. rewrite optimize_strategy_cases. cbv zeta.
    destruct (Dict.is_empty (generated w1)); [discriminate|].
    destruct (force || _); [|discriminate].
    destruct (write_ok w1); [reflexivity | discriminate]. }
  set (m1 := fst (optimize_strategy miner force w1)) in *. clearbody m1.
  rewrite optimize_strategy_cases. cbv zeta. rewrite Hstored.
  destruct (Dict.is_empty (generated w2)) eqn:E; [now repeat split|].
  assert (Hno : Rebalance.should_rebalance (strategy_optimizer m1) (now_check w2)
                                           d (generated w2) = false).
  { unfold Rebalance.should_rebalance.
    rewrite (RebalanceFacts.is_empty_false d Hd), E. cbn [orb].
    unfold Rebalance.cooldown_blocks. rewrite Hlast, RebalanceMore.hours_lt_6.
    apply Z.ltb_lt in Hsoon. now rewrite Hsoon. }
  rewrite Hno. cbn. now repeat split.
Qed.

Lemma X22_witness :
  snd (optimize_strategy (fst (optimize_strategy miner_init true calm_world))
                         false calm_world)
  = false /\
  strategy_history
    (fst (optimize_strategy (fst (optimize_strategy miner_init true calm_world))
                            false calm_world))
  = strategy_history (fst (optimize_strategy miner_init true calm_world)) /\
  strategy_optimizer
    (fst (optimize_strategy (fst (optimize_strategy miner_init true calm_world))
                            false calm_world))
  = strategy_optimizer (fst (optimize_strategy miner_init true calm_world)).
Proof.
  apply (X22_no_unforced_change_within_six_hours miner_init true calm_world
           calm_world half_half).
  - reflexivity.
  - reflexivity.
  - discriminate.
  - reflexivity.
Defined.

End MinerExtras.

(* ================================================================== *)
(** * The request filters: who is let through, and with what priority *)

Module AxonFacts.
Import Axon AxonValues.

Lemma index_first x l n : index x l = Some n -> first_position x l n.
Proof.
  revert n. induction l as [|y t IH]; intros n; cbn; [discriminate|].
  destruct (String.eqb y x) eqn:E.
  - apply String.eqb_eq in E. subst y. intros H. inversion H; subst.
    split; [reflexivity | intros m Hm; lia].
  - apply String.eqb_neq in E.
    destruct (index x t) as [n'|]; [|discriminate].
    intros H. inversion H; subst. destruct (IH n' eq_refl) as [H1 H2].
    split; [exact H1|].
    intros [|m] Hm; cbn; [congruence | apply H2; lia].
Qed.

Lemma first_position_unique x l n m :
  first_position x l n -> first_position x l m -> n = m.
Proof.
  intros [H1 H2] [H3 H4].
  destruct (Nat.lt_trichotomy n m) as [H|[H|H]]; [|exact H|].
  - exfalso. exact (H4 n H H1).
  - exfalso. exact (H2 m H H3).
Qed.

Lemma index_none x l : index x l = None <-> ~ In x l.
Proof.
  induction l as [|y t IH]; cbn; [tauto|].
  destruct (String.eqb y x) eqn:E.
  - apply String.eqb_eq in E. split; [discriminate | tauto].
  - apply String.eqb_neq in E.
    destruct (index x t) as [n|].
    + split; [discriminate|]. intros H. exfalso. apply H. right.
      destruct (in_dec string_dec x t) as [Hin|Hnin]; [exact Hin|].
      apply IH in Hnin. discriminate.
    + split; [|reflexivity]. intros _ [H|H]; [congruence|].
      revert H. now apply IH.
Qed.

Lemma index_some_contains x l n : index x l = Some n -> contains x l = true.
Proof.
  intros H. unfold contains. apply existsb_exists. exists x. split.
  - destruct (in_dec string_dec x l) as [Hin|Hnin]; [exact Hin|].
    apply index_none in Hnin. congruence.
  - apply String.eqb_refl.
Qed.

Lemma index_lt x l n : index x l = Some n -> (n < length l)%nat.
Proof.
  intros H. apply index_first in H. destruct H as [H _].
  apply nth_error_Some. congruence.
Qed.

End AxonFacts.

Section AxonExtras.
Import Axon AxonValues AxonFacts.

(** X23: [blacklist].  The setting [allow_non_registered] has no effect on
    the answer: a request whose hotkey is not in the metagraph is refused
    as unrecognized also when the setting is on, and for every request the
    answer is the same with the setting on and off. *)
Theorem X23_allow_non_registered_has_no_effect allow allow' force metagraph
        synapse :
  blacklist {| allow_non_registered := allow; force_validator_permit := force |}
            metagraph synapse
  = blacklist {| allow_non_registered := allow'; force_validator_permit := force |}
              metagraph synapse /\
  (forall h, request_hotkey synapse = Some h -> ~ In h (hotkeys metagraph) ->
     blacklist {| allow_non_registered := allow; force_validator_permit := force |}
               metagraph synapse
     = Returned (true, "Unrecognized hotkey"%string)).
Proof.
  unfold blacklist. cbn [allow_non_registered force_validator_permit]. split.
  - destruct (request_hotkey synapse) as [h|]; [|reflexivity].
    destruct (index h (hotkeys metagraph)) as [uid|] eqn:E; [|reflexivity].
    rewrite (index_some_contains _ _ _ E). cbn [negb].
    now rewrite !andb_false_r.
  - intros h -> Hnin. apply index_none in Hnin. now rewrite Hnin.
Qed.

(** X24: [blacklist].  On a metagraph with a validator permit for every
    hotkey the method always returns, and it lets a request through
    (returns [False]) exactly when the request has a hotkey that is in the
    metagraph and, if validator permits are required, the first neuron
    registered under that hotkey has one. *)
Theorem X24_who_is_let_through config metagraph synapse :
  length (validator_permit metagraph) = length (hotkeys metagraph) ->
  exists verdict message,
    blacklist config metagraph synapse = Returned (verdict, message) /\
    (verdict = false <->
     exists h uid,
       request_hotkey synapse = Some h /\
       first_position h (hotkeys metagraph) uid /\
       (force_validator_permit config = true ->
        nth_error (validator_permit metagraph) uid = Some true)).
Proof.
  intros Hlen. unfold blacklist.
  destruct (request_hotkey synapse) as [h|] eqn:Eh.
  2:{ do 2 eexists. split; [reflexivity|]. split; [discriminate|].
      intros (h & uid & H & _). discriminate. }
  destruct (index h (hotkeys metagraph)) as [uid|] eqn:E.
  2:{ do 2 eexists. split; [reflexivity|]. split; [discriminate|].
      intros (h' & uid & H & [Hn _] & _). inversion H; subst h'.
      apply index_none in E. exfalso. apply E. eapply nth_error_In. exact Hn. }
  rewrite (index_some_contains _ _ _ E). cbn [negb]. rewrite andb_false_r.
  pose proof (index_first _ _ _ E) as Hfirst.
  assert (Huniq : forall h' uid', Some h = Some h' ->
                    first_position h' (hotkeys metagraph) uid' -> uid' = uid).
  { intros h' uid' H H'. inversion H; subst h'.
    exact (first_position_unique _ _ _ _ H' Hfirst). }
  destruct (force_validator_permit config) eqn:Ef.
  - destruct (nth_error (validator_permit metagraph) uid) as [permit|] eqn:Ep.
    + destruct permit; cbn [negb].
      * do 2 eexists. split; [reflexivity|]. split; [|reflexivity].
        intros _. exists h, uid. repeat split; try apply Hfirst. now intros _.
      * do 2 eexists. split; [reflexivity|]. split; [discriminate|].
        intros (h' & uid' & H & H' & Hp).
        rewrite (Huniq _ _ H H'), Ep in Hp. specialize (Hp eq_refl). discriminate.
    + exfalso. apply nth_error_None in Ep. apply index_lt in E. lia.
  - do 2 eexists. split; [reflexivity|]. split; [|reflexivity].
    intros _. exists h, uid. repeat split; try apply Hfirst. discriminate.
Qed.

Lemma X24_witness :
  exists verdict message,
    blacklist strict_config small_metagraph (request_from "b")
    = Returned (verdict, message) /\
    (verdict = false <->
     exists h uid,
       request_hotkey (request_from "b") = Some h /\
       first_position h (hotkeys small_metagraph) uid /\
       (force_validator_permit strict_config = true ->
        nth_error (validator_permit small_metagraph) uid = Some true)).
Proof.
  apply (X24_who_is_let_through strict_config small_metagraph (request_from "b")).
  reflexivity.
Defined.

(** X25: [priority].  On a metagraph with a stake for every hotkey the
    method always returns: 0 for a request without a hotkey or with a
    hotkey that is not in the metagraph, and otherwise the stake of the
    first neuron registered under the hotkey. *)
Theorem X25_priority_is_the_stake_of_the_caller metagraph synapse :
  length (S metagraph) = length (hotkeys metagraph) ->
  exists p,
    priority metagraph synapse = Returned p /\
    (request_hotkey synapse = None -> p = 0) /\
    (forall h, request_hotkey synapse = Some h ->
       ~ In h (hotkeys metagraph) -> p = 0) /\
    (forall h uid, request_hotkey synapse = Some h ->
       first_position h (hotkeys metagraph) uid ->
       nth_error (S metagraph) uid = Some p).
Proof.
  intros Hlen. unfold priority.
  destruct (request_hotkey synapse) as [h|] eqn:Eh.
  2:{ exists 0. repeat split; try discriminate. }
  destruct (index h (hotkeys metagraph)) as [uid|] eqn:E.
  2:{ exists 0. repeat split; try discriminate.
      intros h' uid' H [Hn _]. inversion H; subst h'.
      apply index_none in E. exfalso. apply E. eapply nth_error_In. exact Hn. }
  pose proof (index_first _ _ _ E) as Hfirst.
  destruct (nth_error (S metagraph) uid) as [stake|] eqn:Es.
  - exists stake. repeat split; try discriminate.
    + intros h' H Hnin. inversion H; subst h'. exfalso. apply Hnin.
      destruct Hfirst as [Hn _]. eapply nth_error_In. exact Hn.
    + intros h' uid' H H'. inversion H; subst h'.
      now rewrite (first_position_unique _ _ _ _ H' Hfirst).
  - exfalso. apply nth_error_None in Es. apply index_lt in E. lia.
Qed.

Lemma X25_witness :
  exists p,
    priority small_metagraph (request_from "b") = Returned p /\
    (request_hotkey (request_from "b") = None -> p = 0) /\
    (forall h, request_hotkey (request_from "b") = Some h ->
       ~ In h (hotkeys small_metagraph) -> p = 0) /\
    (forall h uid, request_hotkey (request_from "b") = Some h ->
       first_position h (hotkeys small_metagraph) uid ->
       nth_error (S small_metagraph) uid = Some p).
Proof.
  apply (X25_priority_is_the_stake_of_the_caller small_metagraph (request_from "b")).
  reflexivity.
Defined.

End AxonExtras.

Section RebalanceExtras.
Import Rebalance RebalanceFacts RebalanceMore.

(** X26: [should_rebalance].  The answer does not depend on which of the
    two strategies is the current one and which the new one: exchanging
    them gives the same answer. *)
Theorem X26_should_rebalance_is_symmetric self now current_strategy
        new_strategy :
  should_rebalance self now current_strategy new_strategy
  = should_rebalance self now new_strategy current_strategy.
Proof.
  unfold should_rebalance.
  rewrite (orb_comm (Dict.is_empty current_strategy)).
  destruct (Dict.is_empty new_strategy || Dict.is_empty current_strategy);
    [reflexivity|].
  destruct (cooldown_blocks self now); [reflexivity|].
  apply Q_geb_proper. apply max_diff_sym.
Qed.

End RebalanceExtras.

Section ScriptExtras.
Variable np_sqrt : Q -> Q.
Variable float_pow : Q -> Q -> fl.
Variable sort_values_desc : list (Z * fl) -> list (Z * fl).

(** X27: [main].  Run from the command line, the optimizer writes the
    strategy file exactly when a hotkey is given, a strategy is generated,
    the write goes through, and the strategy read from the file is empty or
    differs from the new one by at least 0.05 on some entity.  The six
    hours between rebalances play no part, since the optimizer is created
    anew in each run; what is written is the new strategy. *)
Theorem X27_main_writes_without_cooldown argv stored df now_check now_save
        write_ok lines :
  Script.main np_sqrt float_pow sort_values_desc argv stored df now_check
              now_save write_ok = Some lines
  <->
  (2 <= length argv)%nat /\
  Strategy.generate_strategy np_sqrt float_pow sort_values_desc
                             (init 30 0.05 0.25) df <> [] /\
  write_ok = true /\
  (match stored with Some d => d | None => Dict.empty end = [] \/
   0.05 <= Rebalance.max_diff
             (match stored with Some d => d | None => Dict.empty end)
             (Strategy.generate_strategy np_sqrt float_pow sort_values_desc
                                         (init 30 0.05 0.25) df)) /\
  lines = Persist.file_lines
            (Strategy.generate_strategy np_sqrt float_pow sort_values_desc
                                        (init 30 0.05 0.25) df).
Proof.
  unfold Script.main.
  destruct argv as [|a0 [|a1 rest]]; cbn [length].
  - split; [discriminate | intros (H & _); lia].
  - split; [discriminate | intros (H & _); lia].
  - cbv zeta.
    set (new := Strategy.generate_strategy np_sqrt float_pow sort_values_desc
                                           (init 30 0.05 0.25) df).
    set (cur := match stored with Some d => d | None => Dict.empty end).
    unfold Rebalance.should_rebalance, Persist.save_strategy_to_file,
           Rebalance.cooldown_blocks.
    cbn [last_rebalance init rebalance_threshold].
    assert (Hempty : forall d : Dict.t Q, Dict.is_empty d = true <-> d = [])
      by (intros [|? ?]; cbn; split; congruence).
    clearbody new cur.
    destruct (Dict.is_empty new) eqn:En.
    + rewrite orb_true_r. cbn [snd]. apply Hempty in En.
      split; [discriminate | intros (_ & H & _); congruence].
    + assert (Hnew : new <> []) by (intros H; apply Hempty in H; congruence).
      rewrite orb_false_r.
      destruct (Dict.is_empty cur) eqn:Ec.
      * apply Hempty in Ec. destruct write_ok; cbn [snd].
        -- split.
           ++ intros H. inversion H. repeat split; try lia; try assumption. now left.
           ++ intros (_ & _ & _ & _ & ->). reflexivity.
        -- split; [discriminate | intros (_ & _ & H & _); discriminate].
      * assert (Hcur : cur <> []) by (intros H; apply Hempty in H; congruence).
        destruct (Q_geb (Rebalance.max_diff cur new) 0.05) eqn:Eg.
        -- apply Q_geb_ge in Eg. destruct write_ok; cbn [snd].
           ++ split.
              ** intros H. inversion H. repeat split; try lia; try assumption.
                 now right.
              ** intros (_ & _ & _ & _ & ->). reflexivity.
           ++ split; [discriminate | intros (_ & _ & H & _); discriminate].
        -- split; [discriminate|].
           intros (_ & _ & _ & [H|H] & _); [congruence|].
           apply Q_geb_ge in H. congruence.
Qed.

End ScriptExtras.
